(** * DentalClinic-Backend: the request handlers of [api_server.py]

    A shallow embedding of the Flask handlers of [src/api_server.py] that the
    specification makes claims about: the voice-agent tool dispatcher
    ([vapi_webhook]), the WhatsApp and Instagram verification, receive and send
    handlers with their shared in-memory [messages_store], the inbox listing
    ([get_messages]) and the ads aggregation ([get_meta_campaigns]).

    Python values are modelled as the JSON-shaped data the handlers see,
    exceptions as an explicit [result], the module-level list [messages_store]
    and the outbound calls as a state threaded through a small
    state-and-exception monad.  Library functions whose behaviour is not part
    of this repository (the JSON and ISO-8601 parsers, [str()] of non-string
    values, the text of an exception, ...) and the outside world (environment
    variables, the clock, the answers of Google and of the Graph API) are
    parameters, collected in the records [pylib] and [world]. *)

From Stdlib Require Import ZArith List String Ascii Bool Lia.
From Stdlib Require Import DecimalString.
From Stdlib Require Import Floats.
Import ListNotations.

#[local] Set Warnings "-register-all".

Open Scope string_scope.
Open Scope Z_scope.

(** ** Python values *)

(** The values a handler manipulates: what [request.json] and
    [response.json()] produce, and what the handlers build from them.  A
    [VDict] is an insertion-ordered association list; lookups take the first
    binding of a key and [dict_set] never creates a second one. *)
Inductive value : Type :=
| VNone
| VBool (b : bool)
| VInt (z : Z)
| VFloat (f : float)
| VStr (s : string)
| VList (l : list value)
| VDict (kv : list (string * value)).

(** The exceptions the handlers can meet; all derive from [Exception], so every
    [except Exception] (and every bare [except]) catches each of them.
    [UpstreamError] stands for whatever a client library raises
    ([requests], [googleapiclient], [google.oauth2]). *)
Inductive exn : Type :=
| KeyError | IndexError | TypeError | AttributeError | ValueError
| NameError | OverflowError | ZeroDivisionError | UpstreamError.

Inductive result (A : Type) : Type :=
| Ok (a : A)
| Raise (e : exn).
Arguments Ok {A} a.
Arguments Raise {A} e.

Definition rbind {A B} (r : result A) (k : A -> result B) : result B :=
  match r with
  | Ok a => k a
  | Raise e => Raise e
  end.

Declare Scope result_scope.
Delimit Scope result_scope with res.
Notation "x <- r ;; k" := (rbind r (fun x => k))
  (at level 100, r at next level, right associativity) : result_scope.

(** *** Dictionaries *)

Fixpoint assoc (k : string) (kv : list (string * value)) : option value :=
  match kv with
  | [] => None
  | (k', v) :: rest => if String.eqb k k' then Some v else assoc k rest
  end.

(** [d[k] = v]: overwrite in place, or append a new key at the end. *)
Fixpoint dict_set (k : string) (v : value) (kv : list (string * value))
  : list (string * value) :=
  match kv with
  | [] => [(k, v)]
  | (k', v') :: rest =>
      if String.eqb k k' then (k', v) :: rest else (k', v') :: dict_set k v rest
  end.

(** *** Truth, equality with a literal, membership *)

(** [bool(v)], as [if v], [not v], [a or b] and [a and b] test it. *)
Definition truthy (v : value) : bool :=
  match v with
  | VNone => false
  | VBool b => b
  | VInt z => negb (z =? 0)
  | VFloat f => negb (f =? 0)%float
  | VStr s => negb (String.eqb s "")
  | VList l => match l with [] => false | _ :: _ => true end
  | VDict kv => match kv with [] => false | _ :: _ => true end
  end.

(** [a or b] on two already evaluated values. *)
Definition py_or (a b : value) : value := if truthy a then a else b.

(** [v == 'lit'] for a string literal: only the same string is equal to it. *)
Definition is_str (lit : string) (v : value) : bool :=
  match v with
  | VStr s => String.eqb s lit
  | _ => false
  end.

(** [v in [lit1, lit2, ...]]: a list of string literals. *)
Definition in_literals (v : value) (lits : list string) : bool :=
  existsb (fun lit => is_str lit v) lits.

(** [k in s] on strings: [k] occurs somewhere in [s]. *)
Fixpoint occurs_in (k s : string) : bool :=
  String.prefix k s
  || match s with
     | EmptyString => false
     | String _ s' => occurs_in k s'
     end.

(** ['k' in v] for a string literal ['k']: key membership on a dict, element
    membership on a list, substring test on a string, [TypeError] on
    anything else. *)
Definition contains (k : string) (v : value) : result bool :=
  match v with
  | VDict kv => Ok (match assoc k kv with Some _ => true | None => false end)
  | VList l => Ok (existsb (is_str k) l)
  | VStr s => Ok (occurs_in k s)
  | _ => Raise TypeError
  end.

(** *** Subscripts, [.get], iteration, [len] *)

(** [v['k']]. *)
Definition getitem (v : value) (k : string) : result value :=
  match v with
  | VDict kv => match assoc k kv with Some x => Ok x | None => Raise KeyError end
  | _ => Raise TypeError
  end.

(** [v.get('k', default)]; [v.get('k')] is [get v "k" VNone]. *)
Definition get (v : value) (k : string) (default : value) : result value :=
  match v with
  | VDict kv => Ok (match assoc k kv with Some x => x | None => default end)
  | _ => Raise AttributeError
  end.

(** [v[0]].  The keys of a dict are strings here, so [d[0]] finds nothing. *)
Definition index0 (v : value) : result value :=
  match v with
  | VList (x :: _) => Ok x
  | VList [] => Raise IndexError
  | VStr (String c _) => Ok (VStr (String c EmptyString))
  | VStr EmptyString => Raise IndexError
  | VDict _ => Raise KeyError
  | _ => Raise TypeError
  end.

Fixpoint chars (s : string) : list value :=
  match s with
  | EmptyString => []
  | String c s' => VStr (String c EmptyString) :: chars s'
  end.

(** The elements a [for x in v] loop visits: the items of a list, the keys of
    a dict, the characters of a string; nothing else is iterable. *)
Definition iter (v : value) : result (list value) :=
  match v with
  | VList l => Ok l
  | VDict kv => Ok (map (fun p => VStr (fst p)) kv)
  | VStr s => Ok (chars s)
  | _ => Raise TypeError
  end.

(** [len(v)]. *)
Definition len (v : value) : result Z :=
  match v with
  | VList l => Ok (Z.of_nat (List.length l))
  | VDict kv => Ok (Z.of_nat (List.length kv))
  | VStr s => Ok (Z.of_nat (String.length s))
  | _ => Raise TypeError
  end.

(** [str(z)] for an integer. *)
Definition str_of_Z (z : Z) : string := NilZero.string_of_int (Z.to_int z).

(** ** Numbers *)

(** Python's [float] is the IEEE binary64 format: sums, products and quotients
    of floats are the primitive ones.  The conversions below go through the
    exact mantissa-and-exponent view ([Prim2SF], [SF2Prim]). *)

(** [float(z)] for an integer: the nearest float, [OverflowError] when the
    integer is too large for one. *)
Definition float_of_Z (z : Z) : result float :=
  let f := SF2Prim (binary_normalize prec emax z 0 false) in
  if is_infinity f then Raise OverflowError else Ok f.

(** [a / b] on two integers (true division): the correctly rounded quotient. *)
Definition int_truediv (a b : Z) : result float :=
  if b =? 0 then Raise ZeroDivisionError
  else
    let negative := xorb (a <? 0) (b <? 0) in
    match Z.abs a, Z.abs b with
    | Zpos ma, Zpos mb =>
        let f := SF2Prim (SFdiv prec emax (S754_finite negative ma 0)
                                          (S754_finite false mb 0)) in
        if is_infinity f then Raise OverflowError else Ok f
    | _, _ => Ok (if negative then neg_zero else zero)
    end.

(** [x / n] for a float [x] and an integer [n]: [n] is converted first. *)
Definition float_div_int (x : float) (n : Z) : result float :=
  match float_of_Z n with
  | Raise e => Raise e
  | Ok d => if (d =? 0)%float then Raise ZeroDivisionError else Ok (x / d)%float
  end.

(** The integer nearest to [a / b] ([b > 0]), ties going to the even one. *)
Definition div_half_even (a b : Z) : Z :=
  let q := a / b in
  let r := a mod b in
  match 2 * r ?= b with
  | Lt => q
  | Gt => q + 1
  | Eq => if Z.even q then q else q + 1
  end.

(** [round(x, 2)]: the exact value of [x] is rounded to a multiple of 1/100
    (ties to even) and the float nearest to that decimal is returned;
    infinities and NaN round to themselves. *)
Definition round2 (x : float) : float :=
  match Prim2SF x with
  | S754_finite s m e =>
      let n := match e with
               | Zneg p => div_half_even (Zpos m * 100) (2 ^ Zpos p)
               | _ => Zpos m * 100 * 2 ^ e
               end in
      match n with
      | Zpos pn => SF2Prim (SFdiv prec emax (S754_finite s pn 0) (S754_finite false 100 0))
      | _ => if s then neg_zero else zero
      end
  | _ => x
  end.

(** [int(x)] for a float: truncation towards zero. *)
Definition int_of_float (x : float) : result Z :=
  match Prim2SF x with
  | S754_zero _ => Ok 0
  | S754_nan => Raise ValueError
  | S754_infinity _ => Raise OverflowError
  | S754_finite s m e =>
      let a := match e with
               | Zneg p => Zpos m / 2 ^ Zpos p
               | _ => Zpos m * 2 ^ e
               end in
      Ok (if s then - a else a)
  end.

(** ** Dates and times *)

(** The [tzinfo] of a [datetime]: a fixed offset, as an ISO string may carry
    one, or a named zone of the time-zone database ([ZoneInfo(key)]). *)
Inductive tzinfo : Type :=
| FixedOffset (microseconds : Z)
| ZoneInfo (key : string).

(** A [datetime]: its wall-clock reading, counted in microseconds since
    0001-01-01T00:00:00, and its optional time zone.  [datetime] arithmetic
    works on the wall-clock reading and leaves the zone alone. *)
Record datetime : Type := mkDatetime {
  wall : Z;
  tz : option tzinfo
}.

(** The last instant a [datetime] can hold, 9999-12-31T23:59:59.999999. *)
Definition wall_max : Z := 3652059 * 86400000000 - 1.

Definition hour_us : Z := 3600000000.

(** [d + timedelta(hours=h)]. *)
Definition add_hours (d : datetime) (h : Z) : result datetime :=
  let w := wall d + h * hour_us in
  if (0 <=? w) && (w <=? wall_max) then Ok (mkDatetime w (tz d))
  else Raise OverflowError.

(** [d.replace(tzinfo=z)].  Building [ZoneInfo(CLINIC_TZ)] is taken to
    succeed: the zone is in the time-zone database. *)
Definition replace_tzinfo (d : datetime) (z : tzinfo) : datetime :=
  mkDatetime (wall d) (Some z).

(** ** The library and the world *)

(** Library functions taken as parameters.  [None] stands for the function
    raising on that input. *)
Record pylib : Type := mkPylib {
  (** [json.loads(s)] *)
  json_loads : string -> option value;
  (** [datetime.fromisoformat(s)] *)
  fromisoformat : string -> option datetime;
  (** [d.isoformat()] *)
  isoformat : datetime -> string;
  (** [int(s)] and [float(s)] on a string *)
  int_of_string : string -> option Z;
  float_of_string : string -> option float;
  (** [str(v)] of a value that is not a string, as an f-string renders it *)
  repr : value -> string;
  (** [str(e)] of a caught exception *)
  exn_text : exn -> string;
  (** [s.lower()] *)
  lower : string -> string
}.

(** The answer of an outbound HTTP request: [status_code], [text] and what
    [.json()] gives (it raises when the body is not JSON). *)
Record http_response : Type := mkHttp {
  status_code : Z;
  text : string;
  json : result value
}.

(** What a handler reads from outside the process while it serves one request. *)
Record world : Type := mkWorld {
  (** [os.getenv(name)] *)
  getenv : string -> option string;
  (** [int(datetime.now().timestamp())] *)
  now_timestamp : Z;
  (** [get_google_service(name, version, scopes)]: it raises when the
      credentials cannot be loaded or the client cannot be built *)
  google_service : string -> string -> list string -> result unit;
  (** [service.events().insert(calendarId=c, body=b).execute()] *)
  events_insert : string -> value -> result value;
  (** [requests.post(url, json=payload, headers=...)] *)
  requests_post : string -> value -> result http_response;
  (** [requests.get(url, params=...)] *)
  requests_get : string -> list (string * value) -> result http_response
}.

(** [os.getenv(name, default)]. *)
Definition getenv_default (W : world) (name default : string) : string :=
  match getenv W name with
  | Some s => s
  | None => default
  end.

(** Truth of what [os.getenv] or [request.args.get] returned. *)
Definition present (o : option string) : bool :=
  match o with
  | Some s => negb (String.eqb s "")
  | None => false
  end.

(** [a or b] on two such optional strings. *)
Definition or_else (a b : option string) : option string :=
  if present a then a else b.

Definition CLINIC_TZ : string := "America/New_York".

(** [CALENDAR_ID = os.getenv('GOOGLE_CALENDAR_ID', 'primary')]. *)
Definition CALENDAR_ID (W : world) : string :=
  getenv_default W "GOOGLE_CALENDAR_ID" "primary".

(** ** State and effects *)

(** An outbound call that changes something outside the process. *)
Inductive effect : Type :=
| CalendarInsert (calendarId : string) (body : value)
| HttpPost (url : string) (payload : value).

(** The module-level list [messages_store], newest first, and the outbound
    calls issued so far, latest first. *)
Record state : Type := mkState {
  messages_store : list value;
  effects : list effect
}.

(** A computation that may raise and may change the state; what it did to the
    state before raising stays done. *)
Definition M (A : Type) : Type := state -> result A * state.

Definition ret {A} (a : A) : M A := fun st => (Ok a, st).

Definition raise {A} (e : exn) : M A := fun st => (Raise e, st).

Definition bind {A B} (m : M A) (k : A -> M B) : M B :=
  fun st =>
    match m st with
    | (Ok a, st') => k a st'
    | (Raise e, st') => (Raise e, st')
    end.

(** A pure step that may raise. *)
Definition lift {A} (r : result A) : M A := fun st => (r, st).

(** [try: m / except Exception as e: handler e]. *)
Definition try_except {A} (m : M A) (handler : exn -> M A) : M A :=
  fun st =>
    match m st with
    | (Ok a, st') => (Ok a, st')
    | (Raise e, st') => handler e st'
    end.

Declare Scope monad_scope.
Delimit Scope monad_scope with M.
Notation "x <- m ;; k" := (bind m (fun x => k))
  (at level 100, m at next level, right associativity) : monad_scope.
Notation "m ;;; k" := (bind m (fun _ => k))
  (at level 100, right associativity) : monad_scope.

(** [for x in xs: body x]. *)
Fixpoint for_each {A} (xs : list A) (body : A -> M unit) : M unit :=
  match xs with
  | [] => ret tt
  | x :: rest => bind (body x) (fun _ => for_each rest body)
  end.

(** [messages_store.insert(0, msg)]. *)
Definition store_insert0 (msg : value) : M unit :=
  fun st => (Ok tt, mkState (msg :: messages_store st) (effects st)).

Definition emit (e : effect) : M unit :=
  fun st => (Ok tt, mkState (messages_store st) (e :: effects st)).

(** What a view function returns: a body and a status code.  [BText None] is
    a view returning [None] as its body. *)
Inductive body : Type :=
| BJson (v : value)
| BText (s : option string).

Record response : Type := mkResponse {
  rbody : body;
  status : Z
}.

(** The outermost [try ... except Exception as e] of a handler. *)
Definition handler (m : M response) (on_error : exn -> response)
  : state -> response * state :=
  fun st =>
    match m st with
    | (Ok r, st') => (r, st')
    | (Raise e, st') => (on_error e, st')
    end.

(** ** The handlers *)

(** Each view takes what it reads from the request as its argument: the
    parsed JSON body ([request.json]) or the query parameters
    ([request.args]).  The [print] calls are left out: they format values
    and change nothing. *)

Section Handlers.

Variable L : pylib.
Variable W : world.

(** [f"{v}"]: a string is rendered as itself. *)
Definition str_of (v : value) : string :=
  match v with
  | VStr s => s
  | _ => repr L v
  end.

(** The string an [os.getenv] that tested true returned. *)
Definition env_str (o : option string) : string :=
  match o with
  | Some s => s
  | None => ""
  end.

Definition post (url : string) (payload : value) : M http_response :=
  bind (emit (HttpPost url payload)) (fun _ => lift (requests_post W url payload)).

Definition insert_event (calendarId : string) (event : value) : M value :=
  bind (emit (CalendarInsert calendarId event))
       (fun _ => lift (events_insert W calendarId event)).

Definition error_500 (e : exn) : response :=
  mkResponse (BJson (VDict [("error", VStr (exn_text L e))])) 500.

(** *** POST /api/vapi/webhook *)

(** [json.loads(function_args)] when the arguments come as a string, with [{}]
    for anything the parser refuses. *)
Definition parse_args (function_args : value) : value :=
  match function_args with
  | VStr s =>
      match json_loads L s with
      | Some v => v
      | None => VDict []
      end
  | _ => function_args
  end.

(** [args.get(k1) or args.get(k2)]. *)
Definition get_or (args : value) (k1 k2 : string) : result value :=
  (a <- get args k1 VNone ;;
   if truthy a then Ok a else get args k2 VNone)%res.

(** [datetime.fromisoformat(v)]. *)
Definition fromisoformat_value (v : value) : result datetime :=
  match v with
  | VStr s =>
      match fromisoformat L s with
      | Some d => Ok d
      | None => Raise ValueError
      end
  | _ => Raise TypeError
  end.

(** The string handed to the parser: [f"{day}T{time_iso}"] when [time_iso]
    has no ['T'] but has a [':'], [time_iso] itself otherwise. *)
Definition booking_time_text (day time_iso : value) : result value :=
  (has_T <- contains "T" time_iso ;;
   bare <- (if has_T then Ok false else contains ":" time_iso) ;;
   Ok (if bare then VStr (str_of day ++ "T" ++ str_of time_iso) else time_iso))%res.

(** [start_time], after the clinic's zone was forced on a naive reading. *)
Definition booking_start (day time_iso : value) : result datetime :=
  (txt <- booking_time_text day time_iso ;;
   start_time <- fromisoformat_value txt ;;
   Ok (match tz start_time with
       | None => replace_tzinfo start_time (ZoneInfo CLINIC_TZ)
       | Some _ => start_time
       end))%res.

Definition booking_event (name procedure : value) (start_time end_time : datetime)
  : value :=
  VDict
    [("summary", VStr ("Appt: " ++ str_of name ++ " (" ++ str_of procedure ++ ")"));
     ("description", VStr ("Booked via AI Agent. Procedure: " ++ str_of procedure));
     ("start", VDict [("dateTime", VStr (isoformat L start_time));
                      ("timeZone", VStr CLINIC_TZ)]);
     ("end", VDict [("dateTime", VStr (isoformat L end_time));
                    ("timeZone", VStr CLINIC_TZ)])].

Definition calendar_scope : string := "https://www.googleapis.com/auth/calendar".

(** Handler 1, [book_appointment] / [schedule_dental_appointment]. *)
Definition book_appointment (args : value) : M string :=
  (name <- lift (get_or args "name" "customer_name") ;;
   day <- lift (get_or args "day" "date") ;;
   time_iso <- lift (get args "time" VNone) ;;
   p <- lift (get args "procedure_type" VNone) ;;
   let procedure := py_or p (VStr "Dental Checkup") in
   if negb (truthy day && truthy time_iso) then ret "Error: Missing day or time."
   else
     try_except
       (_ <- lift (google_service W "calendar" "v3" [calendar_scope]) ;;
        start_time <- lift (booking_start day time_iso) ;;
        end_time <- lift (add_hours start_time 1) ;;
        created_event <-
          insert_event (CALENDAR_ID W) (booking_event name procedure start_time end_time) ;;
        _ <- lift (get created_event "htmlLink" VNone) ;;
        ret ("Success! Appointment booked for " ++ str_of day ++ " at "
             ++ str_of time_iso ++ "."))
       (fun cal_err => ret ("Failed to book calendar event: " ++ exn_text L cal_err)))%M.

(** Handler 2, [send_whatsapp_details]. *)
Definition send_whatsapp_details (args : value) : M string :=
  try_except
    (phone <- lift (get args "phone_number" VNone) ;;
     proc_type <- lift (get args "procedure_type" (VStr "services")) ;;
     if truthy phone then
       let token := or_else (getenv W "VITE_WHATSAPP_ACCESS_TOKEN")
                            (getenv W "WHATSAPP_ACCESS_TOKEN") in
       let phone_id := or_else (getenv W "VITE_WHATSAPP_PHONE_ID")
                               (getenv W "WHATSAPP_PHONE_ID") in
       if present token && present phone_id then
         let msg_text := "Hello! Here are the details about " ++ str_of proc_type
                         ++ " at NovaSync Dental..." in
         let wa_url := "https://graph.facebook.com/v17.0/" ++ env_str phone_id
                       ++ "/messages" in
         let wa_payload :=
           VDict [("messaging_product", VStr "whatsapp");
                  ("to", phone);
                  ("type", VStr "text");
                  ("text", VDict [("body", VStr msg_text)])] in
         _ <- post wa_url wa_payload ;;
         ret "WhatsApp sent successfully."
       else ret "WhatsApp skipped (credentials missing)."
     else ret "Error: No phone number provided.")%M
    (fun wa_err => ret ("Failed to send WhatsApp: " ++ exn_text L wa_err)).

(** Handler 3, [schedule_followup]. *)
Definition schedule_followup (args : value) : M string :=
  (_ <- lift (get args "reason" VNone) ;;
   _ <- lift (get args "date" VNone) ;;
   ret "Followup noted.")%M.

Definition is_booking (function_name : value) : bool :=
  is_str "book_appointment" function_name
  || is_str "schedule_dental_appointment" function_name.

(** The [if / elif / else] chain on [function_name]. *)
Definition dispatch (function_name args : value) : M string :=
  if is_booking function_name then book_appointment args
  else if is_str "send_whatsapp_details" function_name then send_whatsapp_details args
  else if is_str "schedule_followup" function_name then schedule_followup args
  else if is_str "update_lead_data" function_name then ret "Lead data updated."
  else ret ("Function " ++ str_of function_name ++ " executed (simulated).").

(** One turn of the loop over [tool_calls]: the result object it appends. *)
Definition handle_tool_call (tool_call : value) : M value :=
  (fn <- lift (getitem tool_call "function") ;;
   function_name <- lift (getitem fn "name") ;;
   fn' <- lift (getitem tool_call "function") ;;
   function_args <- lift (getitem fn' "arguments") ;;
   call_id <- lift (getitem tool_call "id") ;;
   let args := parse_args function_args in
   result_content <- dispatch function_name args ;;
   ret (VDict [("toolCallId", call_id); ("result", VStr result_content)]))%M.

Fixpoint tool_calls_loop (tool_calls : list value) (results : list value)
  : M (list value) :=
  match tool_calls with
  | [] => ret results
  | tool_call :: rest =>
      bind (handle_tool_call tool_call)
           (fun r => tool_calls_loop rest (results ++ [r]))
  end.

Definition ignored : response :=
  mkResponse (BJson (VDict [("status", VStr "ignored")])) 200.

Definition vapi_webhook (data : value) : state -> response * state :=
  handler
    (has_message <- lift (contains "message" data) ;;
     has_type <-
       (if has_message then
          message <- lift (getitem data "message") ;;
          lift (contains "type" message)
        else ret false) ;;
     if has_type then
       message <- lift (getitem data "message") ;;
       msg_type <- lift (getitem message "type") ;;
       if is_str "tool-calls" msg_type then
         message' <- lift (getitem data "message") ;;
         tool_calls <- lift (getitem message' "toolCalls") ;;
         calls <- lift (iter tool_calls) ;;
         results <- tool_calls_loop calls [] ;;
         ret (mkResponse (BJson (VDict [("results", VList results)])) 200)
       else ret ignored
     else ret ignored)%M
    error_500.

(** *** GET /api/whatsapp/webhook and GET /api/instagram/webhook *)

(** [request.args.get(name)]: the first value given for [name]. *)
Fixpoint arg (query : list (string * string)) (name : string) : option string :=
  match query with
  | [] => None
  | (k, v) :: rest => if String.eqb k name then Some v else arg rest name
  end.

Definition opt_eqb (o : option string) (s : string) : bool :=
  match o with
  | Some x => String.eqb x s
  | None => false
  end.

(** The body shared by the two verification views, after [verify_token] was
    read from the environment. *)
Definition verify (verify_token : string) (query : list (string * string))
  : response :=
  let mode := arg query "hub.mode" in
  let token := arg query "hub.verify_token" in
  let challenge := arg query "hub.challenge" in
  if present mode && present token then
    if opt_eqb mode "subscribe" && opt_eqb token verify_token then
      mkResponse (BText challenge) 200
    else mkResponse (BText (Some "Forbidden")) 403
  else mkResponse (BText (Some "Bad Request")) 400.

Definition whatsapp_verify_token : string :=
  getenv_default W "WHATSAPP_VERIFY_TOKEN" "nova_sync_secret".

Definition instagram_verify_token : string :=
  getenv_default W "INSTAGRAM_VERIFY_TOKEN" whatsapp_verify_token.

Definition verify_whatsapp_webhook (query : list (string * string)) : response :=
  verify whatsapp_verify_token query.

Definition verify_instagram_webhook (query : list (string * string)) : response :=
  verify instagram_verify_token query.

(** *** POST /api/whatsapp/send and POST /api/instagram/send *)

Definition missing_to_or_text : response :=
  mkResponse (BJson (VDict [("error", VStr "Missing to or text")])) 400.

Definition outbound_message (id platform : string) (to text : value) : value :=
  VDict [("id", VStr id);
         ("platform", VStr platform);
         ("sender", VStr "me");
         ("to", to);
         ("text", text);
         ("time", VStr "Just now");
         ("avatar", VStr "");
         ("unread", VBool false)].

(** The [url] and the [payload] of the outbound WhatsApp send. *)
Definition whatsapp_send_url (phone_id : option string) : string :=
  "https://graph.facebook.com/v17.0/" ++ env_str phone_id ++ "/messages".

Definition whatsapp_send_payload (to_number message_text : value) : value :=
  VDict [("messaging_product", VStr "whatsapp");
         ("to", to_number);
         ("text", VDict [("body", message_text)])].

Definition send_whatsapp_message (data : value) : state -> response * state :=
  handler
    (to_number <- lift (get data "to" VNone) ;;
     message_text <- lift (get data "text" VNone) ;;
     if negb (truthy to_number) || negb (truthy message_text) then
       ret missing_to_or_text
     else
       let token := getenv W "VITE_WHATSAPP_ACCESS_TOKEN" in
       let phone_id := getenv W "VITE_WHATSAPP_PHONE_ID" in
       _ <- (if negb (present token) || negb (present phone_id) then ret tt
             else
               _ <- post (whatsapp_send_url phone_id)
                         (whatsapp_send_payload to_number message_text) ;;
               ret tt) ;;
       let new_msg :=
         outbound_message ("sent_" ++ str_of_Z (now_timestamp W)) "whatsapp"
                          to_number message_text in
       _ <- store_insert0 new_msg ;;
       ret (mkResponse (BJson new_msg) 200))%M
    error_500.

(** The [url] and the [payload] of the outbound Instagram send. *)
Definition instagram_send_url : string :=
  "https://graph.facebook.com/v17.0/me/messages".

Definition instagram_send_payload (to_id message_text : value) : value :=
  VDict [("recipient", VDict [("id", to_id)]);
         ("message", VDict [("text", message_text)])].

Definition send_instagram_message (data : value) : state -> response * state :=
  handler
    (to_id <- lift (get data "to" VNone) ;;
     message_text <- lift (get data "text" VNone) ;;
     if negb (truthy to_id) || negb (truthy message_text) then
       ret missing_to_or_text
     else
       let token := getenv W "VITE_INSTAGRAM_ACCESS_TOKEN" in
       _ <- (if negb (present token) then ret tt
             else
               _ <- post instagram_send_url
                         (instagram_send_payload to_id message_text) ;;
               ret tt) ;;
       let new_msg :=
         outbound_message ("sent_ig_" ++ str_of_Z (now_timestamp W)) "instagram"
                          to_id message_text in
       _ <- store_insert0 new_msg ;;
       ret (mkResponse (BJson new_msg) 200))%M
    error_500.

(** *** POST /api/whatsapp/webhook *)

Definition event_received : response :=
  mkResponse (BText (Some "EVENT_RECEIVED")) 200.

Definition internal_server_error (_ : exn) : response :=
  mkResponse (BText (Some "Internal Server Error")) 500.

Definition inbound_message (id : value) (platform : string) (sender from text : value)
  : value :=
  VDict [("id", id);
         ("platform", VStr platform);
         ("sender", sender);
         ("from", from);
         ("text", text);
         ("time", VStr "Just now");
         ("avatar", VStr "");
         ("unread", VBool true)].

(** The body of the innermost loop, for one [msg] of [value['messages']]. *)
Definition whatsapp_message (value_ msg : value) : M unit :=
  (from_number <- lift (get msg "from" VNone) ;;
   text_obj <- lift (get msg "text" (VDict [])) ;;
   msg_body <- lift (get text_obj "body" (VStr "")) ;;
   _ <- lift (get msg "timestamp" VNone) ;;
   id <- lift (get msg "id" VNone) ;;
   contacts <- lift (get value_ "contacts" (VList [VDict []])) ;;
   contact <- lift (index0 contacts) ;;
   profile <- lift (get contact "profile" (VDict [])) ;;
   sender <- lift (get profile "name" from_number) ;;
   store_insert0 (inbound_message id "whatsapp" sender from_number msg_body))%M.

Definition whatsapp_change (change : value) : M unit :=
  (value_ <- lift (get change "value" (VDict [])) ;;
   has_messages <- lift (contains "messages" value_) ;;
   if has_messages then
     messages <- lift (getitem value_ "messages") ;;
     msgs <- lift (iter messages) ;;
     for_each msgs (whatsapp_message value_)
   else ret tt)%M.

Definition whatsapp_entry (entry : value) : M unit :=
  (changes <- lift (get entry "changes" (VList [])) ;;
   cs <- lift (iter changes) ;;
   for_each cs whatsapp_change)%M.

Definition whatsapp_webhook (data : value) : state -> response * state :=
  handler
    (has_entry <- lift (contains "entry" data) ;;
     _ <- (if has_entry then
             entries <- lift (getitem data "entry") ;;
             es <- lift (iter entries) ;;
             for_each es whatsapp_entry
           else ret tt) ;;
     ret event_received)%M
    internal_server_error.

(** *** POST /api/instagram/webhook *)

Definition process_instagram_event (msg : value) : M unit :=
  (sender <- lift (get msg "sender" (VDict [])) ;;
   sender_id <- lift (get sender "id" VNone) ;;
   recipient <- lift (get msg "recipient" (VDict [])) ;;
   _ <- lift (get recipient "id" VNone) ;;
   has_message <- lift (contains "message" msg) ;;
   if has_message then
     message_obj <- lift (getitem msg "message") ;;
     text_ <- lift (get message_obj "text" (VStr "")) ;;
     mid <- lift (get message_obj "mid" VNone) ;;
     if negb (truthy text_) then ret tt
     else
       store_insert0
         (inbound_message mid "instagram" (VStr "Instagram User") sender_id text_)
   else ret tt)%M.

(** [instagram_webhook] calls [process_instagram_message_value(m)], a name the
    module never binds (no [def], no import, no assignment): looking it up
    raises [NameError] before anything is done with [m]. *)
Definition process_instagram_message_value (m : value) : M unit :=
  raise NameError.

Definition instagram_change (change : value) : M unit :=
  (val <- lift (get change "value" (VDict [])) ;;
   has_messages <- lift (contains "messages" val) ;;
   if has_messages then
     messages <- lift (getitem val "messages") ;;
     ms <- lift (iter messages) ;;
     for_each ms process_instagram_message_value
   else ret tt)%M.

Definition instagram_entry (entry : value) : M unit :=
  (has_messaging <- lift (contains "messaging" entry) ;;
   if has_messaging then
     messaging <- lift (getitem entry "messaging") ;;
     msgs <- lift (iter messaging) ;;
     for_each msgs process_instagram_event
   else
     has_changes <- lift (contains "changes" entry) ;;
     if has_changes then
       changes <- lift (getitem entry "changes") ;;
       cs <- lift (iter changes) ;;
       for_each cs instagram_change
     else ret tt)%M.

Definition instagram_webhook (data : value) : state -> response * state :=
  handler
    (has_entry <- lift (contains "entry" data) ;;
     _ <- (if has_entry then
             entries <- lift (getitem data "entry") ;;
             es <- lift (iter entries) ;;
             for_each es instagram_entry
           else ret tt) ;;
     ret event_received)%M
    internal_server_error.

(** *** GET /api/messages *)

Definition get_messages : state -> response * state :=
  fun st => (mkResponse (BJson (VList (messages_store st))) 200, st).

(** *** GET /api/meta/campaigns *)

(** [int(v)]. *)
Definition int_of_value (v : value) : result Z :=
  match v with
  | VInt z => Ok z
  | VBool b => Ok (if b then 1 else 0)
  | VFloat f => int_of_float f
  | VStr s =>
      match int_of_string L s with
      | Some z => Ok z
      | None => Raise ValueError
      end
  | _ => Raise TypeError
  end.

(** [float(v)]. *)
Definition float_of_value (v : value) : result float :=
  match v with
  | VFloat f => Ok f
  | VInt z => float_of_Z z
  | VBool b => Ok (if b then one else zero)
  | VStr s =>
      match float_of_string L s with
      | Some f => Ok f
      | None => Raise ValueError
      end
  | _ => Raise TypeError
  end.

(** [v.lower()]. *)
Definition lower_value (v : value) : result string :=
  match v with
  | VStr s => Ok (lower L s)
  | _ => Raise AttributeError
  end.

(** [camp['insights'] = x]. *)
Definition setitem (v : value) (k : string) (x : value) : result value :=
  match v with
  | VDict kv => Ok (VDict (dict_set k x kv))
  | _ => Raise TypeError
  end.

Definition campaign_fields : string :=
  "id,name,status,effective_status,objective,spend_cap,daily_budget,lifetime_budget".

Definition insight_fields : string :=
  "impressions,clicks,spend,ctr,cpc,cpp,cpm,reach,frequency,actions,cost_per_action_type".

(** One turn of the loop that fetches the insights of a campaign: the
    campaign with its ['insights'] key set to the first record, or to [{}]. *)
Definition with_insights (access_token : string) (camp : value) : result value :=
  (camp_id <- get camp "id" VNone ;;
   ins_res <- requests_get W
     ("https://graph.facebook.com/v18.0/" ++ str_of camp_id ++ "/insights")
     [("fields", VStr insight_fields);
      ("date_preset", VStr "last_30d");
      ("access_token", VStr access_token)] ;;
   ins_json <- json ins_res ;;
   insights_data <- get ins_json "data" (VList []) ;;
   first <- (if truthy insights_data then index0 insights_data else Ok (VDict [])) ;;
   setitem camp "insights" first)%res.

Fixpoint fetch_insights (access_token : string) (campaigns : list value)
  : result (list value) :=
  match campaigns with
  | [] => Ok []
  | camp :: rest =>
      (camp' <- with_insights access_token camp ;;
       rest' <- fetch_insights access_token rest ;;
       Ok (camp' :: rest'))%res
  end.

Definition lead_types : list string :=
  ["lead"; "onsite_conversion.lead_grouped"].

Definition purchase_types : list string :=
  ["offsite_conversion.fb_pixel_purchase"; "onsite_conversion.purchase"].

(** [for action in actions: if action.get('action_type') in types:
    count += int(action.get('value', 0))], from a running [count]. *)
Fixpoint count_loop (types : list string) (actions : list value) (count : Z)
  : result Z :=
  match actions with
  | [] => Ok count
  | action :: rest =>
      (action_type <- get action "action_type" VNone ;;
       if in_literals action_type types then
         v <- get action "value" (VInt 0) ;;
         n <- int_of_value v ;;
         count_loop types rest (count + n)
       else count_loop types rest count)%res
  end.

(** [count = 0; if actions: for action in actions: ...]. *)
Definition count_actions (types : list string) (actions : value) : result Z :=
  if truthy actions then (l <- iter actions ;; count_loop types l 0)%res
  else Ok 0.

(** The flat record built for one campaign (the dict [formatted]). *)
Record campaign : Type := mkCampaign {
  c_id : value;
  c_name : value;
  c_status : string;
  c_spend : float;
  c_impressions : Z;
  c_clicks : Z;
  c_ctr : float;
  c_cpc : float;
  c_cpm : float;
  c_reach : Z;
  c_leads : Z;
  c_conversions : Z
}.

Definition campaign_json (c : campaign) : value :=
  VDict [("id", c_id c);
         ("name", c_name c);
         ("status", VStr (c_status c));
         ("spend", VFloat (c_spend c));
         ("impressions", VInt (c_impressions c));
         ("clicks", VInt (c_clicks c));
         ("ctr", VFloat (c_ctr c));
         ("cpc", VFloat (c_cpc c));
         ("cpm", VFloat (c_cpm c));
         ("reach", VInt (c_reach c));
         ("leads", VInt (c_leads c));
         ("conversions", VInt (c_conversions c))].

(** The body of the aggregation loop up to [formatted_campaigns.append]. *)
Definition format_campaign (camp : value) : result campaign :=
  (insights <- get camp "insights" (VDict []) ;;
   actions <- get insights "actions" (VList []) ;;
   leads_count <- count_actions lead_types actions ;;
   conversions_count <- count_actions purchase_types actions ;;
   id <- get camp "id" VNone ;;
   name <- get camp "name" VNone ;;
   effective_status <- get camp "effective_status" (VStr "unknown") ;;
   status_ <- lower_value effective_status ;;
   spend_v <- get insights "spend" (VInt 0) ;;
   spend <- float_of_value spend_v ;;
   impressions_v <- get insights "impressions" (VInt 0) ;;
   impressions <- int_of_value impressions_v ;;
   clicks_v <- get insights "clicks" (VInt 0) ;;
   clicks <- int_of_value clicks_v ;;
   ctr_v <- get insights "ctr" (VInt 0) ;;
   ctr <- float_of_value ctr_v ;;
   cpc_v <- get insights "cpc" (VInt 0) ;;
   cpc <- float_of_value cpc_v ;;
   cpm_v <- get insights "cpm" (VInt 0) ;;
   cpm <- float_of_value cpm_v ;;
   reach_v <- get insights "reach" (VInt 0) ;;
   reach <- int_of_value reach_v ;;
   Ok (mkCampaign id name status_ spend impressions clicks ctr cpc cpm reach
                  leads_count conversions_count))%res.

(** The dict [totals]. *)
Record totals : Type := mkTotals {
  totalSpend : float;
  totalImpressions : Z;
  totalClicks : Z;
  totalLeads : Z;
  totalReach : Z
}.

Definition totals_zero : totals := mkTotals zero 0 0 0 0.

(** The five [+=] that close a turn of the aggregation loop. *)
Definition accumulate (t : totals) (c : campaign) : totals :=
  mkTotals (totalSpend t + c_spend c)%float
           (totalImpressions t + c_impressions c)
           (totalClicks t + c_clicks c)
           (totalLeads t + c_leads c)
           (totalReach t + c_reach c).

(** The aggregation loop, from the list and the totals built so far. *)
Fixpoint aggregate (camps : list value) (formatted : list campaign) (t : totals)
  : result (list campaign * totals) :=
  match camps with
  | [] => Ok (formatted, t)
  | camp :: rest =>
      (c <- format_campaign camp ;;
       aggregate rest (formatted ++ [c]) (accumulate t c))%res
  end.

(** The dict [stats] as it is returned. *)
Record stats : Type := mkStats {
  s_totalSpend : float;
  s_totalImpressions : Z;
  s_totalClicks : Z;
  s_totalLeads : Z;
  s_totalReach : Z;
  avgCTR : float;
  avgCPC : float
}.

(** "Calculate Averages" and "Round Spend for clean JSON". *)
Definition make_stats (t : totals) : result stats :=
  (ctr <- (if totalImpressions t >? 0 then
             q <- int_truediv (totalClicks t) (totalImpressions t) ;;
             Ok (round2 (q * 100)%float)
           else Ok zero) ;;
   cpc <- (if totalClicks t >? 0 then
             q <- float_div_int (totalSpend t) (totalClicks t) ;;
             Ok (round2 q)
           else Ok zero) ;;
   Ok (mkStats (round2 (totalSpend t)) (totalImpressions t) (totalClicks t)
               (totalLeads t) (totalReach t) ctr cpc))%res.

Definition stats_json (s : stats) : value :=
  VDict [("totalSpend", VFloat (s_totalSpend s));
         ("totalImpressions", VInt (s_totalImpressions s));
         ("totalClicks", VInt (s_totalClicks s));
         ("totalLeads", VInt (s_totalLeads s));
         ("totalReach", VInt (s_totalReach s));
         ("avgCTR", VFloat (avgCTR s));
         ("avgCPC", VFloat (avgCPC s))].

(** "SERVER-SIDE FORMATTING & AGGREGATION", from [campaigns_with_insights] to
    the returned body. *)
Definition aggregation (campaigns_with_insights : list value)
  : result (list campaign * stats) :=
  (ft <- aggregate campaigns_with_insights [] totals_zero ;;
   s <- make_stats (snd ft) ;;
   Ok (fst ft, s))%res.

Definition aggregation_json (r : list campaign * stats) : value :=
  VDict [("data", VList (map campaign_json (fst r)));
         ("stats", stats_json (snd r))].

Definition missing_credentials : response :=
  mkResponse
    (BJson (VDict [("data", VList []);
                   ("error", VStr "Missing backend credentials")]))
    200.

Definition get_meta_campaigns : state -> response * state :=
  handler
    (let access_token := getenv W "VITE_META_ACCESS_TOKEN" in
     let ad_account_id := getenv W "VITE_META_AD_ACCOUNT_ID" in
     if negb (present access_token) || negb (present ad_account_id) then
       ret missing_credentials
     else
       let token := env_str access_token in
       let account :=
         if String.prefix "act_" (env_str ad_account_id) then env_str ad_account_id
         else "act_" ++ env_str ad_account_id in
       response_ <- lift (requests_get W
         ("https://graph.facebook.com/v18.0/" ++ account ++ "/campaigns")
         [("fields", VStr campaign_fields);
          ("access_token", VStr token);
          ("limit", VInt 50)]) ;;
       if negb (status_code response_ =? 200) then
         details <- lift (json response_) ;;
         ret (mkResponse
                (BJson (VDict [("error", VStr "Meta API Error"); ("details", details)]))
                (status_code response_))
       else
         data <- lift (json response_) ;;
         campaigns <- lift (get data "data" (VList [])) ;;
         _ <- lift (len campaigns) ;;
         camps <- lift (iter campaigns) ;;
         campaigns_with_insights <- lift (fetch_insights token camps) ;;
         r <- lift (aggregation campaigns_with_insights) ;;
         ret (mkResponse (BJson (aggregation_json r)) 200))%M
    error_500.

End Handlers.

(** ** The store at start-up and the requests that touch it *)

(** [messages_store] as the module creates it; the two [time] fields are what
    [datetime.now().strftime("%I:%M %p")] gave when the module was loaded. *)
Definition sample_whatsapp (time_ : string) : value :=
  VDict [("id", VStr "init_msg_1");
         ("platform", VStr "whatsapp");
         ("sender", VStr "New Patient (Sample)");
         ("from", VStr "+15550009999");
         ("text", VStr "Hello! Is this the NovaSync Dental line? (Test Message sent to 555-147-9581)");
         ("time", VStr time_);
         ("avatar", VStr "");
         ("unread", VBool true)].

Definition sample_instagram (time_ : string) : value :=
  VDict [("id", VStr "init_msg_ig_1");
         ("platform", VStr "instagram");
         ("sender", VStr "instagram_user_123");
         ("from", VStr "ig_123456789");
         ("text", VStr "Hi, saw your ad on Instagram! DMing you here.");
         ("time", VStr time_);
         ("avatar", VStr "");
         ("unread", VBool true)].

Definition initial_store (time1 time2 : string) : list value :=
  [sample_whatsapp time1; sample_instagram time2].

Definition initial_state (time1 time2 : string) : state :=
  mkState (initial_store time1 time2) [].

(** A request to one of the modelled routes. *)
Inductive request : Type :=
| VapiWebhook (data : value)
| WhatsappVerify (query : list (string * string))
| WhatsappSend (data : value)
| WhatsappWebhook (data : value)
| InstagramVerify (query : list (string * string))
| InstagramWebhook (data : value)
| InstagramSend (data : value)
| MetaCampaigns
| GetMessages.

(** Serving one request, in the world it meets. *)
Definition serve (L : pylib) (W : world) (r : request) : state -> response * state :=
  match r with
  | VapiWebhook data => vapi_webhook L W data
  | WhatsappVerify query => fun st => (verify_whatsapp_webhook W query, st)
  | WhatsappSend data => send_whatsapp_message L W data
  | WhatsappWebhook data => whatsapp_webhook data
  | InstagramVerify query => fun st => (verify_instagram_webhook W query, st)
  | InstagramWebhook data => instagram_webhook data
  | InstagramSend data => send_instagram_message L W data
  | MetaCampaigns => get_meta_campaigns L W
  | GetMessages => get_messages
  end.

(** Serving a sequence of requests, each in its own world. *)
Fixpoint serve_all (L : pylib) (rs : list (world * request)) (st : state) : state :=
  match rs with
  | [] => st
  | (W, r) :: rest => serve_all L rest (snd (serve L W r st))
  end.

(** ** Closed instances, for the examples *)

(** The theorems below hold for every [pylib] and every [world].  The
    examples need closed ones: a library whose parsers read plain decimal
    integers, the one JSON text [{}] and the ISO shape [YYYY-MM-DDTHH:MM], and
    a world in which nothing is configured and every outbound call succeeds. *)
Module Example.

Definition digit (c : ascii) : option Z :=
  let n := Z.of_nat (nat_of_ascii c) in
  if (48 <=? n) && (n <=? 57) then Some (n - 48) else None.

Fixpoint digits (s : string) (acc : Z) : option Z :=
  match s with
  | EmptyString => Some acc
  | String c s' =>
      match digit c with
      | Some d => digits s' (acc * 10 + d)
      | None => None
      end
  end.

(** An optional sign and at least one digit. *)
Definition decimal (s : string) : option Z :=
  match s with
  | EmptyString => None
  | String "-" (String c s') => option_map Z.opp (digits (String c s') 0)
  | String "+" (String c s') => digits (String c s') 0
  | _ => digits s 0
  end.

Definition is_leap (y : Z) : bool :=
  (y mod 4 =? 0) && (negb (y mod 100 =? 0) || (y mod 400 =? 0)).

Definition days_in_month (y m : Z) : Z :=
  if m =? 2 then (if is_leap y then 29 else 28)
  else if (m =? 4) || (m =? 6) || (m =? 9) || (m =? 11) then 30
  else 31.

Definition days_before_year (y : Z) : Z :=
  let p := y - 1 in p * 365 + p / 4 - p / 100 + p / 400.

Fixpoint days_before_month (y : Z) (m : nat) : Z :=
  match m with
  | O => 0
  | S k => days_before_month y k + days_in_month y (Z.of_nat (S k))
  end.

(** The wall-clock reading of year, month, day, hour and minute. *)
Definition wall_of (y mo d h mi : Z) : Z :=
  let days := days_before_year y + days_before_month y (Z.to_nat (mo - 1)) + (d - 1) in
  ((days * 24 + h) * 60 + mi) * 60000000.

Definition iso_minutes (s : string) : option datetime :=
  match digits (substring 0 4 s) 0, digits (substring 5 2 s) 0,
        digits (substring 8 2 s) 0, digits (substring 11 2 s) 0,
        digits (substring 14 2 s) 0 with
  | Some y, Some mo, Some d, Some h, Some mi =>
      if (String.length s =? 16)%nat
         && String.eqb (substring 4 1 s) "-" && String.eqb (substring 7 1 s) "-"
         && String.eqb (substring 10 1 s) "T" && String.eqb (substring 13 1 s) ":"
         && (1 <=? y) && (1 <=? mo) && (mo <=? 12)
         && (1 <=? d) && (d <=? days_in_month y mo) && (h <? 24) && (mi <? 60)
      then Some (mkDatetime (wall_of y mo d h mi) None)
      else None
  | _, _, _, _, _ => None
  end.

Definition zone_text (z : option tzinfo) : string :=
  match z with
  | None => ""
  | Some (FixedOffset us) => "@" ++ str_of_Z us
  | Some (ZoneInfo key) => "@" ++ key
  end.

(** The name of the exception's class, standing for its message. *)
Definition class_name (e : exn) : string :=
  match e with
  | KeyError => "KeyError"
  | IndexError => "IndexError"
  | TypeError => "TypeError"
  | AttributeError => "AttributeError"
  | ValueError => "ValueError"
  | NameError => "NameError"
  | OverflowError => "OverflowError"
  | ZeroDivisionError => "ZeroDivisionError"
  | UpstreamError => "UpstreamError"
  end.

Definition lib : pylib :=
  {| json_loads := fun s => if String.eqb s "{}" then Some (VDict []) else None;
     fromisoformat := iso_minutes;
     isoformat := fun d => str_of_Z (wall d) ++ zone_text (tz d);
     int_of_string := decimal;
     float_of_string := fun s =>
       match decimal s with
       | Some z => match float_of_Z z with Ok f => Some f | Raise _ => None end
       | None => None
       end;
     repr := fun _ => "<value>";
     exn_text := class_name;
     lower := fun s => s |}.

Definition no_body : http_response := mkHttp 200 "" (Ok (VDict [])).

Definition quiet : world :=
  {| getenv := fun _ => None;
     now_timestamp := 1700000000;
     google_service := fun _ _ _ => Ok tt;
     events_insert := fun _ event => Ok event;
     requests_post := fun _ _ => Ok no_body;
     requests_get := fun _ _ => Ok no_body |}.

(** [W] with the environment variables of [env] set. *)
Definition with_env (env : list (string * string)) (W : world) : world :=
  {| getenv := fun name => arg env name;
     now_timestamp := now_timestamp W;
     google_service := google_service W;
     events_insert := events_insert W;
     requests_post := requests_post W;
     requests_get := requests_get W |}.

(** [W] with every [requests.post] answered by [r]. *)
Definition with_post (r : result http_response) (W : world) : world :=
  {| getenv := getenv W;
     now_timestamp := now_timestamp W;
     google_service := google_service W;
     events_insert := events_insert W;
     requests_post := fun _ _ => r;
     requests_get := requests_get W |}.

(** A world with the WhatsApp and Instagram credentials configured. *)
Definition messaging : world :=
  with_env [("VITE_WHATSAPP_ACCESS_TOKEN", "token");
            ("VITE_WHATSAPP_PHONE_ID", "1555");
            ("VITE_INSTAGRAM_ACCESS_TOKEN", "token")] quiet.

(** A world with the ads credentials configured, in which the account has the
    campaigns [campaigns] and every campaign the insight record [insights]. *)
Definition ads (campaigns : list value) (insights : value) : world :=
  {| getenv := arg [("VITE_META_ACCESS_TOKEN", "token");
                    ("VITE_META_AD_ACCOUNT_ID", "act_1")];
     now_timestamp := 1700000000;
     google_service := fun _ _ _ => Ok tt;
     events_insert := fun _ event => Ok event;
     requests_post := fun _ _ => Ok no_body;
     requests_get := fun url _ =>
       if String.eqb url "https://graph.facebook.com/v18.0/act_1/campaigns"
       then Ok (mkHttp 200 "" (Ok (VDict [("data", VList campaigns)])))
       else Ok (mkHttp 200 "" (Ok (VDict [("data", VList [insights])]))) |}.

Definition st0 : state := initial_state "09:00 AM" "09:00 AM".

(** A booking tool call for 2024-05-01 at 14:00. *)
Definition booking_args : value :=
  VDict [("name", VStr "Alice"); ("day", VStr "2024-05-01"); ("time", VStr "14:00")].

Definition tool_call (id name : string) (args : value) : value :=
  VDict [("id", VStr id);
         ("type", VStr "function");
         ("function", VDict [("name", VStr name); ("arguments", args)])].


(** Two campaigns with their insights: impressions 100 and 100, clicks 10
    and 0, spend 12 and 3. *)
Definition two_campaigns : list value :=
  [VDict [("id", VStr "1"); ("name", VStr "Whitening");
          ("effective_status", VStr "active");
          ("insights", VDict [("impressions", VStr "100"); ("clicks", VStr "10");
                              ("spend", VStr "12")])];
   VDict [("id", VStr "2"); ("name", VStr "Implants");
          ("effective_status", VStr "paused");
          ("insights", VDict [("impressions", VStr "100"); ("clicks", VStr "0");
                              ("spend", VStr "3")])]].

Definition two_formatted : list campaign :=
  [mkCampaign (VStr "1") (VStr "Whitening") "active" 12 100 10 0 0 0 0 0 0;
   mkCampaign (VStr "2") (VStr "Implants") "paused" 3 100 0 0 0 0 0 0 0].

Definition two_stats : stats := mkStats 15 200 10 0 0 5 1.5.

(** A campaign with its insights: three leads reported as the string ["3"],
    a lead without a value, two purchases reported as the number 2, and a
    link click, which no counter looks at. *)
Definition campaign_actions : list value :=
  [VDict [("action_type", VStr "lead"); ("value", VStr "3")];
   VDict [("action_type", VStr "onsite_conversion.lead_grouped")];
   VDict [("action_type", VStr "onsite_conversion.purchase"); ("value", VInt 2)];
   VDict [("action_type", VStr "link_click"); ("value", VStr "n/a")]].

Definition campaign_with_actions : value :=
  VDict [("id", VStr "1"); ("name", VStr "Whitening");
         ("effective_status", VStr "active");
         ("insights", VDict [("impressions", VStr "100");
                             ("actions", VList campaign_actions)])].

(** The insights of a campaign whose one lead action has a value that is not
    an integer. *)
Definition unparsable_lead : value :=
  VDict [("impressions", VStr "100");
         ("actions", VList [VDict [("action_type", VStr "lead");
                                   ("value", VStr "n/a")]])].

End Example.

(** ** Notions used in the statements *)

(** Whether the WhatsApp, resp. Instagram, credentials are configured. *)
Definition whatsapp_configured (W : world) : bool :=
  present (getenv W "VITE_WHATSAPP_ACCESS_TOKEN")
  && present (getenv W "VITE_WHATSAPP_PHONE_ID").

Definition instagram_configured (W : world) : bool :=
  present (getenv W "VITE_INSTAGRAM_ACCESS_TOKEN").

(** [st'] holds everything [st] held, unchanged and in the same order, below
    what was put in front of it since. *)
Definition keeps_store (st st' : state) : Prop :=
  exists added, messages_store st' = (added ++ messages_store st)%list.

(** A computation that can only put messages in front of the store. *)
Definition grows {A} (m : M A) : Prop :=
  forall st, keeps_store st (snd (m st)).

(** A computation that returns normally from every state. *)
Definition succeeds {A} (m : M A) : Prop :=
  forall st, exists a st', m st = (Ok a, st').

(** *** Shapes of webhook bodies *)

(** The shape of a delivery, with any of its keys missing: a key that is
    there holds what the platform puts under it. *)
Definition is_dict (v : value) : bool :=
  match v with
  | VDict _ => true
  | _ => false
  end.

(** [v] is an object, and what it holds under [k], if anything, passes [p]. *)
Definition absent_or (p : value -> bool) (v : value) (k : string) : bool :=
  match v with
  | VDict kv =>
      match assoc k kv with
      | Some x => p x
      | None => true
      end
  | _ => false
  end.

Definition list_of (p : value -> bool) (v : value) : bool :=
  match v with
  | VList l => forallb p l
  | _ => false
  end.

Definition wa_message_ok (msg : value) : bool :=
  absent_or is_dict msg "text".

Definition wa_contacts_ok (contacts : value) : bool :=
  match contacts with
  | VList (contact :: _) => absent_or is_dict contact "profile"
  | _ => false
  end.

Definition wa_value_ok (v : value) : bool :=
  absent_or wa_contacts_ok v "contacts"
  && absent_or (list_of wa_message_ok) v "messages".

Definition wa_change_ok (change : value) : bool :=
  absent_or wa_value_ok change "value".

Definition wa_entry_ok (entry : value) : bool :=
  absent_or (list_of wa_change_ok) entry "changes".

Definition wa_body_ok (data : value) : bool :=
  absent_or (list_of wa_entry_ok) data "entry".

(** An Instagram [messaging] event. *)
Definition ig_event_ok (msg : value) : bool :=
  absent_or is_dict msg "sender"
  && absent_or is_dict msg "recipient"
  && absent_or is_dict msg "message".

(** A change that carries no message: no [value], or no [messages] in it, or
    an empty [messages] list. *)
Definition ig_change_empty (change : value) : bool :=
  absent_or (fun v => absent_or (fun ms => list_of (fun _ => false) ms) v "messages")
            change "value".

Definition ig_entry_ok (entry : value) : bool :=
  match entry with
  | VDict kv =>
      match assoc "messaging" kv with
      | Some messaging => list_of ig_event_ok messaging
      | None => absent_or (list_of ig_change_empty) entry "changes"
      end
  | _ => false
  end.

Definition ig_body_ok (data : value) : bool :=
  absent_or (list_of ig_entry_ok) data "entry".

(** *** Tool calls *)

(** [args.get(k)]. *)
Definition lookup (kv : list (string * value)) (k : string) : value :=
  match assoc k kv with
  | Some x => x
  | None => VNone
  end.




(** *** Action counters *)

(** [action.get('action_type') in types]. *)
Definition counted (types : list string) (action : value) : bool :=
  match get action "action_type" VNone with
  | Ok action_type => in_literals action_type types
  | Raise _ => false
  end.

(** [int(action.get('value', 0))]. *)
Definition value_of (L : pylib) (action : value) : result Z :=
  rbind (get action "value" (VInt 0)) (int_of_value L).

Definition sum_Z (l : list Z) : Z := fold_left Z.add l 0.

(** ** The other views *)

(** What the views below read from outside the process, beyond [world]. *)
Record google : Type := mkGoogle {
  (** [service.spreadsheets().values().get(spreadsheetId=s, range=r).execute()],
      then [.get('values')]: the rows of the range, each a list of cells as
      the sheet renders them, and [None] when the answer has no [values] *)
  sheet_values : string -> string -> result (option (list (list string)));
  (** [service.events().list(calendarId=c, timeMin=t, maxResults=10,
      singleEvents=True, orderBy='startTime').execute()] *)
  events_list : string -> string -> result value;
  (** [datetime.utcnow().isoformat()] *)
  utcnow : string
}.

Section OtherViews.

Variable L : pylib.
Variable W : world.
Variable G : google.

(** *** POST /api/vapi/initiate-call *)

Definition phone_number_required : response :=
  mkResponse (BJson (VDict [("error", VStr "Phone number is required")])) 400.

Definition missing_vapi_env : response :=
  mkResponse
    (BJson (VDict [("error", VStr "Server misconfiguration: Missing Vapi env vars")]))
    500.

Definition vapi_call_url : string := "https://api.vapi.ai/call/phone".

(** The [payload] of the call request; [assistantOverrides] is added only for
    [variables] that test true. *)
Definition call_payload (assistant_id phone_number_id : string)
           (phone_number name variables : value) : value :=
  let payload :=
    [("assistantId", VStr assistant_id);
     ("phoneNumberId", VStr phone_number_id);
     ("customer", VDict [("number", phone_number); ("name", name)])] in
  VDict (if truthy variables
         then dict_set "assistantOverrides"
                       (VDict [("variableValues", variables)]) payload
         else payload).

Definition vapi_error (response_ : http_response) : response :=
  mkResponse
    (BJson (VDict [("error", VStr "Vapi Error"); ("details", VStr (text response_))]))
    (status_code response_).

Definition initiate_call (data : value) : state -> response * state :=
  handler
    (phone_number <- lift (get data "phoneNumber" VNone) ;;
     name <- lift (get data "name" (VStr "Test User")) ;;
     variables <- lift (get data "variables" (VDict [])) ;;
     if negb (truthy phone_number) then ret phone_number_required
     else
       let api_key := getenv W "VAPI_API_KEY" in
       let assistant_id := getenv W "VAPI_ASSISTANT_ID" in
       let phone_number_id := getenv W "VAPI_PHONE_NUMBER" in
       if negb (present api_key) || negb (present assistant_id)
          || negb (present phone_number_id)
       then ret missing_vapi_env
       else
         response_ <- post W vapi_call_url
                        (call_payload (env_str assistant_id) (env_str phone_number_id)
                                      phone_number name variables) ;;
         if (status_code response_ =? 201) || (status_code response_ =? 200) then
           body_ <- lift (json response_) ;;
           ret (mkResponse (BJson body_) 200)
         else ret (vapi_error response_))%M
    (error_500 L).

(** *** GET /api/vapi/calls *)

Definition missing_vapi_key : response :=
  mkResponse
    (BJson (VDict [("error", VStr "Server misconfiguration: Missing VAPI_API_KEY")]))
    500.

(** [f'https://api.vapi.ai/call?limit={limit}'], with
    [limit = request.args.get('limit', 50)]. *)
Definition vapi_calls_url (query : list (string * string)) : string :=
  "https://api.vapi.ai/call?limit="
  ++ match arg query "limit" with
     | Some limit => limit
     | None => "50"
     end.

Definition get_vapi_calls (query : list (string * string))
  : state -> response * state :=
  handler
    (if negb (present (getenv W "VAPI_API_KEY")) then ret missing_vapi_key
     else
       response_ <- lift (requests_get W (vapi_calls_url query) []) ;;
       if status_code response_ =? 200 then
         body_ <- lift (json response_) ;;
         ret (mkResponse (BJson body_) 200)
       else ret (vapi_error response_))%M
    (error_500 L).

(** *** GET /api/leads *)

Definition SHEET_ID : string := "1l_PBoX6lET_E8Pfm5wwBkAmaFObDJmpVmDlsereA_2k".

Definition leads_range : string := "Form Responses 1!A:J".

Definition sheets_scope : string :=
  "https://www.googleapis.com/auth/spreadsheets.readonly".

(** [for j, header in enumerate(headers): lead[header] = row[j] if j < len(row)
    else ''], from column [j] on. *)
Fixpoint fill_lead (headers : list string) (j : nat) (row : list string)
         (lead : list (string * value)) : list (string * value) :=
  match headers with
  | [] => lead
  | header :: rest =>
      let cell := if (j <? List.length row)%nat then nth j row "" else "" in
      fill_lead rest (S j) row (dict_set header (VStr cell) lead)
  end.

(** The dict [lead] of the row numbered [i]. *)
Definition lead_of (headers : list string) (i : Z) (row : list string) : value :=
  VDict (fill_lead headers 0 row [("id", VInt i)]).

(** [for i, row in enumerate(rows[1:], 1): ...; leads.append(lead)], from the
    row numbered [i] on. *)
Fixpoint leads_loop (headers : list string) (rows : list (list string)) (i : Z)
         (leads : list value) : list value :=
  match rows with
  | [] => leads
  | row :: rest => leads_loop headers rest (i + 1) (leads ++ [lead_of headers i row])
  end.

(** "Format data": from the rows of the sheet to the list [leads]. *)
Definition format_leads (rows : list (list string)) : list value :=
  match rows with
  | [] => []
  | headers :: data_rows => leads_loop headers data_rows 1 []
  end.

Definition get_leads : state -> response * state :=
  handler
    (_ <- lift (google_service W "sheets" "v4" [sheets_scope]) ;;
     result_ <- lift (sheet_values G SHEET_ID leads_range) ;;
     let rows := match result_ with
                 | Some values => values
                 | None => []
                 end in
     ret (mkResponse (BJson (VList (format_leads rows))) 200))%M
    (error_500 L).

(** *** GET /api/appointments *)

Definition calendar_readonly_scope : string :=
  "https://www.googleapis.com/auth/calendar.readonly".

(** [event[key].get('dateTime', event[key].get('date'))]. *)
Definition event_time (event : value) (key : string) : result value :=
  (time_ <- getitem event key ;;
   date <- get time_ "date" VNone ;;
   get time_ "dateTime" date)%res.

(** The dict [formatted_event]. *)
Definition format_event (event : value) : result value :=
  (start <- event_time event "start" ;;
   end_ <- event_time event "end" ;;
   id <- getitem event "id" ;;
   summary <- get event "summary" (VStr "Busy") ;;
   description <- get event "description" (VStr "") ;;
   location <- get event "location" (VStr "") ;;
   status_ <- get event "status" (VStr "confirmed") ;;
   htmlLink <- get event "htmlLink" (VStr "") ;;
   Ok (VDict [("id", id);
              ("summary", summary);
              ("description", description);
              ("start", start);
              ("end", end_);
              ("location", location);
              ("status", status_);
              ("htmlLink", htmlLink)]))%res.

Fixpoint format_events (events : list value) (formatted_events : list value)
  : result (list value) :=
  match events with
  | [] => Ok formatted_events
  | event :: rest =>
      (formatted_event <- format_event event ;;
       format_events rest (formatted_events ++ [formatted_event]))%res
  end.

Definition get_appointments : state -> response * state :=
  handler
    (_ <- lift (google_service W "calendar" "v3" [calendar_readonly_scope]) ;;
     let now := utcnow G ++ "Z" in
     events_result <- lift (events_list G (CALENDAR_ID W) now) ;;
     items <- lift (get events_result "items" (VList [])) ;;
     events <- lift (iter items) ;;
     formatted_events <- lift (format_events events []) ;;
     ret (mkResponse (BJson (VList formatted_events)) 200))%M
    (error_500 L).

(** *** GET /health *)

Definition health : response :=
  mkResponse
    (BJson (VDict [("status", VStr "ok"); ("message", VStr "API server is running")]))
    200.

End OtherViews.

(** *** Frames *)

(** A computation that never writes the store. *)
Definition leaves_store {A} (m : M A) : Prop :=
  forall st, messages_store (snd (m st)) = messages_store st.

(** A computation that issues no outbound call that changes something. *)
Definition sends_nothing {A} (m : M A) : Prop :=
  forall st, effects (snd (m st)) = effects st.

(** *** What a delivery holds *)

(** [v.get(k, default)] on a value known to be an object. *)
Definition field (v : value) (k : string) (default : value) : value :=
  match get v k default with
  | Ok x => x
  | Raise _ => default
  end.

Definition items (v : value) : list value :=
  match v with
  | VList l => l
  | _ => []
  end.









(** *** Ads requests *)

(** The account id as the campaign-list request carries it: with its [act_]
    prefix, added when it is missing. *)
Definition account_path (ad_account_id : string) : string :=
  if String.prefix "act_" ad_account_id then ad_account_id
  else "act_" ++ ad_account_id.

Definition campaigns_url (ad_account_id : string) : string :=
  "https://graph.facebook.com/v18.0/" ++ account_path ad_account_id ++ "/campaigns".

Definition campaigns_params (access_token : string) : list (string * value) :=
  [("fields", VStr campaign_fields);
   ("access_token", VStr access_token);
   ("limit", VInt 50)].

Definition insights_url (L : pylib) (camp_id : value) : string :=
  "https://graph.facebook.com/v18.0/" ++ str_of L camp_id ++ "/insights".

Definition insights_params (access_token : string) : list (string * value) :=
  [("fields", VStr insight_fields);
   ("date_preset", VStr "last_30d");
   ("access_token", VStr access_token)].

(** ** More closed instances *)

Module Sample.

(** The answer of the Graph API to an expired token. *)
Definition denied : http_response :=
  mkHttp 401 "" (Ok (VDict [("error", VDict [("code", VInt 190)])])).

(** A world with ads credentials (the account id without its prefix) in
    which every GET is answered by [r]. *)
Definition ads_answering (r : result http_response) : world :=
  {| getenv := arg [("VITE_META_ACCESS_TOKEN", "expired");
                    ("VITE_META_AD_ACCOUNT_ID", "1234")];
     now_timestamp := 1700000000;
     google_service := fun _ _ _ => Ok tt;
     events_insert := fun _ event => Ok event;
     requests_post := fun _ _ => Ok Example.no_body;
     requests_get := fun _ _ => r |}.

(** A world with ads credentials in which the campaign list holds the two
    campaigns [1] and [2] and the insights of campaign [2] cannot be
    fetched. *)
Definition ads_second_fails : world :=
  {| getenv := arg [("VITE_META_ACCESS_TOKEN", "token");
                    ("VITE_META_AD_ACCOUNT_ID", "act_1")];
     now_timestamp := 1700000000;
     google_service := fun _ _ _ => Ok tt;
     events_insert := fun _ event => Ok event;
     requests_post := fun _ _ => Ok Example.no_body;
     requests_get := fun url _ =>
       if String.eqb url "https://graph.facebook.com/v18.0/act_1/campaigns"
       then Ok (mkHttp 200 ""
                  (Ok (VDict [("data", VList [VDict [("id", VStr "1")];
                                              VDict [("id", VStr "2")]])])))
       else if String.eqb url "https://graph.facebook.com/v18.0/2/insights"
            then Raise UpstreamError
            else Ok (mkHttp 200 "" (Ok (VDict [("data", VList [])]))) |}.

Definition timed_event : value :=
  VDict [("id", VStr "ev1"); ("summary", VStr "Appt: Alice (Dental Checkup)");
         ("start", VDict [("dateTime", VStr "2024-05-01T14:00:00-04:00")]);
         ("end", VDict [("dateTime", VStr "2024-05-01T15:00:00-04:00")])].

Definition all_day_event : value :=
  VDict [("id", VStr "ev2");
         ("start", VDict [("date", VStr "2024-05-02")]);
         ("end", VDict [("date", VStr "2024-05-03")])].

(** A sheet with one lead and a calendar with a timed and an all-day event. *)
Definition clinic : google :=
  {| sheet_values := fun _ _ => Ok (Some [["Name"; "Phone"]; ["Alice"; "555"]]);
     events_list := fun _ _ => Ok (VDict [("items", VList [timed_event; all_day_event])]);
     utcnow := "2024-05-01T12:00:00" |}.

(** A calendar whose second event has no [id]. *)
Definition broken_calendar : google :=
  {| sheet_values := fun _ _ => Ok None;
     events_list := fun _ _ =>
       Ok (VDict [("items", VList [timed_event;
                                   VDict [("start", VDict []); ("end", VDict [])]])]);
     utcnow := "2024-05-01T12:00:00" |}.

(** A world with the voice-platform variables set, in which the platform
    answers every POST with [r]. *)
Definition voice (r : result http_response) : world :=
  Example.with_post r
    (Example.with_env [("VAPI_API_KEY", "key"); ("VAPI_ASSISTANT_ID", "asst_1");
                       ("VAPI_PHONE_NUMBER", "pn_1")] Example.quiet).

End Sample.

(** *** Appointments *)

(** A calendar event with the parts the projection subscripts: an [id], and
    [start] and [end] objects. *)
Definition event_ok (event : value) : bool :=
  match event with
  | VDict kv =>
      match assoc "id" kv, assoc "start" kv, assoc "end" kv with
      | Some _, Some (VDict _), Some (VDict _) => true
      | _, _, _ => false
      end
  | _ => false
  end.

(** The time of a [start] or [end] object: its [dateTime], else its [date]
    (an all-day event), else [None]. *)
Definition time_of (t : value) : value :=
  field t "dateTime" (field t "date" VNone).

(** The appointment listed for [event]. *)
Definition appointment_of (event : value) : value :=
  VDict [("id", field event "id" VNone);
         ("summary", field event "summary" (VStr "Busy"));
         ("description", field event "description" (VStr ""));
         ("start", time_of (field event "start" VNone));
         ("end", time_of (field event "end" VNone));
         ("location", field event "location" (VStr ""));
         ("status", field event "status" (VStr "confirmed"));
         ("htmlLink", field event "htmlLink" (VStr ""))].

(** *** Call listings *)

(** The voice platform configured, with every [requests.get] answered by [r]. *)
Definition voice_listing (r : result http_response) : world :=
  {| getenv := getenv (Sample.voice r);
     now_timestamp := now_timestamp Example.quiet;
     google_service := google_service Example.quiet;
     events_insert := events_insert Example.quiet;
     requests_post := requests_post Example.quiet;
     requests_get := fun _ _ => r |}.

(** *** Averages *)

(** [a] is the average click-through rate of these totals as the
    specification words it: [round(clicks / impressions * 100, 2)] when there
    are impressions, [0.0] otherwise. *)
Definition is_avgCTR (clicks impressions : Z) (a : float) : Prop :=
  (0 < impressions
   /\ exists q, int_truediv clicks impressions = Ok q /\ a = round2 (q * 100)%float)
  \/ (impressions <= 0 /\ a = zero).

(** [a] is the average cost per click: [round(spend / clicks, 2)], the
    clicks taken as a float, when there are clicks, [0.0] otherwise. *)
Definition is_avgCPC (spend : float) (clicks : Z) (a : float) : Prop :=
  (0 < clicks
   /\ exists d, float_of_Z clicks = Ok d /\ a = round2 (spend / d)%float)
  \/ (clicks <= 0 /\ a = zero).

(** [rsp] is a 200 whose JSON body has a [stats] object with these totals
    and these averages. *)
Definition reports_stats (rsp : response) (spend : float) (impressions clicks : Z)
           (ctr cpc : float) : Prop :=
  exists body stats_,
    rsp = mkResponse (BJson body) 200
    /\ getitem body "stats" = Ok stats_
    /\ getitem stats_ "totalSpend" = Ok (VFloat (round2 spend))
    /\ getitem stats_ "totalImpressions" = Ok (VInt impressions)
    /\ getitem stats_ "totalClicks" = Ok (VInt clicks)
    /\ getitem stats_ "avgCTR" = Ok (VFloat ctr)
    /\ getitem stats_ "avgCPC" = Ok (VFloat cpc).

(** A world with ads credentials whose campaign list holds the campaigns
    [1] and [2]; their insights requests are answered with the records
    [insights1] and [insights2]. *)
Definition ads_reporting (insights1 insights2 : list value) : world :=
  {| getenv := arg [("VITE_META_ACCESS_TOKEN", "token");
                    ("VITE_META_AD_ACCOUNT_ID", "act_1")];
     now_timestamp := 1700000000;
     google_service := fun _ _ _ => Ok tt;
     events_insert := fun _ event => Ok event;
     requests_post := fun _ _ => Ok Example.no_body;
     requests_get := fun url _ =>
       if String.eqb url "https://graph.facebook.com/v18.0/act_1/campaigns"
       then Ok (mkHttp 200 ""
                  (Ok (VDict [("data",
                               VList [VDict [("id", VStr "1"); ("name", VStr "Whitening");
                                             ("effective_status", VStr "active")];
                                      VDict [("id", VStr "2"); ("name", VStr "Implants");
                                             ("effective_status", VStr "paused")]])])))
       else if String.eqb url "https://graph.facebook.com/v18.0/1/insights"
            then Ok (mkHttp 200 "" (Ok (VDict [("data", VList insights1)])))
            else Ok (mkHttp 200 "" (Ok (VDict [("data", VList insights2)]))) |}.

(** *** Rounded integers *)

(** What rounding a positive integer to a float gives: an infinity, or a
    finite float in range; not a zero. *)
Definition rounds_to_nonzero (s : spec_float) : Prop :=
  s = S754_infinity false
  \/ exists m e, s = S754_finite false m e /\ bounded prec emax m e = true.

(** *** Calls that run *)



(** * Properties *)

(** ** Evaluation lemmas *)

Lemma bind_ok {A B} (m : M A) (k : A -> M B) st a st' :
  m st = (Ok a, st') -> bind m k st = k a st'.
Proof. intros H. unfold bind. now rewrite H. Qed.


Lemma bind_lift_ok {A B} (r : result A) (k : A -> M B) st a :
  r = Ok a -> bind (lift r) k st = k a st.
Proof. intros ->. reflexivity. Qed.

Lemma bind_lift_raise {A B} (r : result A) (k : A -> M B) st e :
  r = Raise e -> bind (lift r) k st = (Raise e, st).
Proof. intros ->. reflexivity. Qed.

Lemma opt_eqb_true (o : option string) (s : string) :
  opt_eqb o s = true <-> o = Some s.
Proof.
  destruct o as [x|]; simpl; split; try discriminate.
  - intros H. apply String.eqb_eq in H. now subst.
  - intros [= ->]. apply String.eqb_refl.
Qed.

Lemma succeeds_ret {A} (a : A) : succeeds (ret a).
Proof. intros st. now exists a, st. Qed.

Lemma succeeds_store_insert0 (msg : value) : succeeds (store_insert0 msg).
Proof. intros st. now eexists _, _. Qed.

Lemma succeeds_bind {A B} (m : M A) (k : A -> M B) :
  succeeds m -> (forall a, succeeds (k a)) -> succeeds (bind m k).
Proof.
  intros Hm Hk st. destruct (Hm st) as (a & st' & E).
  rewrite (bind_ok _ _ _ _ _ E). apply Hk.
Qed.

Lemma succeeds_bind_lift {A B} (r : result A) (k : A -> M B) (a : A) :
  r = Ok a -> succeeds (k a) -> succeeds (bind (lift r) k).
Proof. intros -> Hk st. apply Hk. Qed.

Lemma succeeds_for_each {A} (xs : list A) (body_ : A -> M unit) :
  (forall x, In x xs -> succeeds (body_ x)) -> succeeds (for_each xs body_).
Proof.
  induction xs as [| x xs IH]; intros Hb; simpl.
  - apply succeeds_ret.
  - apply succeeds_bind.
    + apply Hb. now left.
    + intros _. apply IH. intros y Hy. apply Hb. now right.
Qed.

Lemma succeeds_handler (m : M response) (on_error : exn -> response) (r : response) :
  (forall st, exists st', m st = (Ok r, st')) ->
  forall st, fst (handler m on_error st) = r.
Proof.
  intros H st. unfold handler. destruct (H st) as (st' & E). now rewrite E.
Qed.

Lemma absent_or_dict p v k :
  absent_or p v k = true -> exists kv, v = VDict kv.
Proof. destruct v; simpl; try discriminate. intros _. now eexists. Qed.

Lemma absent_or_get p kv k default :
  absent_or p (VDict kv) k = true ->
  (assoc k kv = None /\ get (VDict kv) k default = Ok default)
  \/ (exists x, assoc k kv = Some x /\ get (VDict kv) k default = Ok x /\ p x = true).
Proof.
  simpl. destruct (assoc k kv) as [x|].
  - intros H. right. now exists x.
  - intros _. now left.
Qed.

Lemma is_dict_true v : is_dict v = true -> exists kv, v = VDict kv.
Proof. destruct v; simpl; try discriminate. intros _. now eexists. Qed.

Lemma list_of_true p v : list_of p v = true -> exists l, v = VList l /\ forallb p l = true.
Proof. destruct v; simpl; try discriminate. intros H. now eexists. Qed.

Ltac get_step := eapply succeeds_bind_lift; [reflexivity |].

(** Runs a pure step whose outcome [H] gives. *)
Ltac ok_step H := rewrite (bind_lift_ok _ _ _ _ H); cbv beta.

Lemma get_or_dict (kv : list (string * value)) (k1 k2 : string) :
  get_or (VDict kv) k1 k2 = Ok (py_or (lookup kv k1) (lookup kv k2)).
Proof.
  unfold get_or, py_or, lookup. simpl.
  destruct (assoc k1 kv) as [a |]; simpl.
  - destruct (truthy a); reflexivity.
  - reflexivity.
Qed.

Lemma get_dict (kv : list (string * value)) (k : string) :
  get (VDict kv) k VNone = Ok (lookup kv k).
Proof. reflexivity. Qed.


(** ** Booking times (C1) *)

Lemma contains_str (k s : string) : contains k (VStr s) = Ok (occurs_in k s).
Proof. reflexivity. Qed.

(** Which text is parsed, for a time given as a string. *)
Lemma booking_time_text_str (L : pylib) (day : value) (t : string) :
  booking_time_text L day (VStr t)
  = Ok (VStr (if negb (occurs_in "T" t) && occurs_in ":" t
              then str_of L day ++ "T" ++ t
              else t)).
Proof.
  unfold booking_time_text. rewrite !contains_str. simpl.
  destruct (occurs_in "T" t); simpl; [reflexivity |].
  destruct (occurs_in ":" t); reflexivity.
Qed.

(** C1.  For every [book_appointment] or [schedule_dental_appointment] tool
    call whose arguments hold a day (under [day] or [date]) and a time string
    [t]: the text handed to the ISO parser is the day, a ['T'] and [t] when
    [t] contains [':'] and no ['T'], and [t] itself otherwise; when the
    parsed start has no time zone, the clinic's zone [America/New_York] is
    attached to it, and a zone it has is kept; and, the calendar client
    being available, one event is submitted to the calendar, whose start is
    that start and whose end is the start plus exactly one hour (of wall-clock
    time, as [datetime + timedelta(hours=1)] computes it, in the same zone). *)
Theorem booking_start_and_end :
  forall (L : pylib) (W : world) (function_name : value)
         (args : list (string * value)) (day : value) (t : string)
         (parsed : datetime) (st : state),
    is_booking function_name = true ->
    get_or (VDict args) "day" "date" = Ok day ->
    truthy day = true ->
    get (VDict args) "time" VNone = Ok (VStr t) ->
    t <> "" ->
    google_service W "calendar" "v3" [calendar_scope] = Ok tt ->
    fromisoformat L (if negb (occurs_in "T" t) && occurs_in ":" t
                     then str_of L day ++ "T" ++ t
                     else t)
    = Some parsed ->
    0 <= wall parsed ->
    wall parsed + hour_us <= wall_max ->
    let zone := match tz parsed with
                | Some z => z
                | None => ZoneInfo "America/New_York"
                end in
    let start_time := mkDatetime (wall parsed) (Some zone) in
    let end_time := mkDatetime (wall parsed + 3600000000) (Some zone) in
    booking_start L day (VStr t) = Ok start_time
    /\ exists event,
         effects (snd (dispatch L W function_name (VDict args) st))
         = CalendarInsert (CALENDAR_ID W) event :: effects st
         /\ getitem event "start"
            = Ok (VDict [("dateTime", VStr (isoformat L start_time));
                         ("timeZone", VStr "America/New_York")])
         /\ getitem event "end"
            = Ok (VDict [("dateTime", VStr (isoformat L end_time));
                         ("timeZone", VStr "America/New_York")]).
Proof.
  intros L W function_name args day t parsed st
         Hname Hday Tday Htime Ht Hservice Hparse Hlo Hhi.
  cbv zeta.
  assert (Hstart : booking_start L day (VStr t)
                   = Ok (mkDatetime (wall parsed)
                           (Some match tz parsed with
                                 | Some z => z
                                 | None => ZoneInfo "America/New_York"
                                 end))).
  { unfold booking_start. rewrite booking_time_text_str.
    unfold rbind, fromisoformat_value. rewrite Hparse.
    destruct parsed as [w [z |]]; reflexivity. }
  split; [exact Hstart |].
  assert (Tt : truthy (VStr t) = true).
  { simpl. destruct (String.eqb_spec t ""); [contradiction | reflexivity]. }
  assert (Hend : add_hours
                   (mkDatetime (wall parsed)
                      (Some match tz parsed with
                            | Some z => z
                            | None => ZoneInfo "America/New_York"
                            end)) 1
                 = Ok (mkDatetime (wall parsed + 3600000000)
                         (Some match tz parsed with
                               | Some z => z
                               | None => ZoneInfo "America/New_York"
                               end))).
  { unfold add_hours, hour_us in *. simpl wall. simpl tz.
    replace (wall parsed + 1 * 3600000000) with (wall parsed + 3600000000) by lia.
    destruct (Z.leb_spec 0 (wall parsed + 3600000000)); [| lia].
    destruct (Z.leb_spec (wall parsed + 3600000000) wall_max); [| lia].
    reflexivity. }
  unfold dispatch. rewrite Hname. unfold book_appointment.
  ok_step (get_or_dict args "name" "customer_name").
  ok_step Hday. ok_step Htime.
  ok_step (get_dict args "procedure_type").
  rewrite Tday, Tt. cbn [andb negb].
  eexists. split; [| split].
  - unfold try_except.
    ok_step Hservice. ok_step Hstart. ok_step Hend.
    unfold insert_event, emit, bind, lift, ret. cbn [messages_store effects].
    destruct (events_insert W _ _) as [created |]; cbn [snd effects].
    + destruct (get created "htmlLink" VNone); reflexivity.
    + reflexivity.
  - reflexivity.
  - reflexivity.
Qed.

Lemma booking_start_and_end_witness :
  let start_time :=
    mkDatetime (Example.wall_of 2024 5 1 14 0) (Some (ZoneInfo "America/New_York")) in
  let end_time :=
    mkDatetime (Example.wall_of 2024 5 1 15 0) (Some (ZoneInfo "America/New_York")) in
  booking_start Example.lib (VStr "2024-05-01") (VStr "14:00") = Ok start_time
  /\ exists event,
       effects (snd (dispatch Example.lib Example.quiet (VStr "book_appointment")
                       Example.booking_args Example.st0))
       = [CalendarInsert "primary" event]
       /\ getitem event "start"
          = Ok (VDict [("dateTime", VStr (isoformat Example.lib start_time));
                       ("timeZone", VStr "America/New_York")])
       /\ getitem event "end"
          = Ok (VDict [("dateTime", VStr (isoformat Example.lib end_time));
                       ("timeZone", VStr "America/New_York")]).
Proof.
  cbv zeta.
  refine (booking_start_and_end Example.lib Example.quiet (VStr "book_appointment")
            [("name", VStr "Alice"); ("day", VStr "2024-05-01"); ("time", VStr "14:00")]
            (VStr "2024-05-01") "14:00"
            (mkDatetime (Example.wall_of 2024 5 1 14 0) None) Example.st0
            eq_refl eq_refl eq_refl eq_refl _ eq_refl eq_refl _ _).
  - discriminate.
  - vm_compute. discriminate.
  - vm_compute. discriminate.
Defined.

(** ** The tool dispatcher answers every call (C2) *)














(** ** Ads averages (C3) *)

Lemma accumulate_fields (cs : list campaign) :
  forall t,
    totalSpend (fold_left accumulate cs t)
    = fold_left PrimFloat.add (map c_spend cs) (totalSpend t)
    /\ totalImpressions (fold_left accumulate cs t)
       = fold_left Z.add (map c_impressions cs) (totalImpressions t)
    /\ totalClicks (fold_left accumulate cs t)
       = fold_left Z.add (map c_clicks cs) (totalClicks t).
Proof.
  induction cs as [| c cs IH]; intros t; simpl.
  - repeat split.
  - destruct (IH (accumulate t c)) as (H1 & H2 & H3).
    rewrite H1, H2, H3. repeat split.
Qed.

(** *** The float of a positive integer is not zero *)

(** The guard [totalClicks > 0] protects a division whose divisor is the
    float of [totalClicks].  That float is the integer rounded to 53
    significant bits; what follows shows that rounding a positive integer
    never gives zero. *)

Lemma digits2_pos_spec (p : positive) :
  2 ^ (Zpos (digits2_pos p) - 1) <= Zpos p < 2 ^ Zpos (digits2_pos p).
Proof.
  induction p as [p IH | p IH |]; cbn [digits2_pos].
  - rewrite Pos2Z.inj_succ.
    replace (Z.succ (Zpos (digits2_pos p)) - 1)
      with (Z.succ (Zpos (digits2_pos p) - 1)) by lia.
    rewrite !Z.pow_succ_r by lia.
    destruct IH as [IH1 IH2]. revert IH1 IH2.
    generalize (2 ^ (Zpos (digits2_pos p) - 1)) (2 ^ Zpos (digits2_pos p)). lia.
  - rewrite Pos2Z.inj_succ.
    replace (Z.succ (Zpos (digits2_pos p)) - 1)
      with (Z.succ (Zpos (digits2_pos p) - 1)) by lia.
    rewrite !Z.pow_succ_r by lia.
    destruct IH as [IH1 IH2]. revert IH1 IH2.
    generalize (2 ^ (Zpos (digits2_pos p) - 1)) (2 ^ Zpos (digits2_pos p)). lia.
  - simpl. lia.
Qed.

Lemma digits2_pos_unique (q : positive) (k : Z) :
  2 ^ (k - 1) <= Zpos q < 2 ^ k -> Zpos (digits2_pos q) = k.
Proof.
  intros [Hlo Hhi]. pose proof (digits2_pos_spec q) as [Dlo Dhi].
  set (d := Zpos (digits2_pos q)) in *.
  assert (0 < d) by (unfold d; lia).
  destruct (Z.lt_trichotomy d k) as [Hlt | [Heq | Hgt]]; [| exact Heq |].
  - assert (2 ^ d <= 2 ^ (k - 1)) by (apply Z.pow_le_mono_r; lia). lia.
  - assert (k <= 0 \/ 0 < k) as [Hk | Hk] by lia.
    + assert (2 ^ k <= 2 ^ 0) by (apply Z.pow_le_mono_r; lia).
      simpl in *. lia.
    + assert (2 ^ k <= 2 ^ (d - 1)) by (apply Z.pow_le_mono_r; lia). lia.
Qed.

Lemma iter_xO_spec (p k : positive) :
  Zpos (Pos.iter xO p k) = Zpos p * 2 ^ Zpos k.
Proof.
  induction k as [| k IH] using Pos.peano_ind.
  - cbn [Pos.iter]. change (2 ^ 1) with 2. lia.
  - rewrite Pos.iter_succ, Pos2Z.inj_succ, Z.pow_succ_r by lia.
    change (Zpos (Pos.iter xO p k)~0) with (2 * Zpos (Pos.iter xO p k)).
    rewrite IH. ring.
Qed.

Lemma shr_1_m (mrs : shr_record) :
  0 <= shr_m mrs -> shr_m (shr_1 mrs) = shr_m mrs / 2.
Proof.
  destruct mrs as [m r s]. cbn [shr_m shr_1]. intros Hm.
  rewrite <- Z.div2_div.
  destruct m as [| [q | q |] | q]; try reflexivity. lia.
Qed.

Lemma iter_shr_1_m (n : positive) :
  forall mrs, 0 <= shr_m mrs ->
    shr_m (iter_pos shr_1 n mrs) = shr_m mrs / 2 ^ Zpos n.
Proof.
  assert (P : forall k, 0 < 2 ^ Zpos k) by (intros k; apply Z.pow_pos_nonneg; lia).
  induction n as [n IH | n IH |]; intros mrs Hm; cbn [iter_pos].
  - assert (H1 : 0 <= shr_m (shr_1 mrs)).
    { rewrite shr_1_m by exact Hm. apply Z.div_pos; lia. }
    assert (H2 : 0 <= shr_m (iter_pos shr_1 n (shr_1 mrs))).
    { rewrite IH by exact H1. apply Z.div_pos; [exact H1 | apply P]. }
    rewrite IH by exact H2. rewrite IH by exact H1. rewrite shr_1_m by exact Hm.
    pose proof (P n).
    rewrite !Z.div_div by lia.
    f_equal. change (Zpos n~1) with (2 * Zpos n + 1).
    rewrite Z.pow_add_r, Z.pow_mul_r by lia.
    change (2 ^ 2) with 4. change (2 ^ 1) with 2.
    replace (4 ^ Zpos n) with (2 ^ Zpos n * 2 ^ Zpos n).
    + ring.
    + rewrite <- Z.pow_mul_l. reflexivity.
  - assert (H2 : 0 <= shr_m (iter_pos shr_1 n mrs)).
    { rewrite IH by exact Hm. apply Z.div_pos; [exact Hm | apply P]. }
    rewrite IH by exact H2. rewrite IH by exact Hm.
    pose proof (P n).
    rewrite !Z.div_div by lia.
    f_equal. change (Zpos n~0) with (2 * Zpos n).
    rewrite Z.pow_mul_r by lia.
    change (2 ^ 2) with 4.
    rewrite <- Z.pow_mul_l. reflexivity.
  - rewrite shr_1_m by exact Hm. reflexivity.
Qed.

Lemma fexp_53 (e : Z) : -1074 <= e -> fexp prec emax (53 + e) = e.
Proof. intros H. unfold fexp, emin, prec, emax. lia. Qed.

(** A mantissa of 53 bits, or [2 ^ 53] after a carry, is stored as it is or
    halved: the result is a finite float in range, or an infinity. *)
Lemma second_rounding (m e : Z) :
  2 ^ 52 <= m <= 2 ^ 53 -> -1074 <= e ->
  rounds_to_nonzero
    (let '(mrs'', e'') := shr_fexp prec emax m e loc_Exact in
     match shr_m mrs'' with
     | Z0 => S754_zero false
     | Zpos m => if Z.leb e'' (Z.sub emax prec) then S754_finite false m e''
                 else S754_infinity false
     | Zneg _ => S754_nan
     end).
Proof.
  intros Hm He.
  destruct m as [| q | q]; [simpl in Hm; lia | | simpl in Hm; lia].
  assert (Hcases : Zpos q < 2 ^ 53 \/ Zpos q = 2 ^ 53) by lia.
  unfold shr_fexp. cbn [Zdigits2 shr_record_of_loc].
  destruct Hcases as [Hlt | Heq].
  - assert (Hd : Zpos (digits2_pos q) = 53).
    { apply digits2_pos_unique. change (53 - 1) with 52. lia. }
    rewrite Hd, fexp_53, Z.sub_diag by exact He. cbn [shr shr_m].
    destruct (Z.leb_spec e (emax - prec)) as [Hle | Hgt].
    + right. exists q, e. split; [reflexivity |].
      unfold bounded, canonical_mantissa. rewrite Hd, fexp_53 by exact He.
      rewrite Z.eqb_refl. apply Z.leb_le in Hle. rewrite Hle. reflexivity.
    + left. reflexivity.
  - assert (Hd : Zpos (digits2_pos q) = 54).
    { apply digits2_pos_unique. rewrite Heq. simpl. lia. }
    rewrite Hd.
    replace (fexp prec emax (54 + e) - e) with 1
      by (unfold fexp, emin, prec, emax; lia).
    cbn [shr iter_pos]. rewrite shr_1_m by (cbn [shr_m]; lia).
    cbn [shr_m]. rewrite Heq.
    change (2 ^ 53 / 2) with (Zpos (2 ^ 52)).
    destruct (Z.leb_spec (e + 1) (emax - prec)) as [Hle | Hgt].
    + right. exists (2 ^ 52)%positive, (e + 1). split; [reflexivity |].
      unfold bounded, canonical_mantissa.
      change (Zpos (digits2_pos (2 ^ 52))) with 53.
      rewrite fexp_53 by lia.
      rewrite Z.eqb_refl. apply Z.leb_le in Hle. rewrite Hle. reflexivity.
    + left. reflexivity.
Qed.

Lemma round_nearest_even_bounds (m : Z) (l : location) :
  m <= round_nearest_even m l <= m + 1.
Proof.
  destruct l as [| []]; cbn [round_nearest_even]; try lia.
  destruct (Z.even m); lia.
Qed.

Lemma binary_round_positive (p : positive) :
  rounds_to_nonzero (binary_round prec emax false p 0).
Proof.
  pose proof (digits2_pos_spec p) as Hp.
  unfold binary_round, shl_align.
  set (d := Zpos (digits2_pos p)) in *.
  assert (Hd : 0 < d) by (unfold d; lia).
  assert (Hf : fexp prec emax (d + 0) = d - 53)
    by (unfold fexp, emin, prec, emax; lia).
  rewrite Hf, Z.sub_0_r.
  destruct (d - 53) as [| k | k] eqn:Hk.
  - (* exactly 53 bits *)
    assert (d = 53) by lia.
    unfold binary_round_aux, shr_fexp at 1. cbn [Zdigits2 shr_record_of_loc].
    fold d. rewrite Hf, Z.sub_0_r.
    cbn [shr shr_m loc_of_shr_record round_nearest_even].
    apply second_rounding; [| lia].
    replace 52 with (d - 1) by lia. replace 53 with d by lia. lia.
  - (* more than 53 bits: the low bits are shifted out and rounded *)
    unfold binary_round_aux, shr_fexp at 1. cbn [Zdigits2 shr_record_of_loc].
    fold d. rewrite Hf, Z.sub_0_r.
    cbn [shr].
    set (mrs := iter_pos shr_1 k _).
    assert (Hm : shr_m mrs = Zpos p / 2 ^ Zpos k).
    { unfold mrs. rewrite iter_shr_1_m by (cbn [shr_m]; lia). reflexivity. }
    assert (Hpow : 0 < 2 ^ Zpos k) by (apply Z.pow_pos_nonneg; lia).
    assert (Hlo : 2 ^ 52 <= shr_m mrs).
    { rewrite Hm. apply Z.div_le_lower_bound; [exact Hpow |].
      rewrite <- Z.pow_add_r by lia.
      replace (Zpos k + 52) with (d - 1) by lia. lia. }
    assert (Hhi : shr_m mrs < 2 ^ 53).
    { rewrite Hm. apply Z.div_lt_upper_bound; [exact Hpow |].
      rewrite <- Z.pow_add_r by lia.
      replace (Zpos k + 53) with d by lia. lia. }
    pose proof (round_nearest_even_bounds (shr_m mrs) (loc_of_shr_record mrs)).
    apply second_rounding; lia.
  - (* fewer than 53 bits: the mantissa is shifted left, nothing is lost *)
    set (mz := Pos.iter xO p k).
    assert (Hmz : Zpos mz = Zpos p * 2 ^ Zpos k) by apply iter_xO_spec.
    assert (Hpow : 0 < 2 ^ Zpos k) by (apply Z.pow_pos_nonneg; lia).
    assert (Hs : 2 ^ Zpos k * 2 ^ (d - 1) = 2 ^ 52).
    { rewrite <- Z.pow_add_r by lia. f_equal. lia. }
    assert (Hs' : 2 ^ Zpos k * 2 ^ d = 2 ^ 53).
    { rewrite <- Z.pow_add_r by lia. f_equal. lia. }
    assert (Hb : 2 ^ 52 <= Zpos mz < 2 ^ 53).
    { rewrite Hmz, <- Hs, <- Hs'. nia. }
    assert (Hdz : Zpos (digits2_pos mz) = 53).
    { apply digits2_pos_unique. exact Hb. }
    unfold binary_round_aux, shr_fexp at 1. cbn [Zdigits2 shr_record_of_loc].
    rewrite Hdz, fexp_53, Z.sub_diag by lia.
    cbn [shr shr_m loc_of_shr_record round_nearest_even].
    apply second_rounding; lia.
Qed.

(** [float(n)] of a positive integer is never [0.0]. *)
Lemma float_of_positive (n : Z) (d : float) :
  0 < n -> float_of_Z n = Ok d -> (d =? 0)%float = false.
Proof.
  intros Hn. destruct n as [| p | p]; try lia.
  unfold float_of_Z. cbn [binary_normalize].
  destruct (binary_round_positive p) as [-> | (m & e & -> & Hv)].
  - discriminate.
  - set (f := SF2Prim (S754_finite false m e)).
    destruct (is_infinity f); [discriminate |]. intros H.
    assert (Hd : d = f) by congruence. subst d. unfold f.
    rewrite eqb_spec, Prim2SF_SF2Prim by exact Hv. reflexivity.
Qed.

Lemma float_of_Z_raises (n : Z) (e : exn) :
  float_of_Z n = Raise e -> e = OverflowError.
Proof.
  unfold float_of_Z. destruct (is_infinity _); [| discriminate]. now intros [= <-].
Qed.

(** With a positive divisor, a quotient is computed or is too large: there
    is no division by zero. *)
Lemma int_truediv_raises (a b : Z) (e : exn) :
  0 < b -> int_truediv a b = Raise e -> e = OverflowError.
Proof.
  intros Hb. unfold int_truediv.
  destruct (Z.eqb_spec b 0); [lia |].
  destruct (Z.abs a); destruct (Z.abs b); try discriminate;
    destruct (is_infinity _); try discriminate; now intros [= <-].
Qed.

Lemma float_div_int_positive (x : float) (n : Z) :
  0 < n ->
  (exists d, float_of_Z n = Ok d /\ float_div_int x n = Ok (x / d)%float)
  \/ (float_of_Z n = Raise OverflowError
      /\ float_div_int x n = Raise OverflowError).
Proof.
  intros Hn. unfold float_div_int.
  destruct (float_of_Z n) as [d | e] eqn:E.
  - left. exists d. split; [reflexivity |].
    now rewrite (float_of_positive n d Hn E).
  - right. rewrite (float_of_Z_raises n e E). split; reflexivity.
Qed.

(** *** The averages *)

(** The averages are computed whenever they are defined, and they are
    defined unless a quotient does not fit a float. *)
Lemma make_stats_averages (t : totals) :
  (forall ctr cpc,
      is_avgCTR (totalClicks t) (totalImpressions t) ctr ->
      is_avgCPC (totalSpend t) (totalClicks t) cpc ->
      make_stats t
      = Ok (mkStats (round2 (totalSpend t)) (totalImpressions t) (totalClicks t)
                    (totalLeads t) (totalReach t) ctr cpc))
  /\ ((exists ctr cpc,
          is_avgCTR (totalClicks t) (totalImpressions t) ctr
          /\ is_avgCPC (totalSpend t) (totalClicks t) cpc)
      \/ (make_stats t = Raise OverflowError
          /\ ((0 < totalImpressions t
               /\ int_truediv (totalClicks t) (totalImpressions t)
                  = Raise OverflowError)
              \/ (0 < totalClicks t
                  /\ float_of_Z (totalClicks t) = Raise OverflowError)))).
Proof.
  split.
  - intros ctr cpc Hctr Hcpc. unfold make_stats.
    assert (E1 : (if totalImpressions t >? 0
                  then rbind (int_truediv (totalClicks t) (totalImpressions t))
                             (fun q => Ok (round2 (q * 100)%float))
                  else Ok zero) = Ok ctr).
    { destruct Hctr as [(Hpos & q & Hq & ->) | (Hle & ->)].
      - destruct (Z.gtb_spec (totalImpressions t) 0); [| lia]. now rewrite Hq.
      - destruct (Z.gtb_spec (totalImpressions t) 0); [lia | reflexivity]. }
    assert (E2 : (if totalClicks t >? 0
                  then rbind (float_div_int (totalSpend t) (totalClicks t))
                             (fun q => Ok (round2 q))
                  else Ok zero) = Ok cpc).
    { destruct Hcpc as [(Hpos & d & Hd & ->) | (Hle & ->)].
      - destruct (Z.gtb_spec (totalClicks t) 0); [| lia].
        destruct (float_div_int_positive (totalSpend t) _ Hpos)
          as [(d' & Hd' & ->) | (Hd' & _)]; [| congruence].
        rewrite Hd in Hd'. injection Hd' as <-. reflexivity.
      - destruct (Z.gtb_spec (totalClicks t) 0); [lia | reflexivity]. }
    rewrite E1. cbn [rbind]. rewrite E2. reflexivity.
  - assert (Hctr : (exists ctr, is_avgCTR (totalClicks t) (totalImpressions t) ctr)
                   \/ (0 < totalImpressions t
                       /\ int_truediv (totalClicks t) (totalImpressions t)
                          = Raise OverflowError)).
    { destruct (Z.lt_ge_cases 0 (totalImpressions t)) as [Gi | Gi].
      - destruct (int_truediv (totalClicks t) (totalImpressions t)) as [q | e] eqn:Eq.
        + left. eexists. left. split; [exact Gi |]. exists q. split; [exact Eq | reflexivity].
        + right. split; [exact Gi |].
          pose proof (int_truediv_raises _ _ _ Gi Eq) as ->. reflexivity.
      - left. exists zero. right. split; [lia | reflexivity]. }
    assert (Hcpc : (exists cpc, is_avgCPC (totalSpend t) (totalClicks t) cpc)
                   \/ (0 < totalClicks t
                       /\ float_of_Z (totalClicks t) = Raise OverflowError
                       /\ float_div_int (totalSpend t) (totalClicks t)
                          = Raise OverflowError)).
    { destruct (Z.lt_ge_cases 0 (totalClicks t)) as [Gc | Gc].
      - destruct (float_div_int_positive (totalSpend t) _ Gc)
          as [(d & Hd & _) | (Hd & Hq)].
        + left. eexists. left. split; [exact Gc |]. exists d. split; [exact Hd | reflexivity].
        + right. now repeat split.
      - left. exists zero. right. split; [lia | reflexivity]. }
    destruct Hctr as [(ctr & Hctr) | (Gi & Eq)].
    + destruct Hcpc as [(cpc & Hcpc) | (Gc & Ed & Eq')].
      * left. now exists ctr, cpc.
      * right. split; [| right; now split].
        unfold make_stats.
        replace (totalClicks t >? 0) with true by (symmetry; apply Z.gtb_lt; lia).
        rewrite Eq'.
        destruct Hctr as [(Gi & q & Hq & _) | (Gi & _)].
        -- replace (totalImpressions t >? 0) with true
             by (symmetry; apply Z.gtb_lt; lia).
           rewrite Hq. reflexivity.
        -- destruct (Z.gtb_spec (totalImpressions t) 0); [lia | reflexivity].
    + right. split; [| left; now split].
      unfold make_stats.
      replace (totalImpressions t >? 0) with true by (symmetry; apply Z.gtb_lt; lia).
      rewrite Eq. reflexivity.
Qed.

Lemma aggregate_of_formatted (L : pylib) (camps : list value) (cs : list campaign) :
  Forall2 (fun camp c => format_campaign L camp = Ok c) camps cs ->
  forall formatted t,
    aggregate L camps formatted t
    = Ok ((formatted ++ cs)%list, fold_left accumulate cs t).
Proof.
  induction 1 as [| camp c camps cs Hc _ IH]; intros formatted t; simpl.
  - now rewrite app_nil_r.
  - rewrite Hc. cbn [rbind]. rewrite IH, <- app_assoc. reflexivity.
Qed.

Lemma meta_request_runs (L : pylib) (W : world) (token account_id : string)
      (st : state) :
  getenv W "VITE_META_ACCESS_TOKEN" = Some token -> token <> "" ->
  getenv W "VITE_META_AD_ACCOUNT_ID" = Some account_id -> account_id <> "" ->
  get_meta_campaigns L W st
  = handler
      (bind (lift (requests_get W (campaigns_url account_id) (campaigns_params token)))
         (fun response_ =>
            if negb (status_code response_ =? 200) then
              bind (lift (json response_))
                (fun details =>
                   ret (mkResponse
                          (BJson (VDict [("error", VStr "Meta API Error");
                                         ("details", details)]))
                          (status_code response_)))
            else
              bind (lift (json response_))
                (fun data =>
                   bind (lift (get data "data" (VList [])))
                     (fun campaigns =>
                        bind (lift (len campaigns))
                          (fun _ =>
                             bind (lift (iter campaigns))
                               (fun camps =>
                                  bind (lift (fetch_insights L W token camps))
                                    (fun campaigns_with_insights =>
                                       bind (lift (aggregation L campaigns_with_insights))
                                         (fun r =>
                                            ret (mkResponse (BJson (aggregation_json r))
                                                            200)))))))))
      (error_500 L) st.
Proof.
  intros Ht Nt Ha Na. unfold get_meta_campaigns. rewrite Ht, Ha.
  assert (Pt : present (Some token) = true).
  { simpl. destruct (String.eqb_spec token ""); [contradiction | reflexivity]. }
  assert (Pa : present (Some account_id) = true).
  { simpl. destruct (String.eqb_spec account_id ""); [contradiction | reflexivity]. }
  cbv zeta. rewrite Pt, Pa. reflexivity.
Qed.

(** C3.  In the ads aggregation response, with the totals summed over the
    campaigns of the response: [avgCTR] is
    [round(totalClicks / totalImpressions * 100, 2)] when [totalImpressions > 0]
    and [0.0] otherwise; [avgCPC] is [round(totalSpend / totalClicks, 2)] when
    [totalClicks > 0] and [0.0] otherwise, [totalSpend] being the running
    total (the response carries it rounded to two places).  Once the campaign
    list and the insights are received and every campaign is formatted, the
    handler answers 200 with these averages in [stats], computed by the
    handler itself whatever the totals: a zero or negative denominator gives
    [0.0], nothing is divided by zero.  The one case without averages is a
    quotient too large for a float (an [OverflowError], answered 500).  In
    particular, for two campaigns with impressions 100 and 100 and clicks 10
    and 0, [avgCTR] is 5.0 and [avgCPC] is the spend divided by 10, rounded
    like every [avgCPC]. *)
Theorem averages_of_the_totals :
  forall (L : pylib) (W : world) (token account_id : string)
         (r : http_response) (data : value) (camps camps' : list value)
         (formatted : list campaign) (st : state),
    getenv W "VITE_META_ACCESS_TOKEN" = Some token -> token <> "" ->
    getenv W "VITE_META_AD_ACCOUNT_ID" = Some account_id -> account_id <> "" ->
    requests_get W (campaigns_url account_id) (campaigns_params token) = Ok r ->
    status_code r = 200 ->
    json r = Ok data ->
    get data "data" (VList []) = Ok (VList camps) ->
    fetch_insights L W token camps = Ok camps' ->
    Forall2 (fun camp c => format_campaign L camp = Ok c) camps' formatted ->
    let spend := fold_left PrimFloat.add (map c_spend formatted) zero in
    let impressions := fold_left Z.add (map c_impressions formatted) 0 in
    let clicks := fold_left Z.add (map c_clicks formatted) 0 in
    let reply := get_meta_campaigns L W st in
    (forall ctr cpc,
        is_avgCTR clicks impressions ctr ->
        is_avgCPC spend clicks cpc ->
        reports_stats (fst reply) spend impressions clicks ctr cpc)
    /\ ((exists ctr cpc,
           is_avgCTR clicks impressions ctr /\ is_avgCPC spend clicks cpc)
        \/ (fst reply
            = mkResponse (BJson (VDict [("error", VStr (exn_text L OverflowError))]))
                         500
            /\ ((0 < impressions
                 /\ int_truediv clicks impressions = Raise OverflowError)
                \/ (0 < clicks /\ float_of_Z clicks = Raise OverflowError))))
    /\ (forall c1 c2,
          formatted = [c1; c2] ->
          c_impressions c1 = 100 -> c_impressions c2 = 100 ->
          c_clicks c1 = 10 -> c_clicks c2 = 0 ->
          reports_stats (fst reply) spend 200 10 5%float
            (round2 ((zero + c_spend c1 + c_spend c2) / 10)%float)).
Proof.
  intros L W token account_id r data camps camps' formatted st
         Ht Nt Ha Na Hr Hs Hj Hd Hfetch Hformat.
  cbv zeta.
  rewrite (meta_request_runs L W token account_id st Ht Nt Ha Na).
  unfold handler.
  ok_step Hr. rewrite Hs. cbn [Z.eqb Pos.eqb negb].
  ok_step Hj. ok_step Hd.
  ok_step (@eq_refl _ (len (VList camps))).
  ok_step (@eq_refl _ (iter (VList camps))).
  ok_step Hfetch.
  unfold aggregation.
  rewrite (aggregate_of_formatted L camps' formatted Hformat [] totals_zero).
  cbn [rbind snd fst app].
  set (t := fold_left accumulate formatted totals_zero).
  destruct (accumulate_fields formatted totals_zero) as (Hspend & Himp & Hclk).
  fold t in Hspend, Himp, Hclk.
  cbn [totals_zero totalSpend totalImpressions totalClicks] in Hspend, Himp, Hclk.
  rewrite <- Hspend, <- Himp, <- Hclk.
  destruct (make_stats_averages t) as [Hok Hcases].
  split; [| split].
  - intros ctr cpc Hctr Hcpc. rewrite (Hok ctr cpc Hctr Hcpc).
    eexists _, _. split; [reflexivity |]. repeat split.
  - destruct Hcases as [Hdef | [Hraise Hwhy]].
    + left. exact Hdef.
    + right. split; [| exact Hwhy]. rewrite Hraise. reflexivity.
  - intros c1 c2 -> I1 I2 C1 C2.
    assert (Hi : totalImpressions t = 200) by (rewrite Himp; simpl; lia).
    assert (Hc : totalClicks t = 10) by (rewrite Hclk; simpl; lia).
    assert (Hsp : totalSpend t = (zero + c_spend c1 + c_spend c2)%float)
      by (rewrite Hspend; reflexivity).
    rewrite (Hok 5%float (round2 ((zero + c_spend c1 + c_spend c2) / 10)%float)).
    + eexists _, _. split; [reflexivity |].
      cbn [aggregation_json stats_json getitem assoc String.eqb Ascii.eqb Bool.eqb
           snd s_totalSpend s_totalImpressions s_totalClicks avgCTR avgCPC].
      rewrite Hi, Hc. repeat split.
    + left. rewrite Hi, Hc. split; [lia |].
      exists (SF2Prim (SFdiv prec emax (S754_finite false 10 0)
                             (S754_finite false 200 0))).
      split; vm_compute; reflexivity.
    + left. rewrite Hc, Hsp. split; [lia |].
      exists 10%float. split; [vm_compute; reflexivity | reflexivity].
Qed.

Lemma averages_of_the_totals_witness :
  reports_stats
    (fst (get_meta_campaigns Example.lib
            (ads_reporting
               [VDict [("impressions", VStr "100"); ("clicks", VStr "10");
                       ("spend", VStr "12")]]
               [VDict [("impressions", VStr "100"); ("clicks", VStr "0");
                       ("spend", VStr "3")]])
            Example.st0))
    15 200 10 5 (round2 ((zero + 12 + 3) / 10)%float)
  /\ reports_stats
       (fst (get_meta_campaigns Example.lib (ads_reporting [] []) Example.st0))
       0 0 0 0 0.
Proof.
  split.
  - refine (proj2 (proj2
              (averages_of_the_totals Example.lib
                 (ads_reporting
                    [VDict [("impressions", VStr "100"); ("clicks", VStr "10");
                            ("spend", VStr "12")]]
                    [VDict [("impressions", VStr "100"); ("clicks", VStr "0");
                            ("spend", VStr "3")]])
                 "token" "act_1" _ _ _ Example.two_campaigns Example.two_formatted
                 Example.st0
                 eq_refl _ eq_refl _ eq_refl eq_refl eq_refl eq_refl eq_refl _))
              _ _ eq_refl eq_refl eq_refl eq_refl eq_refl);
      try discriminate.
    repeat constructor.
  - refine (proj1
              (averages_of_the_totals Example.lib (ads_reporting [] [])
                 "token" "act_1" _ _ _
                 [VDict [("id", VStr "1"); ("name", VStr "Whitening");
                         ("effective_status", VStr "active"); ("insights", VDict [])];
                  VDict [("id", VStr "2"); ("name", VStr "Implants");
                         ("effective_status", VStr "paused"); ("insights", VDict [])]]
                 [mkCampaign (VStr "1") (VStr "Whitening") "active" 0 0 0 0 0 0 0 0 0;
                  mkCampaign (VStr "2") (VStr "Implants") "paused" 0 0 0 0 0 0 0 0 0]
                 Example.st0
                 eq_refl _ eq_refl _ eq_refl eq_refl eq_refl eq_refl eq_refl _)
              0%float 0%float _ _);
      try discriminate.
    + repeat constructor.
    + right. split; [simpl; lia | reflexivity].
    + right. split; [simpl; lia | reflexivity].
Defined.

(** ** Leads and conversions (C4) *)

Lemma count_loop_sums (L : pylib) (types : list string) (actions : list value) :
  forall count n,
    count_loop L types actions count = Ok n ->
    exists ns,
      Forall2 (fun action k => value_of L action = Ok k)
              (filter (counted types) actions) ns
      /\ n = fold_left Z.add ns count.
Proof.
  induction actions as [| action actions IH]; intros count n H; simpl in H.
  - injection H as <-. exists []. split; [constructor | reflexivity].
  - simpl. unfold counted at 1.
    destruct (get action "action_type" VNone) as [ty |] eqn:Ety;
      simpl in H; [| discriminate].
    destruct (in_literals ty types).
    + destruct (get action "value" (VInt 0)) as [v |] eqn:Ev;
        simpl in H; [| discriminate].
      destruct (int_of_value L v) as [k |] eqn:Ek; simpl in H; [| discriminate].
      destruct (IH _ _ H) as (ns & Hns & ->).
      exists (k :: ns). split; [| reflexivity].
      constructor; [| exact Hns].
      unfold value_of. rewrite Ev. exact Ek.
    + apply IH. exact H.
Qed.

Lemma count_loop_raises (L : pylib) (types : list string) (actions : list value)
      (a : value) (e : exn) :
  In a actions -> counted types a = true -> value_of L a = Raise e ->
  forall count, exists e', count_loop L types actions count = Raise e'.
Proof.
  intros Hin Hc Hv.
  induction actions as [| action actions IH]; intros count; [contradiction |].
  simpl.
  destruct (get action "action_type" VNone) as [ty |] eqn:Ety; simpl;
    [| now eexists].
  destruct (in_literals ty types) eqn:Hty.
  - destruct (get action "value" (VInt 0)) as [v |] eqn:Ev; simpl; [| now eexists].
    destruct (int_of_value L v) as [k |] eqn:Ek; simpl; [| now eexists].
    destruct Hin as [<- | Hin]; [| now apply IH].
    unfold value_of in Hv. rewrite Ev in Hv. simpl in Hv. congruence.
  - destruct Hin as [<- | Hin]; [| now apply IH].
    unfold counted in Hc. rewrite Ety in Hc. congruence.
Qed.

Lemma count_actions_list (L : pylib) (types : list string) (actions : list value) :
  count_actions L types (VList actions) = count_loop L types actions 0.
Proof. destruct actions; reflexivity. Qed.

(** Splits a successful chain of steps into its steps. *)
Ltac split_chain H :=
  repeat match type of H with
         | rbind ?r _ = Ok _ =>
             let E := fresh "E" in
             destruct r eqn:E; simpl in H; [| discriminate H]
         end.

(** C4, as amended.  For every campaign whose actions are an array, the
    leads counter is the sum of [int(value)] over the actions whose
    [action_type] is ['lead'] or ['onsite_conversion.lead_grouped'], and the
    conversions counter the sum over those whose [action_type] is
    ['offsite_conversion.fb_pixel_purchase'] or ['onsite_conversion.purchase'];
    an action without a value contributes zero; a counted action whose value
    [int()] does not convert makes the formatting of the campaign raise,
    instead of contributing zero. *)
Theorem counters_sum_the_counted_values :
  forall (L : pylib) (camp insights : value) (actions : list value),
    get camp "insights" (VDict []) = Ok insights ->
    get insights "actions" (VList []) = Ok (VList actions) ->
    (forall c,
        format_campaign L camp = Ok c ->
        exists leads purchases,
          Forall2 (fun action k => value_of L action = Ok k)
                  (filter (counted ["lead"; "onsite_conversion.lead_grouped"]) actions)
                  leads
          /\ c_leads c = sum_Z leads
          /\ Forall2 (fun action k => value_of L action = Ok k)
                     (filter (counted ["offsite_conversion.fb_pixel_purchase";
                                       "onsite_conversion.purchase"]) actions)
                     purchases
          /\ c_conversions c = sum_Z purchases)
    /\ (forall kv, assoc "value" kv = None -> value_of L (VDict kv) = Ok 0)
    /\ (forall action e,
          In action actions ->
          counted lead_types action || counted purchase_types action = true ->
          value_of L action = Raise e ->
          exists e', format_campaign L camp = Raise e').
Proof.
  intros L camp insights actions Hins Hact. split; [| split].
  - intros c H. unfold format_campaign in H.
    rewrite Hins in H. simpl in H. rewrite Hact in H. simpl in H.
    rewrite !count_actions_list in H.
    destruct (count_loop L lead_types actions 0) as [leads |] eqn:El;
      simpl in H; [| discriminate].
    destruct (count_loop L purchase_types actions 0) as [convs |] eqn:Ep;
      simpl in H; [| discriminate].
    split_chain H. injection H as <-. simpl.
    destruct (count_loop_sums L _ _ _ _ El) as (ls & Hls & ->).
    destruct (count_loop_sums L _ _ _ _ Ep) as (ps & Hps & ->).
    exists ls, ps. repeat split; assumption.
  - intros kv H. unfold value_of. simpl. rewrite H. reflexivity.
  - intros action e Hin Hc Hv. unfold format_campaign.
    rewrite Hins. simpl. rewrite Hact. simpl.
    rewrite !count_actions_list.
    apply orb_prop in Hc. destruct Hc as [Hc | Hc].
    + destruct (count_loop_raises L _ _ _ _ Hin Hc Hv 0) as [e' ->]. now eexists.
    + destruct (count_loop L lead_types actions 0); simpl; [| now eexists].
      destruct (count_loop_raises L _ _ _ _ Hin Hc Hv 0) as [e' ->]. now eexists.
Qed.

Lemma counters_sum_the_counted_values_witness :
  exists c,
    format_campaign Example.lib Example.campaign_with_actions = Ok c
    /\ exists leads purchases,
         Forall2 (fun action k => value_of Example.lib action = Ok k)
                 (filter (counted ["lead"; "onsite_conversion.lead_grouped"])
                         Example.campaign_actions)
                 leads
         /\ c_leads c = sum_Z leads
         /\ Forall2 (fun action k => value_of Example.lib action = Ok k)
                    (filter (counted ["offsite_conversion.fb_pixel_purchase";
                                      "onsite_conversion.purchase"])
                            Example.campaign_actions)
                    purchases
         /\ c_conversions c = sum_Z purchases.
Proof.
  eexists. split; [reflexivity |].
  refine (proj1 (counters_sum_the_counted_values Example.lib
                   Example.campaign_with_actions _ Example.campaign_actions
                   eq_refl eq_refl) _ eq_refl).
Defined.

(** What the example campaign counts: 3 leads and 2 conversions. *)
Example campaign_with_actions_counts :
  option_map (fun c => (c_leads c, c_conversions c))
             (match format_campaign Example.lib Example.campaign_with_actions with
              | Ok c => Some c
              | Raise _ => None
              end)
  = Some (3, 2).
Proof. reflexivity. Qed.

(** C4, as stated, fails where it lets an unparsable value count as zero: a
    lead action whose value is ["n/a"] makes the count raise [ValueError],
    and [GET /api/meta/campaigns] answers with status 500 instead of a
    campaign with zero leads. *)
Lemma unparsable_value_is_not_zero :
  count_actions Example.lib lead_types
    (VList [VDict [("action_type", VStr "lead"); ("value", VStr "n/a")]])
  = Raise ValueError
  /\ get_meta_campaigns Example.lib
       (Example.ads [VDict [("id", VStr "1"); ("name", VStr "Whitening")]]
                    Example.unparsable_lead)
       Example.st0
     = (mkResponse (BJson (VDict [("error", VStr "ValueError")])) 500, Example.st0).
Proof. split; reflexivity. Qed.

(** ** Ads credentials (C5) *)

(** C5.  Whenever the ads access token ([VITE_META_ACCESS_TOKEN]) or the ad
    account id ([VITE_META_AD_ACCOUNT_ID]) is absent from the environment,
    [GET /api/meta/campaigns] answers with status 200 and the body
    [{"data": [], "error": "Missing backend credentials"}]: an empty [data]
    list and an [error] field, never an HTTP error status.  Nothing is sent
    and the store is left alone. *)
Theorem missing_ads_credentials_is_200 :
  forall (L : pylib) (W : world) (st : state),
    getenv W "VITE_META_ACCESS_TOKEN" = None
    \/ getenv W "VITE_META_AD_ACCOUNT_ID" = None ->
    get_meta_campaigns L W st
    = (mkResponse
         (BJson (VDict [("data", VList []);
                        ("error", VStr "Missing backend credentials")]))
         200,
       st).
Proof.
  intros L W st H.
  unfold get_meta_campaigns, handler.
  destruct H as [H | H]; rewrite H; simpl.
  - reflexivity.
  - rewrite orb_true_r. reflexivity.
Qed.

Lemma missing_ads_credentials_is_200_witness :
  status (fst (get_meta_campaigns Example.lib Example.quiet Example.st0)) = 200.
Proof.
  rewrite (missing_ads_credentials_is_200 Example.lib Example.quiet Example.st0).
  - reflexivity.
  - left. reflexivity.
Defined.

(** ** Webhook verification (C6) *)

Lemma verify_cases (verify_token : string) (query : list (string * string)) :
  let mode := arg query "hub.mode" in
  let token := arg query "hub.verify_token" in
  let challenge := arg query "hub.challenge" in
  (present mode = true -> present token = true ->
   mode = Some "subscribe" -> token = Some verify_token ->
   verify verify_token query = mkResponse (BText challenge) 200)
  /\ (present mode = true -> present token = true ->
      ~ (mode = Some "subscribe" /\ token = Some verify_token) ->
      verify verify_token query = mkResponse (BText (Some "Forbidden")) 403)
  /\ (present mode = false \/ present token = false ->
      verify verify_token query = mkResponse (BText (Some "Bad Request")) 400).
Proof.
  intros mode token challenge. unfold verify.
  fold mode token challenge.
  repeat split.
  - intros Hm Ht Em Et. rewrite Hm, Ht. simpl.
    apply opt_eqb_true in Em. apply opt_eqb_true in Et.
    now rewrite Em, Et.
  - intros Hm Ht Hn. rewrite Hm, Ht. simpl.
    destruct (opt_eqb mode "subscribe") eqn:Em;
      destruct (opt_eqb token verify_token) eqn:Et; simpl; try reflexivity.
    exfalso. apply Hn. split; now apply opt_eqb_true.
  - intros [H | H]; rewrite H; simpl; [reflexivity|].
    now rewrite andb_false_r.
Qed.

(** C6.  For every GET to [/api/whatsapp/webhook] and to
    [/api/instagram/webhook], with [mode], [token] and [challenge] the query
    parameters [hub.mode], [hub.verify_token] and [hub.challenge]: when [mode]
    is ["subscribe"] and [token] equals the configured verify token, the view
    returns the challenge itself with status 200; when [mode] and [token] are
    both present but that condition fails, it returns 403; when [mode] or
    [token] is absent, it returns 400.  Present is what the views test with
    [if mode and token]: supplied and not empty. *)
Theorem verification_outcomes :
  forall (W : world) (query : list (string * string)),
    let mode := arg query "hub.mode" in
    let token := arg query "hub.verify_token" in
    let challenge := arg query "hub.challenge" in
    ((present mode = true -> present token = true ->
      mode = Some "subscribe" -> token = Some (whatsapp_verify_token W) ->
      verify_whatsapp_webhook W query = mkResponse (BText challenge) 200)
     /\ (present mode = true -> present token = true ->
         ~ (mode = Some "subscribe" /\ token = Some (whatsapp_verify_token W)) ->
         verify_whatsapp_webhook W query = mkResponse (BText (Some "Forbidden")) 403)
     /\ (present mode = false \/ present token = false ->
         verify_whatsapp_webhook W query = mkResponse (BText (Some "Bad Request")) 400))
    /\
    ((present mode = true -> present token = true ->
      mode = Some "subscribe" -> token = Some (instagram_verify_token W) ->
      verify_instagram_webhook W query = mkResponse (BText challenge) 200)
     /\ (present mode = true -> present token = true ->
         ~ (mode = Some "subscribe" /\ token = Some (instagram_verify_token W)) ->
         verify_instagram_webhook W query = mkResponse (BText (Some "Forbidden")) 403)
     /\ (present mode = false \/ present token = false ->
         verify_instagram_webhook W query = mkResponse (BText (Some "Bad Request")) 400)).
Proof.
  intros W query mode token challenge. split.
  - exact (verify_cases (whatsapp_verify_token W) query).
  - exact (verify_cases (instagram_verify_token W) query).
Qed.

Lemma verification_outcomes_witness :
  (verify_whatsapp_webhook Example.quiet
     [("hub.mode", "subscribe"); ("hub.verify_token", "nova_sync_secret");
      ("hub.challenge", "1158201444")]
   = mkResponse (BText (Some "1158201444")) 200
   /\ verify_instagram_webhook Example.quiet
        [("hub.mode", "subscribe"); ("hub.verify_token", "guess");
         ("hub.challenge", "1158201444")]
      = mkResponse (BText (Some "Forbidden")) 403)
  /\ verify_instagram_webhook Example.quiet [("hub.mode", "subscribe")]
     = mkResponse (BText (Some "Bad Request")) 400.
Proof.
  split; [split|].
  - apply (proj1 (proj1 (verification_outcomes Example.quiet
      [("hub.mode", "subscribe"); ("hub.verify_token", "nova_sync_secret");
       ("hub.challenge", "1158201444")]))); reflexivity.
  - apply (proj1 (proj2 (proj2 (verification_outcomes Example.quiet
      [("hub.mode", "subscribe"); ("hub.verify_token", "guess");
       ("hub.challenge", "1158201444")])))); try reflexivity.
    intros [_ H]. discriminate H.
  - apply (proj2 (proj2 (proj2 (verification_outcomes Example.quiet
      [("hub.mode", "subscribe")])))).
    right. reflexivity.
Defined.

(** ** Sending a message (C7) *)

Lemma send_whatsapp_cases (L : pylib) (W : world) data to_number message_text st :
  get data "to" VNone = Ok to_number ->
  get data "text" VNone = Ok message_text ->
  truthy to_number = true -> truthy message_text = true ->
  let request_ := HttpPost (whatsapp_send_url (getenv W "VITE_WHATSAPP_PHONE_ID"))
                           (whatsapp_send_payload to_number message_text) in
  let answer := requests_post W (whatsapp_send_url (getenv W "VITE_WHATSAPP_PHONE_ID"))
                              (whatsapp_send_payload to_number message_text) in
  let new_msg := outbound_message ("sent_" ++ str_of_Z (now_timestamp W)) "whatsapp"
                                  to_number message_text in
  send_whatsapp_message L W data st
  = if whatsapp_configured W then
      match answer with
      | Ok _ => (mkResponse (BJson new_msg) 200,
                 mkState (new_msg :: messages_store st) (request_ :: effects st))
      | Raise e => (error_500 L e, mkState (messages_store st) (request_ :: effects st))
      end
    else (mkResponse (BJson new_msg) 200,
          mkState (new_msg :: messages_store st) (effects st)).
Proof.
  intros Hto Htext Tto Ttext. cbv zeta.
  unfold send_whatsapp_message, handler, whatsapp_configured.
  rewrite (bind_lift_ok _ _ _ _ Hto), (bind_lift_ok _ _ _ _ Htext).
  rewrite Tto, Ttext. cbn [negb orb].
  destruct (present (getenv W "VITE_WHATSAPP_ACCESS_TOKEN"));
    destruct (present (getenv W "VITE_WHATSAPP_PHONE_ID")); cbn [negb orb andb].
  - unfold bind, post, emit, lift, ret, store_insert0. cbn.
    destruct (requests_post W _ _); reflexivity.
  - destruct st; reflexivity.
  - destruct st; reflexivity.
  - destruct st; reflexivity.
Qed.

Lemma send_instagram_cases (L : pylib) (W : world) data to_id message_text st :
  get data "to" VNone = Ok to_id ->
  get data "text" VNone = Ok message_text ->
  truthy to_id = true -> truthy message_text = true ->
  let request_ := HttpPost instagram_send_url (instagram_send_payload to_id message_text) in
  let answer := requests_post W instagram_send_url
                              (instagram_send_payload to_id message_text) in
  let new_msg := outbound_message ("sent_ig_" ++ str_of_Z (now_timestamp W)) "instagram"
                                  to_id message_text in
  send_instagram_message L W data st
  = if instagram_configured W then
      match answer with
      | Ok _ => (mkResponse (BJson new_msg) 200,
                 mkState (new_msg :: messages_store st) (request_ :: effects st))
      | Raise e => (error_500 L e, mkState (messages_store st) (request_ :: effects st))
      end
    else (mkResponse (BJson new_msg) 200,
          mkState (new_msg :: messages_store st) (effects st)).
Proof.
  intros Hto Htext Tto Ttext. cbv zeta.
  unfold send_instagram_message, handler, instagram_configured.
  rewrite (bind_lift_ok _ _ _ _ Hto), (bind_lift_ok _ _ _ _ Htext).
  rewrite Tto, Ttext. cbn [negb orb].
  destruct (present (getenv W "VITE_INSTAGRAM_ACCESS_TOKEN")); cbn [negb].
  - unfold bind, post, emit, lift, ret, store_insert0. cbn.
    destruct (requests_post W _ _); reflexivity.
  - destruct st; reflexivity.
Qed.

(** C7, as amended.  For every POST to [/api/whatsapp/send] or
    [/api/instagram/send] whose [to] and [text] fields are both present (not
    missing and not empty, the test the handlers make): when the credentials
    are not configured, or when the outbound request to the messaging API
    returns a response, whatever its status, the handler puts the canonical
    outbound message at the front of the store and returns that same object
    with status 200; when the credentials are configured and the outbound
    request raises, the handler returns 500 and the store is unchanged. *)
Theorem outbound_message_stored :
  forall (L : pylib) (W : world) (data to_ text_ : value) (st : state),
    get data "to" VNone = Ok to_ ->
    get data "text" VNone = Ok text_ ->
    truthy to_ = true -> truthy text_ = true ->
    let wa_msg := outbound_message ("sent_" ++ str_of_Z (now_timestamp W)) "whatsapp"
                                   to_ text_ in
    let wa_answer := requests_post W (whatsapp_send_url (getenv W "VITE_WHATSAPP_PHONE_ID"))
                                   (whatsapp_send_payload to_ text_) in
    let ig_msg := outbound_message ("sent_ig_" ++ str_of_Z (now_timestamp W)) "instagram"
                                   to_ text_ in
    let ig_answer := requests_post W instagram_send_url (instagram_send_payload to_ text_) in
    ((whatsapp_configured W = false \/ (exists r, wa_answer = Ok r) ->
      fst (send_whatsapp_message L W data st) = mkResponse (BJson wa_msg) 200
      /\ messages_store (snd (send_whatsapp_message L W data st))
         = wa_msg :: messages_store st)
     /\ (forall e, whatsapp_configured W = true -> wa_answer = Raise e ->
         fst (send_whatsapp_message L W data st) = error_500 L e
         /\ messages_store (snd (send_whatsapp_message L W data st)) = messages_store st))
    /\
    ((instagram_configured W = false \/ (exists r, ig_answer = Ok r) ->
      fst (send_instagram_message L W data st) = mkResponse (BJson ig_msg) 200
      /\ messages_store (snd (send_instagram_message L W data st))
         = ig_msg :: messages_store st)
     /\ (forall e, instagram_configured W = true -> ig_answer = Raise e ->
         fst (send_instagram_message L W data st) = error_500 L e
         /\ messages_store (snd (send_instagram_message L W data st)) = messages_store st)).
Proof.
  intros L W data to_ text_ st Hto Htext Tto Ttext. cbv zeta.
  pose proof (send_whatsapp_cases L W data to_ text_ st Hto Htext Tto Ttext) as Hwa.
  pose proof (send_instagram_cases L W data to_ text_ st Hto Htext Tto Ttext) as Hig.
  cbv zeta in Hwa, Hig. rewrite Hwa, Hig. clear Hwa Hig.
  split; split.
  - intros [Hc | [r Hr]].
    + rewrite Hc. split; reflexivity.
    + rewrite Hr. destruct (whatsapp_configured W); split; reflexivity.
  - intros e Hc He. rewrite Hc, He. split; reflexivity.
  - intros [Hc | [r Hr]].
    + rewrite Hc. split; reflexivity.
    + rewrite Hr. destruct (instagram_configured W); split; reflexivity.
  - intros e Hc He. rewrite Hc, He. split; reflexivity.
Qed.

Lemma outbound_message_stored_witness :
  let data := VDict [("to", VStr "15551234567"); ("text", VStr "See you at 3pm")] in
  let msg := outbound_message "sent_1700000000" "whatsapp"
                              (VStr "15551234567") (VStr "See you at 3pm") in
  fst (send_whatsapp_message Example.lib
         (Example.with_post (Ok (mkHttp 401 "invalid token" (Raise ValueError)))
                            Example.messaging)
         data Example.st0)
  = mkResponse (BJson msg) 200
  /\ messages_store
       (snd (send_whatsapp_message Example.lib
               (Example.with_post (Ok (mkHttp 401 "invalid token" (Raise ValueError)))
                                  Example.messaging)
               data Example.st0))
     = msg :: messages_store Example.st0.
Proof.
  cbv zeta.
  apply (proj1 (proj1 (outbound_message_stored Example.lib
    (Example.with_post (Ok (mkHttp 401 "invalid token" (Raise ValueError)))
                       Example.messaging)
    (VDict [("to", VStr "15551234567"); ("text", VStr "See you at 3pm")])
    (VStr "15551234567") (VStr "See you at 3pm") Example.st0
    eq_refl eq_refl eq_refl eq_refl))).
  right. eexists. reflexivity.
Defined.

(** C7, as stated, fails: with the WhatsApp credentials configured and an
    outbound request that raises (no connection to the messaging API), a send
    with both fields present is answered with status 500 and nothing is added
    to the store. *)
Lemma send_fails_when_the_request_raises :
  let W := Example.with_post (Raise UpstreamError) Example.messaging in
  let data := VDict [("to", VStr "15551234567"); ("text", VStr "See you at 3pm")] in
  status (fst (send_whatsapp_message Example.lib W data Example.st0)) = 500
  /\ messages_store (snd (send_whatsapp_message Example.lib W data Example.st0))
     = messages_store Example.st0.
Proof. split; reflexivity. Qed.

(** ** Webhook deliveries (C8, C9) *)

Lemma whatsapp_message_succeeds (value_ msg : value) :
  absent_or wa_contacts_ok value_ "contacts" = true ->
  wa_message_ok msg = true ->
  succeeds (whatsapp_message value_ msg).
Proof.
  intros Hc Hm.
  destruct (absent_or_dict _ _ _ Hc) as [vkv ->].
  destruct (absent_or_dict _ _ _ Hm) as [mkv ->].
  unfold whatsapp_message. get_step.
  assert (Ht : exists tkv, get (VDict mkv) "text" (VDict []) = Ok (VDict tkv)).
  { destruct (absent_or_get _ _ _ (VDict []) Hm) as [[_ E] | (x & _ & E & Hx)].
    - now exists [].
    - destruct (is_dict_true _ Hx) as [tkv ->]. now exists tkv. }
  destruct Ht as [tkv Ht].
  eapply succeeds_bind_lift; [exact Ht |].
  do 3 get_step.
  assert (Hk : exists ckv pkv,
             get (VDict vkv) "contacts" (VList [VDict []]) = Ok (VList (VDict ckv :: pkv))
             /\ absent_or is_dict (VDict ckv) "profile" = true).
  { destruct (absent_or_get _ _ _ (VList [VDict []]) Hc) as [[_ E] | (x & _ & E & Hx)].
    - now exists [], [].
    - destruct x as [| | | | | [| c l] |]; try discriminate Hx.
      simpl in Hx. destruct (absent_or_dict _ _ _ Hx) as [ckv ->].
      now exists ckv, l. }
  destruct Hk as (ckv & rest & Hk & Hp).
  eapply succeeds_bind_lift; [exact Hk |].
  get_step.
  assert (Hq : exists qkv, get (VDict ckv) "profile" (VDict []) = Ok (VDict qkv)).
  { destruct (absent_or_get _ _ _ (VDict []) Hp) as [[_ E] | (x & _ & E & Hx)].
    - now exists [].
    - destruct (is_dict_true _ Hx) as [qkv ->]. now exists qkv. }
  destruct Hq as [qkv Hq].
  eapply succeeds_bind_lift; [exact Hq |].
  get_step. apply succeeds_store_insert0.
Qed.

Lemma whatsapp_change_succeeds (change : value) :
  wa_change_ok change = true -> succeeds (whatsapp_change change).
Proof.
  intros Hc. unfold wa_change_ok in Hc.
  destruct (absent_or_dict _ _ _ Hc) as [ckv ->].
  unfold whatsapp_change.
  assert (Hv : exists vkv, get (VDict ckv) "value" (VDict []) = Ok (VDict vkv)
                           /\ wa_value_ok (VDict vkv) = true).
  { destruct (absent_or_get _ _ _ (VDict []) Hc) as [[_ E] | (x & _ & E & Hx)].
    - now exists [].
    - pose proof Hx as Hx'. unfold wa_value_ok in Hx'.
      apply andb_prop in Hx'. destruct Hx' as [Hx' _].
      destruct (absent_or_dict _ _ _ Hx') as [vkv ->]. now exists vkv. }
  destruct Hv as (vkv & Hv & Hok).
  eapply succeeds_bind_lift; [exact Hv |].
  unfold wa_value_ok in Hok. apply andb_prop in Hok. destruct Hok as [Hcontacts Hmsgs].
  get_step. simpl in Hmsgs |- *.
  destruct (assoc "messages" vkv) as [ms |] eqn:E.
  - destruct (list_of_true _ _ Hmsgs) as (l & -> & Hl).
    get_step. get_step. apply succeeds_for_each. intros msg Hin.
    apply whatsapp_message_succeeds; [exact Hcontacts |].
    rewrite forallb_forall in Hl. now apply Hl.
  - apply succeeds_ret.
Qed.

Lemma whatsapp_entry_succeeds (entry : value) :
  wa_entry_ok entry = true -> succeeds (whatsapp_entry entry).
Proof.
  intros He. unfold wa_entry_ok in He.
  destruct (absent_or_dict _ _ _ He) as [ekv ->].
  unfold whatsapp_entry.
  assert (Hc : exists cs, get (VDict ekv) "changes" (VList []) = Ok (VList cs)
                          /\ forallb wa_change_ok cs = true).
  { destruct (absent_or_get _ _ _ (VList []) He) as [[_ E] | (x & _ & E & Hx)].
    - now exists [].
    - destruct (list_of_true _ _ Hx) as (l & -> & Hl). now exists l. }
  destruct Hc as (cs & Hc & Hl).
  eapply succeeds_bind_lift; [exact Hc |].
  get_step. apply succeeds_for_each. intros c Hin.
  apply whatsapp_change_succeeds. rewrite forallb_forall in Hl. now apply Hl.
Qed.

(** The WhatsApp receive handler acknowledges every delivery of the expected
    shape, whichever of its keys are missing. *)
Lemma whatsapp_webhook_acknowledges (data : value) (st : state) :
  wa_body_ok data = true ->
  fst (whatsapp_webhook data st) = event_received.
Proof.
  intros Hd. unfold wa_body_ok in Hd.
  destruct (absent_or_dict _ _ _ Hd) as [dkv ->].
  unfold whatsapp_webhook. revert st.
  apply succeeds_handler with (r := event_received).
  intros st. unfold bind at 1, lift at 1, contains.
  simpl in Hd.
  destruct (assoc "entry" dkv) as [es |] eqn:E.
  - destruct (list_of_true _ _ Hd) as (l & -> & Hl).
    assert (S : succeeds (for_each l whatsapp_entry)).
    { apply succeeds_for_each. intros e Hin.
      apply whatsapp_entry_succeeds. rewrite forallb_forall in Hl. now apply Hl. }
    destruct (S st) as ([] & st' & Est).
    exists st'. unfold bind, lift, getitem, iter. rewrite E, Est. reflexivity.
  - exists st. reflexivity.
Qed.

(** What [process_instagram_event] does with an event of the [messaging]
    array: an event whose [message] has text content is put at the front of
    the store, any other event is skipped. *)
Lemma instagram_event_stored (mkv : list (string * value)) (sender_id : value)
      (st : state) :
  ig_event_ok (VDict mkv) = true ->
  rbind (get (VDict mkv) "sender" (VDict [])) (fun s => get s "id" VNone)
  = Ok sender_id ->
  process_instagram_event (VDict mkv) st
  = (Ok tt,
     match assoc "message" mkv with
     | Some message_obj =>
         let text_ := match get message_obj "text" (VStr "") with
                      | Ok t => t
                      | Raise _ => VNone
                      end in
         let mid := match get message_obj "mid" VNone with
                    | Ok m => m
                    | Raise _ => VNone
                    end in
         if truthy text_ then
           mkState (inbound_message mid "instagram" (VStr "Instagram User")
                                    sender_id text_ :: messages_store st)
                   (effects st)
         else st
     | None => st
     end).
Proof.
  intros Hok Hs. unfold ig_event_ok in Hok.
  apply andb_prop in Hok. destruct Hok as [Hok Hmsg].
  apply andb_prop in Hok. destruct Hok as [Hsender Hrecipient].
  unfold process_instagram_event.
  destruct (get (VDict mkv) "sender" (VDict [])) as [s |] eqn:Es; [| discriminate Hs].
  simpl in Hs. ok_step (@eq_refl _ (Ok s)). ok_step Hs.
  assert (Hr : exists rkv, get (VDict mkv) "recipient" (VDict []) = Ok (VDict rkv)).
  { destruct (absent_or_get _ _ _ (VDict []) Hrecipient) as [[_ E] | (x & _ & E & Hx)].
    - now exists [].
    - destruct (is_dict_true _ Hx) as [rkv ->]. now exists rkv. }
  destruct Hr as [rkv Hr].
  ok_step Hr.
  unfold bind, lift, ret, store_insert0, contains, getitem. cbn [get].
  simpl in Hmsg.
  destruct (assoc "message" mkv) as [message_obj |]; [| reflexivity].
  destruct (is_dict_true _ Hmsg) as [okv ->].
  cbn [get]. cbv zeta.
  destruct (truthy _); reflexivity.
Qed.

Lemma instagram_event_succeeds (msg : value) :
  ig_event_ok msg = true -> succeeds (process_instagram_event msg).
Proof.
  intros Hok st. pose proof Hok as Hok'. unfold ig_event_ok in Hok'.
  apply andb_prop in Hok'. destruct Hok' as [Hok' _].
  apply andb_prop in Hok'. destruct Hok' as [Hsender _].
  destruct (absent_or_dict _ _ _ Hsender) as [mkv ->].
  assert (Hs : exists sender_id,
             rbind (get (VDict mkv) "sender" (VDict [])) (fun s => get s "id" VNone)
             = Ok sender_id).
  { destruct (absent_or_get _ _ _ (VDict []) Hsender) as [[_ E] | (x & _ & E & Hx)];
      rewrite E; simpl.
    - now eexists.
    - destruct (is_dict_true _ Hx) as [skv ->]. now eexists. }
  destruct Hs as [sender_id Hs].
  rewrite (instagram_event_stored mkv sender_id st Hok Hs). now eexists _, _.
Qed.

(** A change that carries messages reaches the call of the unbound name. *)
Lemma instagram_change_raises (ckv vkv : list (string * value)) (m : value)
      (ms : list value) (st : state) :
  get (VDict ckv) "value" (VDict []) = Ok (VDict vkv) ->
  assoc "messages" vkv = Some (VList (m :: ms)) ->
  instagram_change (VDict ckv) st = (Raise NameError, st).
Proof.
  intros Hv Hm. unfold instagram_change.
  rewrite (bind_lift_ok _ _ _ _ Hv).
  unfold contains, getitem. rewrite Hm.
  reflexivity.
Qed.

Lemma instagram_change_succeeds (change : value) :
  ig_change_empty change = true -> succeeds (instagram_change change).
Proof.
  intros Hc. unfold ig_change_empty in Hc.
  destruct (absent_or_dict _ _ _ Hc) as [ckv ->].
  unfold instagram_change.
  assert (Hv : exists vkv, get (VDict ckv) "value" (VDict []) = Ok (VDict vkv)
                 /\ absent_or (fun ms => list_of (fun _ => false) ms) (VDict vkv) "messages"
                    = true).
  { destruct (absent_or_get _ _ _ (VDict []) Hc) as [[_ E] | (x & _ & E & Hx)].
    - now exists [].
    - destruct (absent_or_dict _ _ _ Hx) as [vkv ->]. now exists vkv. }
  destruct Hv as (vkv & Hv & Hm).
  eapply succeeds_bind_lift; [exact Hv |].
  get_step. simpl in Hm |- *.
  destruct (assoc "messages" vkv) as [ms |].
  - destruct (list_of_true _ _ Hm) as (l & -> & Hl).
    destruct l as [| x l]; [| discriminate Hl].
    get_step. get_step. apply succeeds_ret.
  - apply succeeds_ret.
Qed.

Lemma instagram_entry_succeeds (entry : value) :
  ig_entry_ok entry = true -> succeeds (instagram_entry entry).
Proof.
  intros He. destruct entry as [| | | | | | ekv]; try discriminate He.
  simpl in He. unfold instagram_entry.
  get_step. simpl.
  destruct (assoc "messaging" ekv) as [messaging |].
  - destruct (list_of_true _ _ He) as (l & -> & Hl).
    get_step. get_step. apply succeeds_for_each. intros msg Hin.
    apply instagram_event_succeeds. rewrite forallb_forall in Hl. now apply Hl.
  - get_step. simpl.
    destruct (assoc "changes" ekv) as [changes |].
    + destruct (list_of_true _ _ He) as (l & -> & Hl).
      get_step. get_step. apply succeeds_for_each. intros c Hin.
      apply instagram_change_succeeds. rewrite forallb_forall in Hl. now apply Hl.
    + apply succeeds_ret.
Qed.

(** The Instagram receive handler acknowledges every delivery of the expected
    shape whose entries carry a [messaging] array or changes without
    messages, whichever of the other keys are missing. *)
Lemma instagram_webhook_acknowledges (data : value) (st : state) :
  ig_body_ok data = true ->
  fst (instagram_webhook data st) = event_received.
Proof.
  intros Hd. unfold ig_body_ok in Hd.
  destruct (absent_or_dict _ _ _ Hd) as [dkv ->].
  unfold instagram_webhook. revert st.
  apply succeeds_handler with (r := event_received).
  intros st. unfold bind at 1, lift at 1, contains.
  simpl in Hd.
  destruct (assoc "entry" dkv) as [es |] eqn:E.
  - destruct (list_of_true _ _ Hd) as (l & -> & Hl).
    assert (S : succeeds (for_each l instagram_entry)).
    { apply succeeds_for_each. intros e Hin.
      apply instagram_entry_succeeds. rewrite forallb_forall in Hl. now apply Hl. }
    destruct (S st) as ([] & st' & Est).
    exists st'. unfold bind, lift, getitem, iter. rewrite E, Est. reflexivity.
  - exists st. reflexivity.
Qed.

(** C8, at a failing input.  An Instagram delivery with [entry], [changes],
    [value] and [messages] but neither [contacts] nor [text] is a body with
    expected keys missing; the receive handler does not acknowledge it: the
    call of [process_instagram_message_value] raises [NameError], the handler
    catches it and returns ['Internal Server Error'] with status 500. *)
Lemma instagram_partial_delivery_is_refused :
  instagram_webhook
    (VDict [("object", VStr "instagram");
            ("entry",
             VList [VDict [("id", VStr "17841400000000000");
                           ("changes",
                            VList [VDict [("field", VStr "messages");
                                          ("value",
                                           VDict [("messages",
                                                   VList [VDict [("from", VStr "813")]])])]])]])])
    Example.st0
  = (mkResponse (BText (Some "Internal Server Error")) 500, Example.st0).
Proof. reflexivity. Qed.

(** C9, at a failing input.  An Instagram delivery whose entry carries a
    [changes] -> [value] -> [messages] array with one text message: nothing
    is put in the store and the handler returns ['Internal Server Error'] with
    status 500 instead of its acknowledgement, because
    [process_instagram_message_value] is not defined. *)
Lemma instagram_changes_message_is_lost :
  instagram_webhook
    (VDict [("object", VStr "instagram");
            ("entry",
             VList [VDict [("id", VStr "17841400000000000");
                           ("changes",
                            VList [VDict [("field", VStr "messages");
                                          ("value",
                                           VDict [("messages",
                                                   VList [VDict [("mid", VStr "m_1");
                                                                 ("from", VStr "813");
                                                                 ("text", VStr "Do you take walk-ins?")]])])]])]])])
    Example.st0
  = (mkResponse (BText (Some "Internal Server Error")) 500, Example.st0).
Proof. reflexivity. Qed.

(** The same text, delivered in a [messaging] array, is stored and
    acknowledged. *)
Example instagram_messaging_message_is_stored :
  instagram_webhook
    (VDict [("object", VStr "instagram");
            ("entry",
             VList [VDict [("id", VStr "17841400000000000");
                           ("messaging",
                            VList [VDict [("sender", VDict [("id", VStr "813")]);
                                          ("recipient", VDict [("id", VStr "17841400000000000")]);
                                          ("message",
                                           VDict [("mid", VStr "m_1");
                                                  ("text", VStr "Do you take walk-ins?")])]])]])])
    Example.st0
  = (event_received,
     mkState (inbound_message (VStr "m_1") "instagram" (VStr "Instagram User")
                              (VStr "813") (VStr "Do you take walk-ins?")
              :: messages_store Example.st0)
             []).
Proof. reflexivity. Qed.

(** ** The store only grows at its front (C10) *)

Lemma keeps_store_refl st : keeps_store st st.
Proof. exists []. reflexivity. Qed.

Lemma keeps_store_trans st1 st2 st3 :
  keeps_store st1 st2 -> keeps_store st2 st3 -> keeps_store st1 st3.
Proof.
  intros [a Ha] [b Hb]. exists (b ++ a)%list.
  rewrite Hb, Ha. apply app_assoc.
Qed.

Lemma grows_ret {A} (a : A) : grows (ret a).
Proof. intros st. apply keeps_store_refl. Qed.

Lemma grows_raise {A} (e : exn) : grows (@raise A e).
Proof. intros st. apply keeps_store_refl. Qed.

Lemma grows_lift {A} (r : result A) : grows (lift r).
Proof. intros st. apply keeps_store_refl. Qed.

Lemma grows_emit (e : effect) : grows (emit e).
Proof. intros st. exists []. reflexivity. Qed.

Lemma grows_store_insert0 (msg : value) : grows (store_insert0 msg).
Proof. intros st. exists [msg]. reflexivity. Qed.

Lemma grows_bind {A B} (m : M A) (k : A -> M B) :
  grows m -> (forall a, grows (k a)) -> grows (bind m k).
Proof.
  intros Hm Hk st. unfold bind.
  specialize (Hm st). destruct (m st) as [[a | e] st']; simpl in Hm.
  - eapply keeps_store_trans; [exact Hm | apply Hk].
  - exact Hm.
Qed.

Lemma grows_try_except {A} (m : M A) (h : exn -> M A) :
  grows m -> (forall e, grows (h e)) -> grows (try_except m h).
Proof.
  intros Hm Hh st. unfold try_except.
  specialize (Hm st). destruct (m st) as [[a | e] st']; simpl in Hm.
  - exact Hm.
  - eapply keeps_store_trans; [exact Hm | apply Hh].
Qed.

Lemma grows_for_each {A} (xs : list A) (body_ : A -> M unit) :
  (forall x, grows (body_ x)) -> grows (for_each xs body_).
Proof.
  intros Hb. induction xs as [| x xs IH]; simpl.
  - apply grows_ret.
  - apply grows_bind; [apply Hb | intros _; exact IH].
Qed.

Lemma grows_post (W : world) url payload : grows (post W url payload).
Proof. apply grows_bind; [apply grows_emit | intros _; apply grows_lift]. Qed.

Lemma grows_insert_event (W : world) c ev : grows (insert_event W c ev).
Proof. apply grows_bind; [apply grows_emit | intros _; apply grows_lift]. Qed.

Lemma grows_handler (m : M response) (on_error : exn -> response) st :
  grows m -> keeps_store st (snd (handler m on_error st)).
Proof.
  intros Hm. unfold handler. specialize (Hm st).
  destruct (m st) as [[r | e] st']; exact Hm.
Qed.

Create HintDb grows.

#[local] Hint Resolve grows_ret grows_raise grows_lift grows_emit
  grows_store_insert0 grows_post grows_insert_event : grows.

(** Walks through a handler body: binds, loops, handlers and branches. *)
Ltac grow :=
  repeat first
    [ solve [auto with grows]
    | progress cbv zeta
    | apply grows_bind; [| intros ?]
    | apply grows_try_except; [| intros ?]
    | apply grows_for_each; intros ?
    | match goal with
      | |- grows (if ?b then _ else _) => destruct b
      | |- grows (match ?x with _ => _ end) => destruct x
      end ].

Lemma grows_dispatch (L : pylib) (W : world) name args :
  grows (dispatch L W name args).
Proof.
  unfold dispatch, book_appointment, send_whatsapp_details, schedule_followup.
  grow.
Qed.

Lemma grows_tool_calls_loop (L : pylib) (W : world) calls results :
  grows (tool_calls_loop L W calls results).
Proof.
  revert results. induction calls as [| c calls IH]; intros results; simpl.
  - apply grows_ret.
  - apply grows_bind; [| intros r; apply IH].
    unfold handle_tool_call. grow. apply grows_dispatch.
Qed.

Lemma serve_keeps_store (L : pylib) (W : world) (r : request) (st : state) :
  keeps_store st (snd (serve L W r st)).
Proof.
  destruct r; simpl; try apply keeps_store_refl.
  - apply grows_handler. grow. apply grows_tool_calls_loop.
  - apply grows_handler. grow.
  - apply grows_handler.
    unfold whatsapp_entry, whatsapp_change, whatsapp_message. grow.
  - apply grows_handler.
    unfold instagram_entry, instagram_change, process_instagram_event,
      process_instagram_message_value.
    grow.
  - apply grows_handler. grow.
  - apply grows_handler. grow.
Qed.

Lemma serve_all_keeps_store (L : pylib) (rs : list (world * request)) (st : state) :
  keeps_store st (serve_all L rs st).
Proof.
  revert st. induction rs as [| [W r] rs IH]; intros st; simpl.
  - apply keeps_store_refl.
  - eapply keeps_store_trans; [apply serve_keeps_store | apply IH].
Qed.

(** C10.  The store starts with exactly two sample messages, one for
    [whatsapp] and one for [instagram], in that order.  The only operation
    the handlers have on it puts one message at index 0, so whatever sequence
    of requests is served (webhook deliveries, sends, and every other modelled
    route), in whatever worlds: the store before is an unchanged suffix of
    the store after, the list [GET /api/messages] returns is the store
    itself, and the two sample messages are its last two elements. *)
Theorem store_is_prepend_only :
  forall (L : pylib) (time1 time2 : string) (rs : list (world * request)),
    (initial_store time1 time2 = [sample_whatsapp time1; sample_instagram time2]
     /\ getitem (sample_whatsapp time1) "platform" = Ok (VStr "whatsapp")
     /\ getitem (sample_instagram time2) "platform" = Ok (VStr "instagram"))
    /\ (forall msg st,
          messages_store (snd (store_insert0 msg st)) = msg :: messages_store st)
    /\ (forall st,
          exists added,
            messages_store (serve_all L rs st) = (added ++ messages_store st)%list)
    /\ (forall st,
          get_messages st = (mkResponse (BJson (VList (messages_store st))) 200, st))
    /\ (exists added,
          fst (get_messages (serve_all L rs (initial_state time1 time2)))
          = mkResponse
              (BJson (VList (added ++ [sample_whatsapp time1; sample_instagram time2])))
              200).
Proof.
  intros L time1 time2 rs. repeat split.
  - intros st. apply serve_all_keeps_store.
  - destruct (serve_all_keeps_store L rs (initial_state time1 time2)) as [added H].
    exists added. unfold get_messages. simpl. rewrite H. reflexivity.
Qed.

(** * Further properties *)

(** ** What each route leaves alone *)

Lemma leaves_store_ret {A} (a : A) : leaves_store (ret a).
Proof. intros st. reflexivity. Qed.

Lemma leaves_store_lift {A} (r : result A) : leaves_store (lift r).
Proof. intros st. reflexivity. Qed.

Lemma leaves_store_emit (e : effect) : leaves_store (emit e).
Proof. intros st. reflexivity. Qed.

Lemma leaves_store_bind {A B} (m : M A) (k : A -> M B) :
  leaves_store m -> (forall a, leaves_store (k a)) -> leaves_store (bind m k).
Proof.
  intros Hm Hk st. unfold bind.
  specialize (Hm st). destruct (m st) as [[a | e] st']; simpl in Hm.
  - rewrite Hk. exact Hm.
  - exact Hm.
Qed.

Lemma leaves_store_try_except {A} (m : M A) (h : exn -> M A) :
  leaves_store m -> (forall e, leaves_store (h e)) -> leaves_store (try_except m h).
Proof.
  intros Hm Hh st. unfold try_except.
  specialize (Hm st). destruct (m st) as [[a | e] st']; simpl in Hm.
  - exact Hm.
  - rewrite Hh. exact Hm.
Qed.

Lemma leaves_store_post (W : world) url payload : leaves_store (post W url payload).
Proof.
  apply leaves_store_bind; [apply leaves_store_emit | intros _; apply leaves_store_lift].
Qed.

Lemma leaves_store_insert_event (W : world) c ev : leaves_store (insert_event W c ev).
Proof.
  apply leaves_store_bind; [apply leaves_store_emit | intros _; apply leaves_store_lift].
Qed.

Lemma leaves_store_handler (m : M response) (on_error : exn -> response) st :
  leaves_store m -> messages_store (snd (handler m on_error st)) = messages_store st.
Proof.
  intros Hm. unfold handler. specialize (Hm st).
  destruct (m st) as [[r | e] st']; exact Hm.
Qed.

Create HintDb frame.

#[local] Hint Resolve leaves_store_ret leaves_store_lift leaves_store_emit
  leaves_store_post leaves_store_insert_event : frame.

Lemma sends_nothing_ret {A} (a : A) : sends_nothing (ret a).
Proof. intros st. reflexivity. Qed.

Lemma sends_nothing_raise {A} (e : exn) : sends_nothing (@raise A e).
Proof. intros st. reflexivity. Qed.

Lemma sends_nothing_lift {A} (r : result A) : sends_nothing (lift r).
Proof. intros st. reflexivity. Qed.

Lemma sends_nothing_store_insert0 (msg : value) : sends_nothing (store_insert0 msg).
Proof. intros st. reflexivity. Qed.

Lemma sends_nothing_bind {A B} (m : M A) (k : A -> M B) :
  sends_nothing m -> (forall a, sends_nothing (k a)) -> sends_nothing (bind m k).
Proof.
  intros Hm Hk st. unfold bind.
  specialize (Hm st). destruct (m st) as [[a | e] st']; simpl in Hm.
  - rewrite Hk. exact Hm.
  - exact Hm.
Qed.

Lemma sends_nothing_for_each {A} (xs : list A) (body_ : A -> M unit) :
  (forall x, sends_nothing (body_ x)) -> sends_nothing (for_each xs body_).
Proof.
  intros Hb. induction xs as [| x xs IH]; simpl.
  - apply sends_nothing_ret.
  - apply sends_nothing_bind; [apply Hb | intros _; exact IH].
Qed.

Lemma sends_nothing_handler (m : M response) (on_error : exn -> response) st :
  sends_nothing m -> effects (snd (handler m on_error st)) = effects st.
Proof.
  intros Hm. unfold handler. specialize (Hm st).
  destruct (m st) as [[r | e] st']; exact Hm.
Qed.

#[local] Hint Resolve sends_nothing_ret sends_nothing_raise sends_nothing_lift
  sends_nothing_store_insert0 : frame.

(** Walks through a handler body for one of the two frames. *)
Ltac frame :=
  repeat first
    [ solve [auto with frame]
    | progress cbv zeta
    | apply leaves_store_bind; [| intros ?]
    | apply leaves_store_try_except; [| intros ?]
    | apply sends_nothing_bind; [| intros ?]
    | apply sends_nothing_for_each; intros ?
    | match goal with
      | |- leaves_store (if ?b then _ else _) => destruct b
      | |- leaves_store (match ?x with _ => _ end) => destruct x
      | |- sends_nothing (if ?b then _ else _) => destruct b
      | |- sends_nothing (match ?x with _ => _ end) => destruct x
      end ].

Lemma leaves_store_dispatch (L : pylib) (W : world) name args :
  leaves_store (dispatch L W name args).
Proof.
  unfold dispatch, book_appointment, send_whatsapp_details, schedule_followup.
  frame.
Qed.

Lemma leaves_store_tool_calls_loop (L : pylib) (W : world) calls results :
  leaves_store (tool_calls_loop L W calls results).
Proof.
  revert results. induction calls as [| c calls IH]; intros results; simpl.
  - apply leaves_store_ret.
  - apply leaves_store_bind; [| intros r; apply IH].
    unfold handle_tool_call. frame. apply leaves_store_dispatch.
Qed.

(** X1.  The store is written by the four messaging routes only (the
    WhatsApp and Instagram receive and send handlers).  Whatever the request
    and the world, the voice-agent webhook with all its tools, the call
    initiation, the call history, the leads, the appointments, the ads
    aggregation and the inbox listing leave [messages_store] exactly as it
    was. *)
Theorem store_is_written_by_messaging_routes_only :
  forall (L : pylib) (W : world) (G : google) (data : value)
         (query : list (string * string)) (st : state),
    messages_store (snd (vapi_webhook L W data st)) = messages_store st
    /\ messages_store (snd (initiate_call L W data st)) = messages_store st
    /\ messages_store (snd (get_vapi_calls L W query st)) = messages_store st
    /\ messages_store (snd (get_leads L W G st)) = messages_store st
    /\ messages_store (snd (get_appointments L W G st)) = messages_store st
    /\ messages_store (snd (get_meta_campaigns L W st)) = messages_store st
    /\ messages_store (snd (get_messages st)) = messages_store st.
Proof.
  intros L W G data query st.
  repeat split; try (apply leaves_store_handler; frame).
  apply leaves_store_tool_calls_loop.
Qed.

(** X2.  Receiving never sends: the WhatsApp and Instagram receive handlers,
    and the read views (call history, leads, appointments, ads aggregation,
    inbox listing), issue no POST to a messaging or voice API and no calendar
    insert, whatever they are given; the trace of such calls is unchanged. *)
Theorem receiving_and_reading_send_nothing :
  forall (L : pylib) (W : world) (G : google) (data : value)
         (query : list (string * string)) (st : state),
    effects (snd (whatsapp_webhook data st)) = effects st
    /\ effects (snd (instagram_webhook data st)) = effects st
    /\ effects (snd (get_vapi_calls L W query st)) = effects st
    /\ effects (snd (get_leads L W G st)) = effects st
    /\ effects (snd (get_appointments L W G st)) = effects st
    /\ effects (snd (get_meta_campaigns L W st)) = effects st
    /\ effects (snd (get_messages st)) = effects st.
Proof.
  intros L W G data query st.
  repeat split; try (apply sends_nothing_handler).
  - unfold whatsapp_entry, whatsapp_change, whatsapp_message. frame.
  - unfold instagram_entry, instagram_change, process_instagram_event,
      process_instagram_message_value.
    frame.
  - frame.
  - frame.
  - frame.
  - frame.
Qed.

(** ** Sends and tools: refusals and side effects *)

(** X3.  A send request whose [to] or [text] is missing or empty is refused
    with status 400 and ["Missing to or text"], on both send routes, before
    the credentials are looked at: nothing is sent and nothing is stored. *)
Theorem send_without_to_or_text_is_refused :
  forall (L : pylib) (W : world) (kv : list (string * value)) (st : state),
    truthy (lookup kv "to") = false \/ truthy (lookup kv "text") = false ->
    send_whatsapp_message L W (VDict kv) st
    = (mkResponse (BJson (VDict [("error", VStr "Missing to or text")])) 400, st)
    /\ send_instagram_message L W (VDict kv) st
       = (mkResponse (BJson (VDict [("error", VStr "Missing to or text")])) 400, st).
Proof.
  intros L W kv st H.
  unfold send_whatsapp_message, send_instagram_message, handler.
  rewrite !(bind_lift_ok _ _ _ _ (get_dict kv "to")). cbv beta.
  rewrite !(bind_lift_ok _ _ _ _ (get_dict kv "text")). cbv beta.
  destruct H as [H | H]; rewrite H; simpl; [| rewrite orb_true_r];
    split; reflexivity.
Qed.

Lemma send_without_to_or_text_is_refused_witness :
  send_whatsapp_message Example.lib Example.messaging
    (VDict [("to", VStr "15551234567"); ("text", VStr "")]) Example.st0
  = (mkResponse (BJson (VDict [("error", VStr "Missing to or text")])) 400, Example.st0).
Proof.
  apply (proj1 (send_without_to_or_text_is_refused Example.lib Example.messaging
                  [("to", VStr "15551234567"); ("text", VStr "")] Example.st0
                  (or_intror eq_refl))).
Defined.

(** X4.  A voice-platform event that is not a tool-calls message is
    ignored, provided its [message] is an object.  A JSON object with no
    [message], or whose [message] is an object without [type] or with any
    other [type], is answered with [{"status": "ignored"}] and status 200.
    A [message] that is [null], a boolean or a number is not ignored: the
    membership test raises [TypeError] and the answer is 500.  Nothing is
    changed either way. *)
Theorem other_events_are_ignored :
  forall (L : pylib) (W : world) (kv : list (string * value)) (st : state),
    (assoc "message" kv = None
     \/ (exists mkv,
           assoc "message" kv = Some (VDict mkv)
           /\ (assoc "type" mkv = None
               \/ exists t, assoc "type" mkv = Some t
                            /\ is_str "tool-calls" t = false)) ->
     vapi_webhook L W (VDict kv) st
     = (mkResponse (BJson (VDict [("status", VStr "ignored")])) 200, st))
    /\ (assoc "message" kv = Some VNone
        \/ (exists b, assoc "message" kv = Some (VBool b))
        \/ (exists z, assoc "message" kv = Some (VInt z))
        \/ (exists f, assoc "message" kv = Some (VFloat f)) ->
        vapi_webhook L W (VDict kv) st
        = (mkResponse (BJson (VDict [("error", VStr (exn_text L TypeError))])) 500,
           st)).
Proof.
  intros L W kv st.
  unfold vapi_webhook, handler, bind, lift, contains, getitem.
  split.
  - intros H.
    destruct H as [H | (mkv & H & [Ht | (t & Ht & Hn)])]; rewrite H; simpl.
    + reflexivity.
    + rewrite Ht. reflexivity.
    + rewrite Ht. simpl. rewrite Hn. reflexivity.
  - intros [H | [(b & H) | [(z & H) | (f & H)]]]; rewrite H; reflexivity.
Qed.

Lemma other_events_are_ignored_witness :
  vapi_webhook Example.lib Example.quiet
    (VDict [("message", VDict [("type", VStr "status-update");
                               ("status", VStr "ended")])])
    Example.st0
  = (mkResponse (BJson (VDict [("status", VStr "ignored")])) 200, Example.st0)
  /\ vapi_webhook Example.lib Example.quiet (VDict [("message", VNone)]) Example.st0
     = (mkResponse (BJson (VDict [("error", VStr "TypeError")])) 500, Example.st0).
Proof.
  split.
  - apply (proj1 (other_events_are_ignored Example.lib Example.quiet
                    [("message", VDict [("type", VStr "status-update");
                                        ("status", VStr "ended")])]
                    Example.st0)).
    right. eexists. split; [reflexivity |].
    right. eexists. split; reflexivity.
  - apply (proj2 (other_events_are_ignored Example.lib Example.quiet
                    [("message", VNone)] Example.st0)).
    left. reflexivity.
Defined.



(** X6.  The WhatsApp credentials are read differently by the tool and by
    the route.  With only the unprefixed variables [WHATSAPP_ACCESS_TOKEN] and
    [WHATSAPP_PHONE_ID] set, the [send_whatsapp_details] tool does post the
    message to the phone number it was given, while [POST /api/whatsapp/send]
    reads the [VITE_] variables alone and sends nothing. *)
Theorem unprefixed_credentials_serve_the_tool_only :
  forall (L : pylib) (W : world) (args data : list (string * value))
         (token phone_id : string) (st : state),
    getenv W "VITE_WHATSAPP_ACCESS_TOKEN" = None ->
    getenv W "VITE_WHATSAPP_PHONE_ID" = None ->
    getenv W "WHATSAPP_ACCESS_TOKEN" = Some token -> token <> "" ->
    getenv W "WHATSAPP_PHONE_ID" = Some phone_id -> phone_id <> "" ->
    truthy (lookup args "phone_number") = true ->
    truthy (lookup data "to") = true ->
    truthy (lookup data "text") = true ->
    (exists payload,
       effects (snd (dispatch L W (VStr "send_whatsapp_details") (VDict args) st))
       = HttpPost ("https://graph.facebook.com/v17.0/" ++ phone_id ++ "/messages")
                  payload
         :: effects st
       /\ getitem payload "to" = Ok (lookup args "phone_number"))
    /\ effects (snd (send_whatsapp_message L W (VDict data) st)) = effects st.
Proof.
  intros L W args data token phone_id st Ht Hp Ht' Nt Hp' Np Tphone Tto Ttext.
  assert (Pt : present (Some token) = true).
  { simpl. destruct (String.eqb_spec token ""); [contradiction | reflexivity]. }
  assert (Pp : present (Some phone_id) = true).
  { simpl. destruct (String.eqb_spec phone_id ""); [contradiction | reflexivity]. }
  split.
  - eexists. split.
    + unfold dispatch. change (is_booking (VStr "send_whatsapp_details")) with false.
      change (is_str "send_whatsapp_details" (VStr "send_whatsapp_details")) with true.
      cbv iota. unfold send_whatsapp_details, try_except.
      ok_step (get_dict args "phone_number").
      rewrite (bind_lift_ok _ _ _ _ (@eq_refl _ (get (VDict args) "procedure_type"
                                                     (VStr "services")))).
      cbv beta. rewrite Tphone, Ht, Hp, Ht', Hp'.
      unfold or_else. change (present None) with false. cbv iota.
      rewrite Pt, Pp. cbn [andb].
      unfold post, bind, emit, lift, ret. cbn [messages_store effects env_str].
      destruct (requests_post W _ _); reflexivity.
    + reflexivity.
  - unfold send_whatsapp_message, handler.
    ok_step (get_dict data "to"). ok_step (get_dict data "text").
    rewrite Tto, Ttext, Ht, Hp. reflexivity.
Qed.

Lemma unprefixed_credentials_serve_the_tool_only_witness :
  let W := Example.with_env [("WHATSAPP_ACCESS_TOKEN", "token");
                             ("WHATSAPP_PHONE_ID", "1555")] Example.quiet in
  (exists payload,
     effects (snd (dispatch Example.lib W (VStr "send_whatsapp_details")
                     (VDict [("phone_number", VStr "15551234567")]) Example.st0))
     = [HttpPost "https://graph.facebook.com/v17.0/1555/messages" payload]
     /\ getitem payload "to" = Ok (VStr "15551234567"))
  /\ effects (snd (send_whatsapp_message Example.lib W
                     (VDict [("to", VStr "15551234567"); ("text", VStr "Hello")])
                     Example.st0))
     = [].
Proof.
  cbv zeta.
  refine (unprefixed_credentials_serve_the_tool_only Example.lib
            (Example.with_env [("WHATSAPP_ACCESS_TOKEN", "token");
                               ("WHATSAPP_PHONE_ID", "1555")] Example.quiet)
            [("phone_number", VStr "15551234567")]
            [("to", VStr "15551234567"); ("text", VStr "Hello")]
            "token" "1555" Example.st0
            eq_refl eq_refl eq_refl _ eq_refl _ eq_refl eq_refl eq_refl);
    discriminate.
Defined.

(** ** Bookings that fail, and batches that abort *)

(** X7.  A booking that cannot be made is reported as a text in a normal
    result, never as an exception of the dispatcher.  With a day and a time
    string given: when the calendar client cannot be created, or when the
    time text is refused by the ISO parser, the result is
    ["Failed to book calendar event: "] followed by the exception's text and
    no event is submitted; when the calendar refuses the insert, the result
    is that same kind of text and the one submitted event stays in the
    trace. *)
Theorem booking_failures_are_texts :
  forall (L : pylib) (W : world) (function_name : value)
         (args : list (string * value)) (day : value) (t : string) (st : state),
    is_booking function_name = true ->
    get_or (VDict args) "day" "date" = Ok day ->
    truthy day = true ->
    get (VDict args) "time" VNone = Ok (VStr t) ->
    t <> "" ->
    let time_text := if negb (occurs_in "T" t) && occurs_in ":" t
                     then str_of L day ++ "T" ++ t
                     else t in
    (forall e,
        google_service W "calendar" "v3" [calendar_scope] = Raise e ->
        dispatch L W function_name (VDict args) st
        = (Ok ("Failed to book calendar event: " ++ exn_text L e), st))
    /\ (google_service W "calendar" "v3" [calendar_scope] = Ok tt ->
        fromisoformat L time_text = None ->
        dispatch L W function_name (VDict args) st
        = (Ok ("Failed to book calendar event: " ++ exn_text L ValueError), st))
    /\ (forall parsed e,
          google_service W "calendar" "v3" [calendar_scope] = Ok tt ->
          fromisoformat L time_text = Some parsed ->
          0 <= wall parsed -> wall parsed + hour_us <= wall_max ->
          (forall event, events_insert W (CALENDAR_ID W) event = Raise e) ->
          exists event,
            dispatch L W function_name (VDict args) st
            = (Ok ("Failed to book calendar event: " ++ exn_text L e),
               mkState (messages_store st)
                       (CalendarInsert (CALENDAR_ID W) event :: effects st))).
Proof.
  intros L W function_name args day t st Hname Hday Tday Htime Ht. cbv zeta.
  assert (Tt : truthy (VStr t) = true).
  { simpl. destruct (String.eqb_spec t ""); [contradiction | reflexivity]. }
  unfold dispatch. rewrite Hname. unfold book_appointment.
  ok_step (get_or_dict args "name" "customer_name").
  ok_step Hday. ok_step Htime.
  ok_step (get_dict args "procedure_type").
  rewrite Tday, Tt. cbn [andb negb]. unfold try_except.
  split; [| split].
  - intros e He. rewrite (bind_lift_raise _ _ _ _ He). reflexivity.
  - intros Hs Hp. ok_step Hs.
    assert (Hstart : booking_start L day (VStr t) = Raise ValueError).
    { unfold booking_start. rewrite booking_time_text_str.
      unfold rbind, fromisoformat_value. now rewrite Hp. }
    rewrite (bind_lift_raise _ _ _ _ Hstart). reflexivity.
  - intros parsed e Hs Hp Hlo Hhi Hins.
    assert (Hstart : booking_start L day (VStr t)
                     = Ok (mkDatetime (wall parsed)
                             (Some match tz parsed with
                                   | Some z => z
                                   | None => ZoneInfo CLINIC_TZ
                                   end))).
    { unfold booking_start. rewrite booking_time_text_str.
      unfold rbind, fromisoformat_value. rewrite Hp.
      destruct parsed as [w [z |]]; reflexivity. }
    eexists. ok_step Hs. ok_step Hstart.
    unfold add_hours, hour_us in *. cbn [wall tz].
    replace (wall parsed + 1 * 3600000000) with (wall parsed + 3600000000) by lia.
    destruct (Z.leb_spec 0 (wall parsed + 3600000000)); [| lia].
    destruct (Z.leb_spec (wall parsed + 3600000000) wall_max); [| lia].
    cbn [andb]. unfold insert_event, emit, bind, lift, ret.
    cbn [messages_store effects]. rewrite Hins. reflexivity.
Qed.

Lemma booking_failures_are_texts_witness :
  dispatch Example.lib Example.quiet (VStr "schedule_dental_appointment")
           (VDict [("customer_name", VStr "Bob"); ("date", VStr "2024-05-01");
                   ("time", VStr "2pm")])
           Example.st0
  = (Ok "Failed to book calendar event: ValueError", Example.st0).
Proof.
  refine (proj1 (proj2 (booking_failures_are_texts Example.lib Example.quiet
                          (VStr "schedule_dental_appointment")
                          [("customer_name", VStr "Bob"); ("date", VStr "2024-05-01");
                           ("time", VStr "2pm")]
                          (VStr "2024-05-01") "2pm" Example.st0
                          eq_refl eq_refl eq_refl eq_refl _))
                eq_refl eq_refl).
  discriminate.
Defined.

(** X8.  The day takes part in the start of a booking only when the time has
    a [':'] and no ['T'].  For a time that contains ['T'] (a full timestamp),
    or that has no [':'], the start is read from the time alone: two bookings
    that differ in their day only get the same start. *)
Theorem day_is_used_for_bare_times_only :
  forall (L : pylib) (day day' : value) (t : string),
    occurs_in "T" t = true \/ occurs_in ":" t = false ->
    booking_start L day (VStr t) = booking_start L day' (VStr t)
    /\ booking_time_text L day (VStr t) = Ok (VStr t).
Proof.
  intros L day day' t H.
  assert (E : forall d, booking_time_text L d (VStr t) = Ok (VStr t)).
  { intros d. rewrite booking_time_text_str.
    destruct H as [H | H]; rewrite H; simpl; [reflexivity |].
    now rewrite andb_false_r. }
  split; [| apply E].
  unfold booking_start. now rewrite !E.
Qed.

Lemma day_is_used_for_bare_times_only_witness :
  booking_start Example.lib (VStr "2024-05-01") (VStr "2024-06-02T10:30")
  = booking_start Example.lib (VStr "2024-12-24") (VStr "2024-06-02T10:30")
  /\ booking_time_text Example.lib (VStr "2024-05-01") (VStr "2024-06-02T10:30")
     = Ok (VStr "2024-06-02T10:30").
Proof.
  apply (day_is_used_for_bare_times_only Example.lib (VStr "2024-05-01")
           (VStr "2024-12-24") "2024-06-02T10:30").
  left. reflexivity.
Defined.




(** ** What a delivery puts in the store *)















(** ** The ads aggregation, request by request *)

Lemma assoc_dict_set_same (k : string) (v : value) (kv : list (string * value)) :
  assoc k (dict_set k v kv) = Some v.
Proof.
  induction kv as [| [k' v'] kv IH]; simpl.
  - now rewrite String.eqb_refl.
  - destruct (String.eqb k k') eqn:E; simpl; rewrite E; [reflexivity | exact IH].
Qed.

Lemma assoc_dict_set_other (k k' : string) (v : value) (kv : list (string * value)) :
  k' <> k -> assoc k' (dict_set k v kv) = assoc k' kv.
Proof.
  intros Hne. induction kv as [| [k0 v0] kv IH]; simpl.
  - destruct (String.eqb_spec k' k); [contradiction | reflexivity].
  - destruct (String.eqb_spec k k0) as [-> | Hk]; simpl.
    + destruct (String.eqb_spec k' k0); [contradiction | reflexivity].
    + destruct (String.eqb k' k0); [reflexivity | exact IH].
Qed.

(** X12.  Only the first insights record of a campaign is used, and attaching
    it keeps the campaign's own fields.  Whatever rows the insights request
    returns, the campaign gets its first row under [insights] ([{}] when
    there is none), any [insights] key it already had is overwritten, and
    every other key of the campaign is unchanged. *)
Theorem first_insights_record_is_attached :
  forall (L : pylib) (W : world) (access_token : string)
         (kv : list (string * value)) (r : http_response) (answer : value)
         (records : list value),
    requests_get W (insights_url L (lookup kv "id")) (insights_params access_token)
    = Ok r ->
    json r = Ok answer ->
    get answer "data" (VList []) = Ok (VList records) ->
    exists kv',
      with_insights L W access_token (VDict kv) = Ok (VDict kv')
      /\ assoc "insights" kv' = Some (hd (VDict []) records)
      /\ forall k, k <> "insights" -> assoc k kv' = assoc k kv.
Proof.
  intros L W access_token kv r answer records Hget Hjson Hdata.
  exists (dict_set "insights" (hd (VDict []) records) kv).
  split; [| split].
  - unfold with_insights. rewrite (get_dict kv "id"). cbn [rbind].
    unfold insights_url, insights_params in Hget. rewrite Hget. cbn [rbind].
    rewrite Hjson. cbn [rbind]. rewrite Hdata. cbn [rbind].
    destruct records as [| first rest]; reflexivity.
  - apply assoc_dict_set_same.
  - intros k Hk. now apply assoc_dict_set_other.
Qed.

Lemma first_insights_record_is_attached_witness :
  exists kv',
    with_insights Example.lib
      (Example.ads [] (VDict [("impressions", VStr "100")])) "token"
      (VDict [("id", VStr "1"); ("name", VStr "Whitening")])
    = Ok (VDict kv')
    /\ assoc "insights" kv' = Some (VDict [("impressions", VStr "100")])
    /\ forall k, k <> "insights" ->
         assoc k kv' = assoc k [("id", VStr "1"); ("name", VStr "Whitening")].
Proof.
  apply (first_insights_record_is_attached Example.lib
           (Example.ads [] (VDict [("impressions", VStr "100")])) "token"
           [("id", VStr "1"); ("name", VStr "Whitening")]
           (mkHttp 200 "" (Ok (VDict [("data", VList [VDict [("impressions", VStr "100")]])])))
           (VDict [("data", VList [VDict [("impressions", VStr "100")]])])
           [VDict [("impressions", VStr "100")]]
           eq_refl eq_refl eq_refl).
Defined.

(** X13.  A campaign without insights counts nothing.  With no [insights]
    key or an empty insights record, the summary has spend, ctr, cpc and cpm
    0.0 and impressions, clicks, reach, leads and conversions 0; it keeps
    the campaign's id and name, and its status is the lower-cased
    [effective_status], or that of ["unknown"] when the campaign has none. *)
Theorem campaign_without_insights_counts_nothing :
  forall (L : pylib) (kv : list (string * value)) (effective_status : string),
    assoc "insights" kv = None \/ assoc "insights" kv = Some (VDict []) ->
    get (VDict kv) "effective_status" (VStr "unknown") = Ok (VStr effective_status) ->
    format_campaign L (VDict kv)
    = Ok (mkCampaign (lookup kv "id") (lookup kv "name") (lower L effective_status)
                     zero 0 0 zero zero zero 0 0 0).
Proof.
  intros L kv effective_status Hins Hstatus.
  unfold format_campaign.
  assert (E : get (VDict kv) "insights" (VDict []) = Ok (VDict [])).
  { simpl. destruct Hins as [-> | ->]; reflexivity. }
  rewrite E. cbn [rbind]. rewrite !(get_dict kv), Hstatus.
  reflexivity.
Qed.

Lemma campaign_without_insights_counts_nothing_witness :
  format_campaign Example.lib
    (VDict [("id", VStr "7"); ("name", VStr "Braces"); ("insights", VDict [])])
  = Ok (mkCampaign (VStr "7") (VStr "Braces") "unknown"
                   zero 0 0 zero zero zero 0 0 0).
Proof.
  apply (campaign_without_insights_counts_nothing Example.lib
           [("id", VStr "7"); ("name", VStr "Braces"); ("insights", VDict [])]
           "unknown" (or_intror eq_refl) eq_refl).
Defined.

Lemma aggregate_formats_each (L : pylib) (camps : list value) :
  forall formatted0 t0 formatted t,
    aggregate L camps formatted0 t0 = Ok (formatted, t) ->
    exists cs,
      formatted = (formatted0 ++ cs)%list
      /\ Forall2 (fun camp c => format_campaign L camp = Ok c) camps cs
      /\ t = fold_left accumulate cs t0.
Proof.
  induction camps as [| camp camps IH]; intros f0 t0 f t H; simpl in H.
  - injection H as <- <-. exists []. rewrite app_nil_r. repeat split. constructor.
  - destruct (format_campaign L camp) as [c |] eqn:Ec; simpl in H; [| discriminate].
    destruct (IH _ _ _ _ H) as (cs & -> & Hcs & ->).
    exists (c :: cs). rewrite <- app_assoc. repeat split. now constructor.
Qed.

Lemma accumulate_leads_reach (cs : list campaign) :
  forall t,
    totalLeads (fold_left accumulate cs t)
    = fold_left Z.add (map c_leads cs) (totalLeads t)
    /\ totalReach (fold_left accumulate cs t)
       = fold_left Z.add (map c_reach cs) (totalReach t).
Proof.
  induction cs as [| c cs IH]; intros t; simpl.
  - split; reflexivity.
  - destruct (IH (accumulate t c)) as (H1 & H2). rewrite H1, H2. split; reflexivity.
Qed.

(** X14.  The aggregation reports every campaign once and in order.  When it
    succeeds, its [data] holds exactly one summary per campaign, the summary
    of the n-th campaign at place n, and the totals of leads and of reach in
    [stats] are the sums of the leads and of the reach of these summaries. *)
Theorem one_summary_per_campaign :
  forall (L : pylib) (camps : list value) (formatted : list campaign) (s : stats),
    aggregation L camps = Ok (formatted, s) ->
    Forall2 (fun camp c => format_campaign L camp = Ok c) camps formatted
    /\ List.length formatted = List.length camps
    /\ s_totalLeads s = sum_Z (map c_leads formatted)
    /\ s_totalReach s = sum_Z (map c_reach formatted).
Proof.
  intros L camps formatted s H. unfold aggregation in H.
  destruct (aggregate L camps [] totals_zero) as [[f t] |] eqn:Ea;
    simpl in H; [| discriminate].
  destruct (make_stats t) as [s' |] eqn:Es; simpl in H; [| discriminate].
  injection H as <- <-.
  destruct (aggregate_formats_each L camps _ _ _ _ Ea) as (cs & Hf & Hcs & Ht).
  simpl in Hf. subst f.
  destruct (accumulate_leads_reach cs totals_zero) as (Hl & Hr).
  rewrite <- Ht in Hl, Hr. simpl in Hl, Hr.
  assert (Hs : s_totalLeads s' = totalLeads t /\ s_totalReach s' = totalReach t).
  { unfold make_stats in Es.
    destruct (totalImpressions t >? 0);
      [destruct (int_truediv _ _); simpl in Es; [| discriminate] |];
      (destruct (totalClicks t >? 0);
       [destruct (float_div_int _ _); simpl in Es; [| discriminate] |]);
      simpl in Es; injection Es as <-; split; reflexivity. }
  destruct Hs as [-> ->].
  repeat split; try assumption.
  symmetry. eapply Forall2_length. exact Hcs.
Qed.

Lemma one_summary_per_campaign_witness :
  Forall2 (fun camp c => format_campaign Example.lib camp = Ok c)
          Example.two_campaigns Example.two_formatted
  /\ List.length Example.two_formatted = List.length Example.two_campaigns
  /\ s_totalLeads Example.two_stats = sum_Z (map c_leads Example.two_formatted)
  /\ s_totalReach Example.two_stats = sum_Z (map c_reach Example.two_formatted).
Proof.
  apply (one_summary_per_campaign Example.lib).
  vm_compute. reflexivity.
Defined.

(** X15.  An error of the campaign-list request passes through.  With the
    credentials configured, the list is requested for the account id with
    its [act_] prefix (added when the configured id lacks it); when the
    answer's status is not 200, the handler responds with that same status
    and [{"error": "Meta API Error", "details": <the answer's JSON>}], asks
    for no insights and changes nothing; when that answer is not JSON, it
    responds 500. *)
Theorem campaign_list_error_passes_through :
  forall (L : pylib) (W : world) (token account_id : string)
         (r : http_response) (st : state),
    getenv W "VITE_META_ACCESS_TOKEN" = Some token -> token <> "" ->
    getenv W "VITE_META_AD_ACCOUNT_ID" = Some account_id -> account_id <> "" ->
    requests_get W
      ("https://graph.facebook.com/v18.0/"
       ++ (if String.prefix "act_" account_id then account_id
           else "act_" ++ account_id)
       ++ "/campaigns")
      (campaigns_params token)
    = Ok r ->
    status_code r <> 200 ->
    (forall details,
        json r = Ok details ->
        get_meta_campaigns L W st
        = (mkResponse
             (BJson (VDict [("error", VStr "Meta API Error"); ("details", details)]))
             (status_code r),
           st))
    /\ (forall e,
          json r = Raise e ->
          get_meta_campaigns L W st
          = (mkResponse (BJson (VDict [("error", VStr (exn_text L e))])) 500, st)).
Proof.
  intros L W token account_id r st Ht Nt Ha Na Hr Hs.
  rewrite (meta_request_runs L W token account_id st Ht Nt Ha Na).
  unfold handler, campaigns_url, account_path.
  rewrite (bind_lift_ok _ _ _ _ Hr). cbv beta.
  destruct (Z.eqb_spec (status_code r) 200) as [E | _]; [contradiction |].
  cbn [negb]. split.
  - intros details Hj. rewrite (bind_lift_ok _ _ _ _ Hj). reflexivity.
  - intros e Hj. rewrite (bind_lift_raise _ _ _ _ Hj). reflexivity.
Qed.

Lemma campaign_list_error_passes_through_witness :
  get_meta_campaigns Example.lib (Sample.ads_answering (Ok Sample.denied)) Example.st0
  = (mkResponse
       (BJson (VDict [("error", VStr "Meta API Error");
                      ("details", VDict [("error", VDict [("code", VInt 190)])])]))
       401,
     Example.st0).
Proof.
  refine (proj1 (campaign_list_error_passes_through Example.lib
                   (Sample.ads_answering (Ok Sample.denied)) "expired" "1234"
                   Sample.denied Example.st0 eq_refl _ eq_refl _ eq_refl _)
                _ eq_refl);
    discriminate.
Defined.

Lemma fetch_insights_raises (L : pylib) (W : world) (token : string)
      (camps : list value) (camp : value) (e : exn) :
  In camp camps ->
  with_insights L W token camp = Raise e ->
  exists e', fetch_insights L W token camps = Raise e'.
Proof.
  intros Hin Hraise. induction camps as [| c camps IH]; [contradiction |].
  simpl. destruct (with_insights L W token c) as [c' |] eqn:Ec; simpl.
  - destruct Hin as [-> | Hin]; [congruence |].
    destruct (IH Hin) as [e' ->]. now eexists.
  - now eexists.
Qed.

(** X16.  One failing insights request fails the whole aggregation.  With
    the campaign list received, if the insights step raises for any one
    campaign (the request fails, its answer is not JSON or not an object),
    the handler responds 500 and reports no campaign at all. *)
Theorem one_failing_insights_request_fails_all :
  forall (L : pylib) (W : world) (token account_id : string)
         (r : http_response) (data : value) (camps : list value)
         (camp : value) (e : exn) (st : state),
    getenv W "VITE_META_ACCESS_TOKEN" = Some token -> token <> "" ->
    getenv W "VITE_META_AD_ACCOUNT_ID" = Some account_id -> account_id <> "" ->
    requests_get W (campaigns_url account_id) (campaigns_params token) = Ok r ->
    status_code r = 200 ->
    json r = Ok data ->
    get data "data" (VList []) = Ok (VList camps) ->
    In camp camps ->
    with_insights L W token camp = Raise e ->
    exists e',
      get_meta_campaigns L W st
      = (mkResponse (BJson (VDict [("error", VStr (exn_text L e'))])) 500, st).
Proof.
  intros L W token account_id r data camps camp e st
         Ht Nt Ha Na Hr Hs Hj Hd Hin Hraise.
  destruct (fetch_insights_raises L W token camps camp e Hin Hraise) as [e' He'].
  exists e'.
  rewrite (meta_request_runs L W token account_id st Ht Nt Ha Na).
  unfold handler.
  rewrite (bind_lift_ok _ _ _ _ Hr). cbv beta. rewrite Hs. cbn [Z.eqb Pos.eqb negb].
  rewrite (bind_lift_ok _ _ _ _ Hj). cbv beta.
  rewrite (bind_lift_ok _ _ _ _ Hd). cbv beta.
  rewrite (bind_lift_ok _ _ _ _ (@eq_refl _ (len (VList camps)))). cbv beta.
  rewrite (bind_lift_ok _ _ _ _ (@eq_refl _ (iter (VList camps)))). cbv beta.
  rewrite (bind_lift_raise _ _ _ _ He'). reflexivity.
Qed.

Lemma one_failing_insights_request_fails_all_witness :
  exists e',
    get_meta_campaigns Example.lib Sample.ads_second_fails Example.st0
    = (mkResponse (BJson (VDict [("error", VStr (exn_text Example.lib e'))])) 500,
       Example.st0).
Proof.
  refine (one_failing_insights_request_fails_all Example.lib Sample.ads_second_fails
            "token" "act_1" _ _ _ (VDict [("id", VStr "2")]) UpstreamError Example.st0
            eq_refl _ eq_refl _ eq_refl eq_refl eq_refl eq_refl _ eq_refl);
    try discriminate.
  right. left. reflexivity.
Defined.

(** ** Leads *)

Lemma dict_set_new (k : string) (v : value) (kv : list (string * value)) :
  assoc k kv = None -> dict_set k v kv = (kv ++ [(k, v)])%list.
Proof.
  induction kv as [| [k' v'] kv IH]; simpl; [reflexivity |].
  destruct (String.eqb k k'); [discriminate |].
  intros H. now rewrite IH.
Qed.

Lemma assoc_app_none (k : string) (kv kv' : list (string * value)) :
  assoc k kv = None -> assoc k (kv ++ kv') = assoc k kv'.
Proof.
  induction kv as [| [k' v'] kv IH]; simpl; [reflexivity |].
  destruct (String.eqb k k'); [discriminate | exact IH].
Qed.

Lemma fill_lead_fresh (headers : list string) (row : list string) :
  NoDup headers ->
  forall j lead,
    (forall h, In h headers -> assoc h lead = None) ->
    fill_lead headers j row lead
    = (lead ++ combine headers
                 (map (fun n => VStr (nth n row "")) (seq j (List.length headers))))%list.
Proof.
  intros Hnd. induction Hnd as [| header rest Hnotin Hnd IH]; intros j lead Hfresh; simpl.
  - now rewrite app_nil_r.
  - assert (Hcell : (if (j <? List.length row)%nat then nth j row "" else "")
                    = nth j row "").
    { destruct (Nat.ltb_spec j (List.length row)); [reflexivity |].
      symmetry. now apply nth_overflow. }
    rewrite Hcell.
    rewrite dict_set_new by (apply Hfresh; now left).
    rewrite IH.
    + now rewrite <- app_assoc.
    + intros h Hh. rewrite assoc_app_none by (apply Hfresh; now right).
      simpl. destruct (String.eqb_spec h header) as [-> | _]; [contradiction | reflexivity].
Qed.

(** X17.  The shape of a lead.  For a header row without repeated titles and
    without a title ["id"], the lead of a row is its number under [id]
    followed by one cell per header, in header order: the cell of the same
    column, or the empty string when the row is too short; cells beyond the
    last header are dropped. *)
Theorem lead_has_one_cell_per_header :
  forall (headers : list string) (i : Z) (row : list string),
    NoDup headers ->
    ~ In "id" headers ->
    lead_of headers i row
    = VDict (("id", VInt i)
             :: combine headers
                  (map (fun j => VStr (nth j row ""))
                       (seq 0 (List.length headers)))).
Proof.
  intros headers i row Hnd Hid. unfold lead_of.
  rewrite fill_lead_fresh; [reflexivity | exact Hnd |].
  intros h Hh. simpl.
  destruct (String.eqb_spec h "id") as [-> | _]; [contradiction | reflexivity].
Qed.

Lemma lead_has_one_cell_per_header_witness :
  lead_of ["Name"; "Phone"; "Email"] 1 ["Alice"; "555"]
  = VDict [("id", VInt 1); ("Name", VStr "Alice"); ("Phone", VStr "555");
           ("Email", VStr "")]
  /\ lead_of ["Name"; "Phone"] 2 ["Bob"; "556"; "b@x.org"]
     = VDict [("id", VInt 2); ("Name", VStr "Bob"); ("Phone", VStr "556")].
Proof.
  split.
  - apply (lead_has_one_cell_per_header ["Name"; "Phone"; "Email"] 1 ["Alice"; "555"]).
    + repeat constructor; simpl; intuition discriminate.
    + simpl; intuition discriminate.
  - apply (lead_has_one_cell_per_header ["Name"; "Phone"] 2 ["Bob"; "556"; "b@x.org"]).
    + repeat constructor; simpl; intuition discriminate.
    + simpl; intuition discriminate.
Defined.

Lemma fill_lead_other (h : string) (headers : list string) (row : list string) :
  ~ In h headers ->
  forall j lead, assoc h (fill_lead headers j row lead) = assoc h lead.
Proof.
  induction headers as [| header rest IH]; intros Hnotin j lead; simpl; [reflexivity |].
  rewrite IH by (intros Hin; apply Hnotin; now right).
  apply assoc_dict_set_other. intros ->. apply Hnotin. now left.
Qed.

Lemma fill_lead_last (h : string) (headers1 headers2 : list string)
      (row : list string) :
  ~ In h headers2 ->
  forall j lead,
    assoc h (fill_lead (headers1 ++ h :: headers2) j row lead)
    = Some (VStr (nth (j + List.length headers1) row "")).
Proof.
  intros Hnotin.
  induction headers1 as [| header rest IH]; intros j lead; simpl.
  - rewrite (fill_lead_other h headers2 row Hnotin), assoc_dict_set_same.
    rewrite Nat.add_0_r.
    destruct (Nat.ltb_spec j (List.length row)); [reflexivity |].
    now rewrite nth_overflow.
  - rewrite IH. now rewrite Nat.add_succ_r.
Qed.

(** X18.  Every title holds the cell of the last column so titled, and a
    column titled ["id"] takes the place of the row number.  Whatever the
    header row (titles may repeat, one may be ["id"]), the lead holds under a
    title the cell of the last column with that title, or the empty string
    when the row is too short for it; for the title ["id"] this cell, a
    string, replaces the number of the row. *)
Theorem id_column_replaces_the_row_number :
  forall (h : string) (headers1 headers2 : list string) (i : Z) (row : list string),
    ~ In h headers2 ->
    getitem (lead_of (headers1 ++ h :: headers2) i row) h
    = Ok (VStr (nth (List.length headers1) row "")).
Proof.
  intros h headers1 headers2 i row Hnotin. unfold lead_of, getitem.
  now rewrite (fill_lead_last h headers1 headers2 row Hnotin 0 [("id", VInt i)]).
Qed.

Lemma id_column_replaces_the_row_number_witness :
  getitem (lead_of ["Name"; "id"; "Phone"] 1 ["Alice"; "A-17"; "555"]) "id"
  = Ok (VStr "A-17").
Proof.
  apply (id_column_replaces_the_row_number "id" ["Name"] ["Phone"] 1
           ["Alice"; "A-17"; "555"]).
  simpl. intuition discriminate.
Defined.

Lemma leads_loop_appends (headers : list string) (rows : list (list string)) :
  forall k leads,
    leads_loop headers rows (Z.of_nat k) leads
    = (leads ++ map (fun p => lead_of headers (Z.of_nat (fst p)) (snd p))
                    (combine (seq k (List.length rows)) rows))%list.
Proof.
  induction rows as [| row rows IH]; intros k leads; simpl.
  - now rewrite app_nil_r.
  - replace (Z.of_nat k + 1) with (Z.of_nat (S k)) by lia.
    rewrite IH, <- app_assoc. reflexivity.
Qed.

(** X19.  The leads follow the rows.  When the sheet has a header row and
    data rows, [GET /api/leads] responds 200 with exactly one lead per data
    row, in the order of the sheet, the n-th data row numbered n (from 1);
    a sheet with a header row only, with no rows at all, or an answer with no
    [values], gives 200 with an empty list.  Nothing is changed either way. *)
Theorem leads_follow_the_rows :
  forall (L : pylib) (W : world) (G : google) (st : state),
    google_service W "sheets" "v4" [sheets_scope] = Ok tt ->
    (forall headers rows,
        sheet_values G SHEET_ID leads_range = Ok (Some (headers :: rows)) ->
        let leads :=
          map (fun p => lead_of headers (Z.of_nat (fst p)) (snd p))
              (combine (seq 1 (List.length rows)) rows) in
        get_leads L W G st = (mkResponse (BJson (VList leads)) 200, st)
        /\ List.length leads = List.length rows)
    /\ (sheet_values G SHEET_ID leads_range = Ok None
        \/ sheet_values G SHEET_ID leads_range = Ok (Some []) ->
        get_leads L W G st = (mkResponse (BJson (VList [])) 200, st)).
Proof.
  intros L W G st Hs. split.
  - intros headers rows Hv. cbv zeta. split.
    + unfold get_leads, handler. ok_step Hs. ok_step Hv.
      unfold ret, format_leads.
      change 1 with (Z.of_nat 1). rewrite leads_loop_appends. reflexivity.
    + rewrite length_map, length_combine, length_seq. apply Nat.min_id.
  - intros [Hv | Hv]; unfold get_leads, handler; ok_step Hs; ok_step Hv; reflexivity.
Qed.

Lemma leads_follow_the_rows_witness :
  get_leads Example.lib Example.quiet Sample.clinic Example.st0
  = (mkResponse
       (BJson (VList [VDict [("id", VInt 1); ("Name", VStr "Alice");
                             ("Phone", VStr "555")]]))
       200,
     Example.st0).
Proof.
  apply (proj1 (leads_follow_the_rows Example.lib Example.quiet Sample.clinic
                  Example.st0 eq_refl)
           ["Name"; "Phone"] [["Alice"; "555"]] eq_refl).
Defined.

(** ** Appointments *)

Lemma format_event_ok (event : value) :
  event_ok event = true -> format_event event = Ok (appointment_of event).
Proof.
  intros H. destruct event as [| | | | | | kv]; try discriminate H.
  simpl in H.
  unfold format_event, event_time, appointment_of, time_of, field, getitem.
  cbn [get].
  destruct (assoc "id" kv) as [id |]; [| discriminate H].
  destruct (assoc "start" kv) as [[| | | | | | skv] |]; try discriminate H.
  destruct (assoc "end" kv) as [[| | | | | | ekv] |]; try discriminate H.
  reflexivity.
Qed.

Lemma format_events_maps (events : list value) :
  forallb event_ok events = true ->
  forall formatted,
    format_events events formatted = Ok (formatted ++ map appointment_of events)%list.
Proof.
  induction events as [| event events IH]; intros H formatted; simpl.
  - now rewrite app_nil_r.
  - simpl in H. apply andb_prop in H. destruct H as [He Hes].
    rewrite (format_event_ok event He). cbn [rbind].
    rewrite IH by exact Hes. now rewrite <- app_assoc.
Qed.

(** X20.  The appointments follow the events.  When every event the calendar
    returns (asked from the present UTC instant on) has an [id] and [start]
    and [end] objects, [GET /api/appointments] responds 200 with one
    appointment per event, in the calendar's order; an appointment's start
    and end are the event's [dateTime], or its [date] for an all-day event,
    or null; a missing summary reads ["Busy"], a missing status
    ["confirmed"], a missing description, location or link the empty string.
    The handler neither sorts nor truncates. *)
Theorem appointments_follow_the_events :
  forall (L : pylib) (W : world) (G : google) (result_ : value)
         (events : list value) (st : state),
    google_service W "calendar" "v3" [calendar_readonly_scope] = Ok tt ->
    events_list G (CALENDAR_ID W) (utcnow G ++ "Z") = Ok result_ ->
    get result_ "items" (VList []) = Ok (VList events) ->
    forallb event_ok events = true ->
    get_appointments L W G st
    = (mkResponse (BJson (VList (map appointment_of events))) 200, st).
Proof.
  intros L W G result_ events st Hs Hl Hi Hok.
  unfold get_appointments, handler.
  ok_step Hs. cbv zeta. ok_step Hl. ok_step Hi.
  ok_step (@eq_refl _ (iter (VList events))).
  ok_step (format_events_maps events Hok []).
  reflexivity.
Qed.

Lemma appointments_follow_the_events_witness :
  get_appointments Example.lib Example.quiet Sample.clinic Example.st0
  = (mkResponse
       (BJson
          (VList [VDict [("id", VStr "ev1");
                         ("summary", VStr "Appt: Alice (Dental Checkup)");
                         ("description", VStr "");
                         ("start", VStr "2024-05-01T14:00:00-04:00");
                         ("end", VStr "2024-05-01T15:00:00-04:00");
                         ("location", VStr "");
                         ("status", VStr "confirmed");
                         ("htmlLink", VStr "")];
                  VDict [("id", VStr "ev2");
                         ("summary", VStr "Busy");
                         ("description", VStr "");
                         ("start", VStr "2024-05-02");
                         ("end", VStr "2024-05-03");
                         ("location", VStr "");
                         ("status", VStr "confirmed");
                         ("htmlLink", VStr "")]]))
       200,
     Example.st0).
Proof.
  apply (appointments_follow_the_events Example.lib Example.quiet Sample.clinic
           (VDict [("items", VList [Sample.timed_event; Sample.all_day_event])])
           [Sample.timed_event; Sample.all_day_event] Example.st0
           eq_refl eq_refl eq_refl eq_refl).
Defined.

Lemma format_events_raises (events : list value) (event : value) (e : exn) :
  In event events ->
  format_event event = Raise e ->
  forall formatted, exists e', format_events events formatted = Raise e'.
Proof.
  intros Hin Hraise. induction events as [| ev events IH]; intros formatted;
    [contradiction |].
  simpl. destruct (format_event ev) as [f |] eqn:Ef; simpl; [| now eexists].
  destruct Hin as [-> | Hin]; [congruence | now apply IH].
Qed.

(** X21.  One broken event hides all appointments.  If any event of the
    calendar's answer cannot be projected (it has no [id], no [start] or no
    [end], or one of the last two is not an object), the handler responds
    500 with the exception's text and lists no appointment at all. *)
Theorem one_broken_event_fails_all :
  forall (L : pylib) (W : world) (G : google) (result_ : value)
         (events : list value) (event : value) (e : exn) (st : state),
    google_service W "calendar" "v3" [calendar_readonly_scope] = Ok tt ->
    events_list G (CALENDAR_ID W) (utcnow G ++ "Z") = Ok result_ ->
    get result_ "items" (VList []) = Ok (VList events) ->
    In event events ->
    format_event event = Raise e ->
    exists e',
      get_appointments L W G st
      = (mkResponse (BJson (VDict [("error", VStr (exn_text L e'))])) 500, st).
Proof.
  intros L W G result_ events event e st Hs Hl Hi Hin Hraise.
  destruct (format_events_raises events event e Hin Hraise []) as [e' He'].
  exists e'. unfold get_appointments, handler.
  ok_step Hs. cbv zeta. ok_step Hl. ok_step Hi.
  ok_step (@eq_refl _ (iter (VList events))).
  rewrite (bind_lift_raise _ _ _ _ He'). reflexivity.
Qed.

Lemma one_broken_event_fails_all_witness :
  exists e',
    get_appointments Example.lib Example.quiet Sample.broken_calendar Example.st0
    = (mkResponse (BJson (VDict [("error", VStr (exn_text Example.lib e'))])) 500,
       Example.st0).
Proof.
  refine (one_broken_event_fails_all Example.lib Example.quiet Sample.broken_calendar
            _ _ (VDict [("start", VDict []); ("end", VDict [])]) KeyError Example.st0
            eq_refl eq_refl eq_refl _ eq_refl).
  right. left. reflexivity.
Defined.

(** ** The voice-platform views *)

(** X22.  A call is refused before it is placed.  Without a phone number
    (missing or empty) [POST /api/vapi/initiate-call] responds 400 with
    ["Phone number is required"], whatever the configuration; with a phone
    number but without one of [VAPI_API_KEY], [VAPI_ASSISTANT_ID] and
    [VAPI_PHONE_NUMBER] it responds 500 with the misconfiguration message.
    In both cases no request goes to the voice platform. *)
Theorem call_is_refused_before_it_is_placed :
  forall (L : pylib) (W : world) (kv : list (string * value)) (st : state),
    (truthy (lookup kv "phoneNumber") = false ->
     initiate_call L W (VDict kv) st
     = (mkResponse (BJson (VDict [("error", VStr "Phone number is required")])) 400,
        st))
    /\ (truthy (lookup kv "phoneNumber") = true ->
        present (getenv W "VAPI_API_KEY") = false
        \/ present (getenv W "VAPI_ASSISTANT_ID") = false
        \/ present (getenv W "VAPI_PHONE_NUMBER") = false ->
        initiate_call L W (VDict kv) st
        = (mkResponse
             (BJson (VDict [("error",
                             VStr "Server misconfiguration: Missing Vapi env vars")]))
             500,
           st)).
Proof.
  intros L W kv st.
  unfold initiate_call, handler.
  ok_step (get_dict kv "phoneNumber").
  ok_step (@eq_refl _ (get (VDict kv) "name" (VStr "Test User"))).
  ok_step (@eq_refl _ (get (VDict kv) "variables" (VDict []))).
  split.
  - intros H. rewrite H. reflexivity.
  - intros H Henv. rewrite H. cbn [negb]. cbv zeta.
    destruct Henv as [E | [E | E]]; rewrite E; cbn [negb orb];
      rewrite ?orb_true_r; reflexivity.
Qed.

Lemma call_is_refused_before_it_is_placed_witness :
  initiate_call Example.lib (Sample.voice (Ok Example.no_body))
                (VDict [("name", VStr "Alice"); ("phoneNumber", VStr "")]) Example.st0
  = (mkResponse (BJson (VDict [("error", VStr "Phone number is required")])) 400,
     Example.st0)
  /\ initiate_call Example.lib Example.quiet
                   (VDict [("phoneNumber", VStr "+15551234567")]) Example.st0
     = (mkResponse
          (BJson (VDict [("error",
                          VStr "Server misconfiguration: Missing Vapi env vars")]))
          500,
        Example.st0).
Proof.
  split.
  - apply (proj1 (call_is_refused_before_it_is_placed Example.lib
                    (Sample.voice (Ok Example.no_body))
                    [("name", VStr "Alice"); ("phoneNumber", VStr "")] Example.st0)).
    reflexivity.
  - apply (proj2 (call_is_refused_before_it_is_placed Example.lib Example.quiet
                    [("phoneNumber", VStr "+15551234567")] Example.st0)).
    + reflexivity.
    + left. reflexivity.
Defined.






(** X25.  The call listing.  Without [VAPI_API_KEY] (unset or empty)
    [GET /api/vapi/calls] answers 500 with the misconfiguration message.
    With it, the platform is asked for the calls with the [limit] query
    parameter copied as given, 50 when there is none; only a 200 is a
    success, reported with the answer's JSON body; every other status, 201
    included, comes back unchanged under a ["Vapi Error"]; a request that
    raises gives 500.  The state is never changed. *)
Theorem call_listing_is_relayed :
  forall (L : pylib) (W : world) (query : list (string * string)) (st : state),
    (present (getenv W "VAPI_API_KEY") = false ->
     get_vapi_calls L W query st
     = (mkResponse
          (BJson (VDict [("error",
                          VStr "Server misconfiguration: Missing VAPI_API_KEY")]))
          500,
        st))
    /\ (present (getenv W "VAPI_API_KEY") = true ->
        let limit := match arg query "limit" with
                     | Some given => given
                     | None => "50"
                     end in
        let answer := requests_get W ("https://api.vapi.ai/call?limit=" ++ limit) [] in
        let reply := get_vapi_calls L W query st in
        (forall r body_,
            answer = Ok r -> status_code r = 200 -> json r = Ok body_ ->
            reply = (mkResponse (BJson body_) 200, st))
        /\ (forall r,
              answer = Ok r -> status_code r <> 200 ->
              reply = (mkResponse
                         (BJson (VDict [("error", VStr "Vapi Error");
                                        ("details", VStr (text r))]))
                         (status_code r),
                       st))
        /\ (forall e,
              answer = Raise e ->
              reply = (mkResponse (BJson (VDict [("error", VStr (exn_text L e))])) 500,
                       st))).
Proof.
  intros L W query st. unfold get_vapi_calls, handler, vapi_calls_url. split.
  - intros H. rewrite H. reflexivity.
  - intros H. cbv zeta. rewrite H. cbn [negb]. repeat split.
    + intros r body_ Hr Hs Hj. unfold bind, lift, ret. rewrite Hr.
      rewrite Hs. cbn [Z.eqb Pos.eqb]. rewrite Hj. reflexivity.
    + intros r Hr Hs. unfold bind, lift, ret. rewrite Hr.
      destruct (Z.eqb_spec (status_code r) 200); [contradiction | reflexivity].
    + intros e He. unfold bind, lift, ret. rewrite He. reflexivity.
Qed.

Lemma call_listing_is_relayed_witness :
  get_vapi_calls Example.lib
    (voice_listing (Ok (mkHttp 201 "created" (Ok (VDict [])))))
    [("limit", "5")] Example.st0
  = (mkResponse
       (BJson (VDict [("error", VStr "Vapi Error"); ("details", VStr "created")]))
       201,
     Example.st0).
Proof.
  refine (proj1 (proj2 (proj2 (call_listing_is_relayed Example.lib
                   (voice_listing (Ok (mkHttp 201 "created" (Ok (VDict [])))))
                   [("limit", "5")] Example.st0) eq_refl))
                _ eq_refl _).
  discriminate.
Defined.

(** ** Webhook verification tokens *)

(** X26.  The Instagram verification falls back on the WhatsApp token.
    While [INSTAGRAM_VERIFY_TOKEN] is unset, the Instagram verification view
    answers every query exactly as the WhatsApp one does; once it is set,
    a subscription is verified with that token only; and when it is set to
    the empty string no query is verified at all. *)
Theorem instagram_verification_token :
  forall (W : world) (query : list (string * string)),
    (getenv W "INSTAGRAM_VERIFY_TOKEN" = None ->
     verify_instagram_webhook W query = verify_whatsapp_webhook W query)
    /\ (forall own,
          getenv W "INSTAGRAM_VERIFY_TOKEN" = Some own ->
          (status (verify_instagram_webhook W query) = 200
           <-> arg query "hub.mode" = Some "subscribe"
               /\ arg query "hub.verify_token" = Some own
               /\ own <> "")).
Proof.
  intros W query. split.
  - intros H. unfold verify_instagram_webhook, verify_whatsapp_webhook,
      instagram_verify_token, getenv_default. rewrite H. reflexivity.
  - intros own H.
    unfold verify_instagram_webhook, instagram_verify_token, getenv_default, verify.
    rewrite H. cbv zeta.
    destruct (arg query "hub.mode") as [mode |];
      destruct (arg query "hub.verify_token") as [token |]; cbn [present opt_eqb andb].
    + destruct (String.eqb_spec mode ""); cbn [negb andb].
      * split; [cbn; discriminate |].
        intros (Hm & _). subst. discriminate.
      * destruct (String.eqb_spec token ""); cbn [negb andb].
        -- split; [cbn; discriminate |].
           intros (_ & Ht & Ho). congruence.
        -- destruct (String.eqb_spec mode "subscribe"); cbn [andb].
           ++ destruct (String.eqb_spec token own).
              ** split; [| reflexivity]. intros _. subst. repeat split; congruence.
              ** split; [cbn; discriminate |]. intros (_ & Ht & _). congruence.
           ++ split; [cbn; discriminate |]. intros (Hm & _). congruence.
    + split; [destruct (negb _); cbn; discriminate |]. intros (_ & Ht & _). discriminate.
    + split; [cbn; discriminate |]. intros (Hm & _). discriminate.
    + split; [cbn; discriminate |]. intros (Hm & _). discriminate.
Qed.

Lemma instagram_verification_token_witness :
  verify_instagram_webhook
    (Example.with_env [("WHATSAPP_VERIFY_TOKEN", "shared")] Example.quiet)
    [("hub.mode", "subscribe"); ("hub.verify_token", "shared");
     ("hub.challenge", "1158201444")]
  = verify_whatsapp_webhook
      (Example.with_env [("WHATSAPP_VERIFY_TOKEN", "shared")] Example.quiet)
      [("hub.mode", "subscribe"); ("hub.verify_token", "shared");
       ("hub.challenge", "1158201444")].
Proof.
  apply (proj1 (instagram_verification_token
                  (Example.with_env [("WHATSAPP_VERIFY_TOKEN", "shared")] Example.quiet)
                  [("hub.mode", "subscribe"); ("hub.verify_token", "shared");
                   ("hub.challenge", "1158201444")])).
  reflexivity.
Defined.
